(** * BigQuery CI/CD scripts: a shallow embedding and its properties

    The three entry points of the repository are embedded here:
    - [scripts/load_data.py]            as [Module LoadData],
    - [scripts/run_transformations.py]  as [Module RunTransformations],
    - [test_connection.py]              as [Module TestConnection].

    Python strings are modelled by [string]; a character is a code point
    below 256.  The warehouse client, the JSON and YAML parsers, the
    checks that the client libraries make on a service account key and on
    a dataset id, and the float formatting of result rows are external
    collaborators: they are interfaces ([Warehouse], [Runtime]) and every
    theorem holds for all their implementations.  A script is a function
    from the state of the warehouse to a result (a value or an
    exception), the next state and the events of the run: console lines,
    files opened, sleeps and client calls.  Console lines are kept by
    kind; banners and separators are left out. *)

From Stdlib Require Import Ascii String ZArith List Lia Bool.
From stdpp Require Import gmap strings list fin_maps pretty.

#[local] Set Warnings "-register-all".

(** ** Python [str] methods used by the scripts *)

Module PyStr.

(** [str.isspace] on one character (code points below 256): TAB..CR,
    FS..US, SPACE, NEL and NBSP. *)
Definition isspace (c : ascii) : bool :=
  let n := N_of_ascii c in
  (((9 <=? n) && (n <=? 13)) || ((28 <=? n) && (n <=? 32))
   || (n =? 133) || (n =? 160))%N.

Fixpoint lstrip (s : string) : string :=
  match s with
  | EmptyString => EmptyString
  | String c s' => if isspace c then lstrip s' else s
  end.

Fixpoint rstrip (s : string) : string :=
  match s with
  | EmptyString => EmptyString
  | String c s' =>
      match rstrip s' with
      | EmptyString => if isspace c then EmptyString else String c EmptyString
      | r => String c r
      end
  end.

(** [s.strip()] *)
Definition strip (s : string) : string := rstrip (lstrip s).

(** Truthiness of a [str]: the empty string is false. *)
Definition truthy (s : string) : bool :=
  match s with EmptyString => false | String _ _ => true end.

(** [s.startswith(p)] *)
Fixpoint startswith (s p : string) : bool :=
  match p, s with
  | EmptyString, _ => true
  | String _ _, EmptyString => false
  | String a p', String b s' => if ascii_dec a b then startswith s' p' else false
  end.

(** [s.split(sep)] for a one-character separator: never returns the
    empty list, [''.split(';') = ['']]. *)
Fixpoint split (sep : ascii) (s : string) : list string :=
  match s with
  | EmptyString => [EmptyString]
  | String c s' =>
      if ascii_dec c sep then EmptyString :: split sep s'
      else match split sep s' with
           | h :: t => String c h :: t
           | [] => [String c EmptyString]
           end
  end.

(** [old in s] *)
Fixpoint contains (s old : string) : bool :=
  startswith s old ||
  match s with
  | EmptyString => false
  | String _ s' => contains s' old
  end.

(** Left-to-right scan of [str.replace] for a non-empty [old]: [skip]
    counts the characters of a match still to be dropped. *)
Fixpoint replace_scan (old new : string) (skip : nat) (s : string) : string :=
  match s with
  | EmptyString => EmptyString
  | String c s' =>
      match skip with
      | S k => replace_scan old new k s'
      | O =>
          if startswith s old
          then new +:+ replace_scan old new (String.length old - 1) s'
          else String c (replace_scan old new 0 s')
      end
  end.

(** [str.replace] with an empty [old] puts [new] around every character. *)
Fixpoint intersperse (new s : string) : string :=
  match s with
  | EmptyString => new
  | String c s' => new +:+ String c (intersperse new s')
  end.

(** [s.replace(old, new)]: all non-overlapping occurrences, leftmost
    first. *)
Definition replace (s old new : string) : string :=
  match old with
  | EmptyString => intersperse new s
  | String _ _ => replace_scan old new 0 s
  end.

(** A [str] by code points, for results that leave the code points
    below 256. *)
Definition code_points (s : string) : list N :=
  map N_of_ascii (list_ascii_of_string s).

(** The upper case of one character: [a]..[z] and the accented small
    letters move down by 32; the micro sign (181) and the y with
    diaeresis (255) have their capitals at 924 and 376, and the sharp s
    (223) becomes [SS]. *)
Definition upper_char (c : ascii) : list N :=
  let n := N_of_ascii c in
  if ((97 <=? n) && (n <=? 122))%N then [(n - 32)%N]
  else if (n =? 181)%N then [924%N]
  else if (n =? 223)%N then [83%N; 83%N]
  else if ((224 <=? n) && (n <=? 254) && negb (n =? 247))%N then [(n - 32)%N]
  else if (n =? 255)%N then [376%N]
  else [n].

(** [s.upper()] *)
Definition upper (s : string) : list N :=
  flat_map upper_char (list_ascii_of_string s).

End PyStr.

(** ** Values, exceptions and the external interfaces *)

(** What [json.load] / [json.loads] return.  A float keeps its literal;
    no script computes with it. *)
Inductive json : Type :=
| JNull
| JBool (b : bool)
| JInt (n : Z)
| JFloat (literal : string)
| JStr (s : string)
| JArr (items : list json)
| JObj (members : gmap string json).

(** The configuration document: a flat mapping of named string settings
    (what [yaml.safe_load] returns for [config.yaml]). *)
Abbreviation config := (gmap string string).

(** The exceptions that occur; all derive from [Exception] and are caught
    by [except Exception]. *)
Inductive exn : Type :=
| KeyError (key : string)
| TypeError
| AttributeError
| FileNotFoundError (path : string)
| JSONDecodeError
| YAMLError
| ImportError
| ValueError
| ApiError (message : string).

Inductive result (A : Type) : Type :=
| Ok (a : A)
| Raise (e : exn).
Arguments Ok {A} a.
Arguments Raise {A} e.

(** [bigquery.Dataset]: built from its id, then filled by attribute
    assignment. *)
Record Dataset := {
  ds_id : string;
  ds_location : option string;
  ds_description : option string
}.

Definition set_location (v : string) (d : Dataset) : Dataset :=
  {| ds_id := ds_id d; ds_location := Some v; ds_description := ds_description d |}.
Definition set_description (v : string) (d : Dataset) : Dataset :=
  {| ds_id := ds_id d; ds_location := ds_location d; ds_description := Some v |}.

Record Table := { num_rows : Z }.

Abbreviation Row := (gmap string json).

(** A finished query job: [client.query(sql)] followed by [.result()]. *)
Record QueryJob := {
  total_bytes_processed : option Z;
  num_dml_affected_rows : option Z;
  rows : list Row
}.

(** The warehouse client API over a service state [W].  Each call may
    raise and may change the service. *)
Class Warehouse (W : Type) := {
  new_client : option json -> string -> W -> result unit * W;
  get_dataset : string -> W -> result Dataset * W;
  create_dataset : Dataset -> W -> result unit * W;
  list_datasets : W -> result (list string) * W;
  get_table : string -> W -> result Table * W;
  query : string -> W -> result QueryJob * W
}.

(** The parsers, the credential check of
    [Credentials.from_service_account_info], the id check of
    [bigquery.Dataset] (whether [DatasetReference.from_string] takes the
    text as a [project.dataset] id) and the row formatting the scripts
    call; [None] is the parser's exception. *)
Class Runtime := {
  json_loads : string -> option json;
  yaml_safe_load : string -> option config;
  valid_service_account_info : json -> bool;
  accepts_dataset_id : string -> bool;
  format_summary_row : Row -> result string
}.

(** [bigquery.Dataset(id)]: the id is parsed first, and one that is not
    a [project.dataset] id raises [ValueError]. *)
Definition Dataset_new {HR : Runtime} (id : string) : result Dataset :=
  if accepts_dataset_id id
  then Ok {| ds_id := id; ds_location := None; ds_description := None |}
  else Raise ValueError.

(** The process-wide inputs: environment, files, and where the script
    lives ([os.path.dirname(__file__)]). *)
Record process := {
  environ : gmap string string;
  files : gmap string string;
  script_dir : string;
  libraries_installed : bool
}.

(** Lines written to the console, by kind, with the values they show. *)
Inductive line : Type :=
| LoadingConfigFrom (file : string)
| ConfigValue (name value : string)
| AuthServiceAccount
| AuthLocal
| DatasetExists (id : string)
| CreatingDataset (id : string)
| DatasetCreated (id : string)
| FileNotFound (path : string)
| FoundStatements (n : nat)
| Executing (description : string)
| QuerySuccess
| AffectedRows (n : Z)
| QueryError (e : exn)
| StatementError (i : nat) (e : exn)
| TableExists (n : Z)
| TableNotFound
| SummaryRow (text : string)
| CouldNotVerify (e : exn)
| AllCompleted
| EnvNotSet
| EnvSet (len : nat)
| ValidJson
| CredentialField (name : string) (value : json)
| InvalidJson
| LibraryImported
| CannotImport
| ConfigLoaded
| CannotLoadConfig (e : exn)
| ClientCreated
| CannotCreateClient (e : exn)
| CanAccessApi (datasets : list string)
| CannotAccessApi (e : exn)
| TargetDatasetExists
| TargetDatasetMissing
| AllTestsPassed
| TestsFailed.

(** What a run does that can be observed from outside. *)
Inductive event : Type :=
| EvPrint (l : line)
| EvOpen (path : string)
| EvSleep (seconds : nat)
| EvClient (credentials : option json) (project : string)
| EvGetDataset (id : string)
| EvCreateDataset (d : Dataset)
| EvListDatasets
| EvGetTable (id : string)
| EvQuery (sql : string).

(** ** The monad of a script: service state, result, events *)

Section Script.
Context {W : Type}.

Record outcome (A : Type) := Outcome {
  res : result A;
  wh : W;
  evs : list event
}.
Arguments Outcome {A}.
Arguments res {A}.
Arguments wh {A}.
Arguments evs {A}.

Definition M (A : Type) : Type := W -> outcome A.

Definition ret {A} (a : A) : M A := fun w => Outcome (Ok a) w [].
Definition raise {A} (e : exn) : M A := fun w => Outcome (Raise e) w [].

Definition bind {A B} (m : M A) (k : A -> M B) : M B := fun w =>
  let o := m w in
  match res o with
  | Ok a => let o' := k a (wh o) in Outcome (res o') (wh o') (evs o ++ evs o')
  | Raise e => Outcome (Raise e) (wh o) (evs o)
  end.

(** [try: m  except Exception as e: h e] *)
Definition try_except {A} (m : M A) (h : exn -> M A) : M A := fun w =>
  let o := m w in
  match res o with
  | Ok a => o
  | Raise e => let o' := h e (wh o) in Outcome (res o') (wh o') (evs o ++ evs o')
  end.

(** [try: m  except SomeError as e: h e], for the errors [catches]
    accepts; any other exception propagates. *)
Definition try_except_if {A} (catches : exn -> bool) (m : M A) (h : exn -> M A)
    : M A := fun w =>
  let o := m w in
  match res o with
  | Ok a => o
  | Raise e =>
      if catches e
      then let o' := h e (wh o) in Outcome (res o') (wh o') (evs o ++ evs o')
      else o
  end.

Definition emit (e : event) : M unit := fun w => Outcome (Ok tt) w [e].
Definition print (l : line) : M unit := emit (EvPrint l).
Definition sleep (n : nat) : M unit := emit (EvSleep n).

(** A client call: logged, then performed on the service. *)
Definition call {A} (e : event) (op : W -> result A * W) : M A := fun w =>
  let '(r, w') := op w in Outcome r w' [e].

Definition lift {A} (r : result A) : M A := fun w => Outcome r w [].

End Script.

Arguments Outcome {W A}.
Arguments res {W A}.
Arguments wh {W A}.
Arguments evs {W A}.
Arguments M W A : clear implicits.

Notation "x <- m ;; k" := (bind m (fun x => k))
  (at level 100, m at next level, right associativity).
Notation "m ;;; k" := (bind m (fun _ => k))
  (at level 100, right associativity).

(** [d[key]] on a dict *)
Definition getitem {V} (d : gmap string V) (key : string) : result V :=
  match d !! key with
  | Some v => Ok v
  | None => Raise (KeyError key)
  end.

(** [os.path.join(a, b)] on POSIX. *)
Definition path_join (a b : string) : string :=
  if PyStr.startswith b "/" then b
  else match a with
       | EmptyString => b
       | _ => if PyStr.startswith (String.rev a) "/" then a +:+ b else a +:+ "/" +:+ b
       end.

(** [with open(path, 'r') as f: f.read()] *)
Definition read_file {W} (p : process) (path : string) : M W string :=
  emit (EvOpen path) ;;;
  match files p !! path with
  | Some text => ret text
  | None => raise (FileNotFoundError path)
  end.

Definition result_bind {A B} (r : result A) (k : A -> result B) : result B :=
  match r with
  | Ok a => k a
  | Raise e => Raise e
  end.

(** [json.loads(text)] *)
Definition loads {HR : Runtime} (text : string) : result json :=
  match json_loads text with
  | Some j => Ok j
  | None => Raise JSONDecodeError
  end.

(** [yaml.safe_load(f)] *)
Definition safe_load {HR : Runtime} (text : string) : result config :=
  match yaml_safe_load text with
  | Some c => Ok c
  | None => Raise YAMLError
  end.

(** The client handle the scripts pass around. *)
Record Client := {
  client_credentials : option json;
  client_project : string
}.

(** What [Credentials.from_service_account_info] raises for a key it
    refuses: it starts with [info.keys()], which only an object has; an
    object is refused with [ValueError]. *)
Definition credentials_error (info : json) : exn :=
  match info with
  | JObj _ => ValueError
  | _ => AttributeError
  end.

(** [bigquery.Client(credentials=..., project=...)], after
    [Credentials.from_service_account_info] when a key is given. *)
Definition make_client {W} {HW : Warehouse W} {HR : Runtime}
    (info : option json) (project : result string) : M W Client :=
  match info with
  | Some i =>
      if valid_service_account_info i then ret tt
      else raise (credentials_error i)
  | None => ret tt
  end ;;;
  proj <- lift project ;;
  call (EvClient info proj) (new_client info proj) ;;;
  ret {| client_credentials := info; client_project := proj |}.

(** ** scripts/run_transformations.py *)

Module RunTransformations.
Section Defs.
Context {W : Type} {HW : Warehouse W} {HR : Runtime}.
Variable p : process.

Definition load_config : M W config :=
  let config_file := default "config.yaml" (environ p !! "CONFIG_FILE") in
  let config_path :=
    path_join (path_join (path_join (script_dir p) "..") "config") config_file in
  print (LoadingConfigFrom config_file) ;;;
  text <- read_file p config_path ;;
  lift (safe_load text).

Definition get_bigquery_client (cfg : config) : M W Client :=
  let gcp_credentials := environ p !! "GCP_SERVICE_ACCOUNT_KEY" in
  match gcp_credentials with
  | Some (String c k) =>
      print AuthServiceAccount ;;;
      credentials_info <- lift (loads (String c k)) ;;
      make_client (Some credentials_info) (getitem cfg "gcp_project_id")
  | _ =>
      print AuthLocal ;;;
      make_client None (getitem cfg "gcp_project_id")
  end.

Definition read_sql_file (sql_file_path : string) : M W string :=
  read_file p sql_file_path.

(** The [replacements] dict, in insertion order. *)
Definition replacements (cfg : config) : result (list (string * string)) :=
  result_bind (getitem cfg "gcp_project_id") (fun project =>
  result_bind (getitem cfg "dataset_id") (fun dataset =>
  result_bind (getitem cfg "table_id") (fun table =>
  Ok [("{project_id}", project); ("{dataset_id}", dataset); ("{table_id}", table)]))).

Definition substitute_parameters (sql_content : string) (cfg : config)
    : result string :=
  result_bind (replacements cfg) (fun items =>
  Ok (fold_left (fun content '(placeholder, value) =>
                   PyStr.replace content placeholder value)
                items sql_content)).

Definition execute_sql (client : Client) (sql_query description : string)
    : M W (list Row) :=
  print (Executing description) ;;;
  try_except
    (query_job <- call (EvQuery sql_query) (query sql_query) ;;
     (* total_bytes_processed / 1024 / 1024 *)
     match total_bytes_processed query_job with
     | Some _ => print QuerySuccess
     | None => raise TypeError
     end ;;;
     match num_dml_affected_rows query_job with
     | Some n => print (AffectedRows n)
     | None => ret tt
     end ;;;
     ret (rows query_job))
    (fun e => print (QueryError e) ;;; raise e).

(** [[s.strip() for s in sql_content.split(';') if s.strip()]] *)
Definition split_statements (sql_content : string) : list string :=
  map PyStr.strip
      (List.filter (fun s => PyStr.truthy (PyStr.strip s))
                   (PyStr.split ";" sql_content)).

(** The guard of the loop body: the statement is skipped. *)
Definition skipped (statement : string) : bool :=
  PyStr.startswith statement "--" || negb (PyStr.truthy statement).

(** One turn of [for i, statement in enumerate(statements, 1)]. *)
Definition run_statement (client : Client) (description : string)
    (total i : nat) (statement : string) : M W unit :=
  if skipped statement then ret tt
  else
    try_except
      (execute_sql client statement
         (description +:+ " - Statement " +:+ pretty i +:+ "/" +:+ pretty total) ;;;
       sleep 1)
      (fun e => print (StatementError i e)).

Fixpoint run_statements (client : Client) (description : string)
    (total i : nat) (statements : list string) : M W unit :=
  match statements with
  | [] => ret tt
  | statement :: rest =>
      run_statement client description total i statement ;;;
      run_statements client description total (S i) rest
  end.

Definition sql_path_of (sql_filename : string) : string :=
  path_join (path_join (path_join (script_dir p) "..") "sql") sql_filename.

Definition run_sql_file (client : Client) (cfg : config)
    (sql_filename description : string) : M W unit :=
  let sql_path := sql_path_of sql_filename in
  if negb (bool_decide (is_Some (files p !! sql_path))) then
    print (FileNotFound sql_path)
  else
    sql_content <- read_sql_file sql_path ;;
    sql_content <- lift (substitute_parameters sql_content cfg) ;;
    let statements := split_statements sql_content in
    print (FoundStatements (length statements)) ;;;
    run_statements client description (length statements) 1 statements.

Fixpoint print_rows (results : list Row) : M W unit :=
  match results with
  | [] => ret tt
  | row :: rest =>
      text <- lift (format_summary_row row) ;;
      print (SummaryRow text) ;;;
      print_rows rest
  end.

Definition verify_query (project dataset : string) : string :=
  "
    SELECT 
        department,
        employee_count,
        avg_salary,
        total_salary
    FROM 
        `" +:+ project +:+ "." +:+ dataset +:+ ".department_summary`
    ORDER BY 
        total_salary DESC
    ".

Definition verify_transformations (client : Client) (cfg : config) : M W unit :=
  project <- lift (getitem cfg "gcp_project_id") ;;
  dataset <- lift (getitem cfg "dataset_id") ;;
  let table_id := project +:+ "." +:+ dataset +:+ ".department_summary" in
  found <- try_except
             (table <- call (EvGetTable table_id) (get_table table_id) ;;
              print (TableExists (num_rows table)) ;;;
              ret true)
             (fun _ => print TableNotFound ;;; ret false) ;;
  if found then
    try_except
      (results <- execute_sql client (verify_query project dataset)
                              "Verification query" ;;
       print_rows results)
      (fun e => print (CouldNotVerify e))
  else ret tt.

Definition main : M W Z :=
  cfg <- load_config ;;
  project <- lift (getitem cfg "gcp_project_id") ;;
  print (ConfigValue "Project" project) ;;;
  dataset <- lift (getitem cfg "dataset_id") ;;
  print (ConfigValue "Dataset" dataset) ;;;
  client <- get_bigquery_client cfg ;;
  run_sql_file client cfg "transformations.sql" "Data transformations" ;;;
  sleep 3 ;;;
  verify_transformations client cfg ;;;
  print AllCompleted ;;;
  ret 0%Z.

End Defs.
End RunTransformations.

(** [exit(main())]: the status of the process; an uncaught exception
    ends it with status 1. *)
Definition exit_status (r : result Z) : Z :=
  match r with
  | Ok n => n
  | Raise _ => 1%Z
  end.

(** ** scripts/load_data.py *)

(** What a [bigquery.SchemaField] keeps: the name, the type and the
    description as they were given, and the mode in upper case ([None]
    when [None] was given). *)
Record SchemaField := {
  name : json;
  field_type : json;
  mode : option (list N);
  description : json
}.

(** [bigquery.SchemaField(name=.., field_type=.., mode=.., description=..)]:
    the constructor calls [mode.upper()], which only a [str] has. *)
Definition SchemaField_new (name field_type mode description : json)
    : result SchemaField :=
  match mode with
  | JStr s =>
      Ok {| name := name; field_type := field_type;
            mode := Some (PyStr.upper s); description := description |}
  | JNull =>
      Ok {| name := name; field_type := field_type;
            mode := None; description := description |}
  | _ => Raise AttributeError
  end.

(** [for field in value]: what iterating a parsed JSON value yields. *)
Definition iterate (value : json) : result (list json) :=
  match value with
  | JArr items => Ok items
  | JObj members => Ok (map (fun kv => JStr (fst kv)) (map_to_list members))
  | JStr s => Ok (map (fun c => JStr (String c EmptyString)) (list_ascii_of_string s))
  | _ => Raise TypeError
  end.

(** [field[key]] with a string key. *)
Definition subscript (field : json) (key : string) : result json :=
  match field with
  | JObj members => getitem members key
  | _ => Raise TypeError
  end.

(** [field.get(key, fallback)] *)
Definition get_or (field : json) (key : string) (fallback : json) : result json :=
  match field with
  | JObj members => Ok (default fallback (members !! key))
  | _ => Raise AttributeError
  end.

Module LoadData.
Section Defs.
Context {W : Type} {HW : Warehouse W} {HR : Runtime}.
Variable p : process.

Definition load_config : M W config :=
  let config_path :=
    path_join (path_join (path_join (script_dir p) "..") "config") "config.yaml" in
  text <- read_file p config_path ;;
  lift (safe_load text).

Definition get_bigquery_client (cfg : config) : M W Client :=
  let gcp_credentials := environ p !! "GCP_SERVICE_ACCOUNT_KEY" in
  match gcp_credentials with
  | Some (String c k) =>
      print AuthServiceAccount ;;;
      credentials_info <- lift (loads (String c k)) ;;
      make_client (Some credentials_info) (getitem cfg "gcp_project_id")
  | _ =>
      print AuthLocal ;;;
      make_client None (getitem cfg "gcp_project_id")
  end.

Definition create_dataset_if_not_exists (client : Client) (cfg : config)
    : M W unit :=
  project <- lift (getitem cfg "gcp_project_id") ;;
  dataset <- lift (getitem cfg "dataset_id") ;;
  let dataset_id := project +:+ "." +:+ dataset in
  try_except
    (call (EvGetDataset dataset_id) (get_dataset dataset_id) ;;;
     print (DatasetExists dataset_id))
    (fun _ =>
       print (CreatingDataset dataset_id) ;;;
       dataset <- lift (Dataset_new dataset_id) ;;
       location <- lift (getitem cfg "location") ;;
       let dataset := set_location location dataset in
       let dataset := set_description "Dataset created by CI/CD pipeline" dataset in
       call (EvCreateDataset dataset) (create_dataset dataset) ;;;
       print (DatasetCreated dataset_id)).

(** The body of [for field in schema_json], from the [schema] built so
    far. *)
Fixpoint append_fields (schema : list SchemaField) (fields : list json)
    : result (list SchemaField) :=
  match fields with
  | [] => Ok schema
  | field :: rest =>
      result_bind (subscript field "name") (fun n =>
      result_bind (subscript field "type") (fun t =>
      result_bind (get_or field "mode" (JStr "NULLABLE")) (fun m =>
      result_bind (get_or field "description" (JStr "")) (fun d =>
      result_bind (SchemaField_new n t m d) (fun schema_field =>
      append_fields (schema ++ [schema_field]) rest)))))
  end.

Definition load_table_schema (schema_file : string) : M W (list SchemaField) :=
  let schema_path :=
    path_join (path_join (path_join (path_join (script_dir p) "..") "data")
                         "schemas") schema_file in
  text <- read_file p schema_path ;;
  schema_json <- lift (loads text) ;;
  fields <- lift (iterate schema_json) ;;
  lift (append_fields [] fields).

End Defs.
End LoadData.

(** ** test_connection.py *)

Module TestConnection.
Section Defs.
Context {W : Type} {HW : Warehouse W} {HR : Runtime}.
Variable p : process.

Definition is_json_decode_error (e : exn) : bool :=
  match e with JSONDecodeError => true | _ => false end.

Definition test_environment : M W bool :=
  let key := environ p !! "GCP_SERVICE_ACCOUNT_KEY" in
  match key with
  | Some (String c k) =>
      let key := String c k in
      print (EnvSet (String.length key)) ;;;
      try_except_if is_json_decode_error
        (creds <- lift (loads key) ;;
         print ValidJson ;;;
         project_id <- lift (get_or creds "project_id" (JStr "NOT FOUND")) ;;
         print (CredentialField "Project ID" project_id) ;;;
         client_email <- lift (get_or creds "client_email" (JStr "NOT FOUND")) ;;
         print (CredentialField "Client Email" client_email) ;;;
         ret true)
        (fun _ => print InvalidJson ;;; ret false)
  | _ =>
      print EnvNotSet ;;;
      ret false
  end.

(** The [try] blocks of [test_bigquery_connection]; [None] stands for
    the handler's [return False]. *)
Definition load_config_step : M W (option config) :=
  try_except
    (text <- read_file p "config/config.yaml" ;;
     cfg <- lift (safe_load text) ;;
     print ConfigLoaded ;;;
     project <- lift (getitem cfg "gcp_project_id") ;;
     print (ConfigValue "Project" project) ;;;
     dataset <- lift (getitem cfg "dataset_id") ;;
     print (ConfigValue "Dataset" dataset) ;;;
     ret (Some cfg))
    (fun e => print (CannotLoadConfig e) ;;; ret None).

Definition create_client_step (cfg : config) : M W (option Client) :=
  try_except
    (let gcp_credentials := environ p !! "GCP_SERVICE_ACCOUNT_KEY" in
     credentials_info <- lift (match gcp_credentials with
                               | Some text => loads text
                               | None => Raise TypeError
                               end) ;;
     client <- make_client (Some credentials_info) (getitem cfg "gcp_project_id") ;;
     print ClientCreated ;;;
     ret (Some client))
    (fun e => print (CannotCreateClient e) ;;; ret None).

Definition api_access_step (client : Client) : M W bool :=
  try_except
    (datasets <- call EvListDatasets list_datasets ;;
     print (CanAccessApi datasets) ;;;
     ret true)
    (fun e => print (CannotAccessApi e) ;;; ret false).

Definition test_bigquery_connection : M W bool :=
  if negb (libraries_installed p) then
    print CannotImport ;;; ret false
  else
    print LibraryImported ;;;
    loaded <- load_config_step ;;
    match loaded with
    | None => ret false
    | Some cfg =>
        created <- create_client_step cfg ;;
        match created with
        | None => ret false
        | Some client =>
            reachable <- api_access_step client ;;
            if negb reachable then ret false
            else
              project <- lift (getitem cfg "gcp_project_id") ;;
              dataset <- lift (getitem cfg "dataset_id") ;;
              let dataset_id := project +:+ "." +:+ dataset in
              try_except
                (call (EvGetDataset dataset_id) (get_dataset dataset_id) ;;;
                 print TargetDatasetExists)
                (fun _ => print TargetDatasetMissing) ;;;
              ret true
        end
    end.

Definition main : M W Z :=
  let success := true in
  passed <- test_environment ;;
  let success := if negb passed then false else success in
  success <- (if success then
                passed <- test_bigquery_connection ;;
                ret (if negb passed then false else success)
              else ret success) ;;
  (if success then print AllTestsPassed else print TestsFailed) ;;;
  ret (if success then 0%Z else 1%Z).

End Defs.
End TestConnection.

(** The events that reach the warehouse API. *)
Definition is_api_call (e : event) : bool :=
  match e with
  | EvClient _ _ | EvGetDataset _ | EvCreateDataset _ | EvListDatasets
  | EvGetTable _ | EvQuery _ => true
  | _ => false
  end.

Definition is_create_dataset (e : event) : bool :=
  match e with EvCreateDataset _ => true | _ => false end.

Definition queries_of (es : list event) : list string :=
  omap (fun e => match e with EvQuery sql => Some sql | _ => None end) es.

(** Following the spec's words ("comment-only fragments"): every line of
    the fragment is blank or is a [--] line comment. *)
Definition comment_only (fragment : string) : bool :=
  forallb (fun l => negb (PyStr.truthy (PyStr.strip l))
                    || PyStr.startswith (PyStr.strip l) "--")
          (PyStr.split "010" fragment).

(** [c in s] for one character. *)
Fixpoint has_char (c : ascii) (s : string) : bool :=
  match s with
  | EmptyString => false
  | String a s' => if ascii_dec c a then true else has_char c s'
  end.

(** ** A small warehouse and runtime to run the scripts on *)

(** Datasets and tables by id; a query is rejected when its text is
    listed in [st_rejected]. *)
Record Store := {
  st_datasets : gmap string Dataset;
  st_tables : gmap string Table;
  st_rejected : list string
}.

Definition store_lookup {A} (what : string) (m : gmap string A) (id : string)
    (st : Store) : result A * Store :=
  match m !! id with
  | Some a => (Ok a, st)
  | None => (Raise (ApiError ("Not found: " +:+ what +:+ " " +:+ id)), st)
  end.

#[export] Instance store_warehouse : Warehouse Store := {|
  new_client := fun _ _ st => (Ok tt, st);
  get_dataset := fun id st => store_lookup "dataset" (st_datasets st) id st;
  create_dataset := fun d st =>
    match st_datasets st !! ds_id d with
    | Some _ => (Raise (ApiError "Already exists"), st)
    | None => (Ok tt, {| st_datasets := <[ds_id d := d]> (st_datasets st);
                         st_tables := st_tables st;
                         st_rejected := st_rejected st |})
    end;
  list_datasets := fun st => (Ok (map fst (map_to_list (st_datasets st))), st);
  get_table := fun id st => store_lookup "table" (st_tables st) id st;
  query := fun sql st =>
    if bool_decide (sql ∈ st_rejected st)
    then (Raise (ApiError "Bad request"), st)
    else (Ok {| total_bytes_processed := Some 0%Z;
                num_dml_affected_rows := None;
                rows := [] |}, st)
|}.

(** A runtime that knows the documents listed in its two tables, takes
    every object as a key and every id with one dot as a dataset id. *)
Definition table_runtime (jsons : list (string * json))
    (yamls : list (string * config)) : Runtime := {|
  json_loads := fun text => (list_to_map jsons : gmap string json) !! text;
  yaml_safe_load := fun text => (list_to_map yamls : gmap string config) !! text;
  valid_service_account_info := fun info =>
    match info with JObj _ => true | _ => false end;
  accepts_dataset_id := fun id => bool_decide (length (PyStr.split "." id) = 2);
  format_summary_row := fun _ => Ok "row"
|}.

Definition demo_config : config :=
  {[ "gcp_project_id" := "proj"; "dataset_id" := "hr"; "table_id" := "employees";
     "location" := "US" ]}.

Definition demo_store : Store :=
  {| st_datasets := ∅; st_tables := ∅; st_rejected := ["B"] |}.

Definition demo_runtime : Runtime :=
  table_runtime
    [("{}", JObj ∅);
     ("[schema]",
      JArr [JObj {[ "name" := JStr "id"; "type" := JStr "INTEGER";
                    "mode" := JStr "REQUIRED" ]};
            JObj {[ "name" := JStr "dept"; "type" := JStr "STRING";
                    "description" := JStr "Department" ]}])]
    [("demo", demo_config);
     ("prod", <["dataset_id" := "hr_prod"]> demo_config)].

Definition demo_process : process :=
  {| environ := ∅;
     files := {[ "/app/scripts/../config/config.yaml" := "demo";
                 "/app/scripts/../config/config.prod.yaml" := "prod";
                 "config/config.yaml" := "demo";
                 "/app/scripts/../data/schemas/employees.json" := "[schema]";
                 "/app/scripts/../sql/transformations.sql" := "A; B;; C" ]};
     script_dir := "/app/scripts";
     libraries_installed := true |}.

Definition with_environ (env : gmap string string) (p : process) : process :=
  {| environ := env; files := files p; script_dir := script_dir p;
     libraries_installed := libraries_installed p |}.

Definition with_file (path : string) (text : option string) (p : process)
    : process :=
  {| environ := environ p;
     files := match text with
              | Some t => <[path := t]> (files p)
              | None => delete path (files p)
              end;
     script_dir := script_dir p; libraries_installed := libraries_installed p |}.


(** [sep.join(parts)] *)
Fixpoint join (sep : ascii) (parts : list string) : string :=
  match parts with
  | [] => EmptyString
  | [part] => part
  | part :: rest => part +:+ String sep (join sep rest)
  end.

(** The SQL text of the spec's substitution example. *)
Definition select_all : string :=
  "SELECT * FROM {project_id}.{dataset_id}.{table_id}".

Definition pdt_config : config :=
  {[ "gcp_project_id" := "p"; "dataset_id" := "d"; "table_id" := "t" ]}.

(** A SQL text cut at its placeholders: stretches of other text and, in
    between, the places where a placeholder stands. *)
Inductive piece : Type :=
| Other (text : string)
| ProjectId
| DatasetId
| TableId.

(** A piece as it stands in the SQL file. *)
Definition written (x : piece) : string :=
  match x with
  | Other text => text
  | ProjectId => "{project_id}"
  | DatasetId => "{dataset_id}"
  | TableId => "{table_id}"
  end.

(** A piece with its placeholder replaced by the value. *)
Definition filled (p d t : string) (x : piece) : string :=
  match x with
  | Other text => text
  | ProjectId => p
  | DatasetId => d
  | TableId => t
  end.

Definition glue (parts : list string) : string :=
  fold_right String.append EmptyString parts.

(** The other text of a piece has no opening brace. *)
Definition plain (x : piece) : Prop :=
  match x with
  | Other text => has_char "{" text = false
  | _ => True
  end.

(** Putting a value where one placeholder stands. *)
Definition fill_one (hole : piece) (value : string) (x : piece) : piece :=
  match hole, x with
  | ProjectId, ProjectId | DatasetId, DatasetId | TableId, TableId => Other value
  | _, _ => x
  end.

(** A text that names its table three times. *)
Definition thrice : list piece :=
  [Other "INSERT INTO "; TableId; Other " SELECT * FROM "; ProjectId; Other ".";
   DatasetId; Other "."; TableId; Other " UNION ALL SELECT * FROM "; TableId;
   Other "_old"].

(** A configuration whose project id holds a placeholder. *)
Definition nested_config : config :=
  {[ "gcp_project_id" := "acme-{dataset_id}"; "dataset_id" := "hr";
     "table_id" := "employees" ]}.

(** ** Predicates on scripts *)

Section ScriptPredicates.
Context {W : Type}.

(** Every event of [m] satisfies [P], from every service state. *)
Definition only {A} (P : event -> Prop) (m : M W A) : Prop :=
  forall w, Forall P (evs (m w)).

(** [m] gives [v] whenever it emits [x]. *)
Definition reaching {A} (x : event) (v : A) (m : M W A) : Prop :=
  forall w, In x (evs (m w)) -> res (m w) = Ok v.

End ScriptPredicates.

(** Any event but the closing line of the transformation runner. *)
Definition not_closing (e : event) : Prop := e <> EvPrint AllCompleted.

(** A SQL file whose only statement is preceded by a comment line. *)
Definition commented_sql : string :=
  "-- Department totals
CREATE TABLE summary AS SELECT 1;
".

Definition commented_fragment : string :=
  "-- Department totals
CREATE TABLE summary AS SELECT 1".

Definition commented_process : process :=
  with_file "/app/scripts/../sql/transformations.sql" (Some commented_sql)
            demo_process.

Definition missing_process : process :=
  with_file "/app/scripts/../sql/transformations.sql" None demo_process.

Definition demo_client : Client :=
  {| client_credentials := None; client_project := "proj" |}.

(** A run that selects the production configuration. *)
Definition prod_process : process :=
  with_environ {[ "CONFIG_FILE" := "config.prod.yaml" ]} demo_process.

Definition prod_config : config := <["dataset_id" := "hr_prod"]> demo_config.

(** A member of an entry that is a string when it is there. *)
Definition text_or_absent (entry : gmap string json) (key : string) : Prop :=
  match entry !! key with
  | None | Some (JStr _) => True
  | Some _ => False
  end.

(** A field entry of a schema file: its name and its type are strings,
    and so are its mode and its description when it has them. *)
Definition field_entry (entry : gmap string json) : Prop :=
  (exists n, entry !! "name" = Some (JStr n))
  /\ (exists t, entry !! "type" = Some (JStr t))
  /\ text_or_absent entry "mode"
  /\ text_or_absent entry "description".

(** What a field definition takes from its entry in the schema file: the
    name, the type, the mode in upper case or [NULLABLE] without one, and
    the description or the empty string without one. *)
Definition carries (entry : gmap string json) (f : SchemaField) : Prop :=
  entry !! "name" = Some (name f)
  /\ entry !! "type" = Some (field_type f)
  /\ (entry !! "mode" = None -> mode f = Some (PyStr.code_points "NULLABLE"))
  /\ (forall s, entry !! "mode" = Some (JStr s) -> mode f = Some (PyStr.upper s))
  /\ description f = default (JStr "") (entry !! "description").

Definition demo_entries : list (gmap string json) :=
  [ {[ "name" := JStr "id"; "type" := JStr "INTEGER"; "mode" := JStr "REQUIRED" ]};
    {[ "name" := JStr "dept"; "type" := JStr "STRING";
       "description" := JStr "Department" ]} ].

(** Runs of the diagnostic tool with a well-formed and with a garbled
    credential variable. *)
Definition keyed_process : process :=
  with_environ {[ "GCP_SERVICE_ACCOUNT_KEY" := "{}" ]} demo_process.

Definition garbled_process : process :=
  with_environ {[ "GCP_SERVICE_ACCOUNT_KEY" := "not json" ]} demo_process.

(** ** Event kinds looked at in the further properties *)

Definition is_query (e : event) : bool :=
  match e with EvQuery _ => true | _ => false end.

Definition is_open (e : event) : bool :=
  match e with EvOpen _ => true | _ => false end.

(** The events of the turn of the statement loop for statement number
    [i], given what the warehouse answers to its query: none when the
    statement is skipped; otherwise the line that announces the
    statement, then its query, and then either, for a job that comes
    back with a byte count, the success lines and the one-second pause,
    or the error (that of the query, or [TypeError] for a job without
    byte count), printed and then logged under the number [i]. *)
Definition turn_events (description : string) (total i : nat)
    (statement : string) (answer : result QueryJob) (es : list event) : Prop :=
  if RunTransformations.skipped statement then es = []
  else
    exists after,
      es = EvPrint (Executing (description +:+ " - Statement " +:+ pretty i
                               +:+ "/" +:+ pretty total))
           :: EvQuery statement :: after
      /\ ((exists job bytes,
              answer = Ok job
              /\ total_bytes_processed job = Some bytes
              /\ after = EvPrint QuerySuccess
                         :: match num_dml_affected_rows job with
                            | Some n => [EvPrint (AffectedRows n)]
                            | None => []
                            end ++ [EvSleep 1])
          \/ (exists e,
                (answer = Raise e
                 \/ exists job, answer = Ok job
                                /\ total_bytes_processed job = None
                                /\ e = TypeError)
                /\ after = [EvPrint (QueryError e);
                            EvPrint (StatementError i e)])).

(** The warehouse as each statement of the loop finds it: a statement
    that is run leaves the warehouse as its query leaves it. *)
Fixpoint found_by {W} {HW : Warehouse W} (statements : list string) (w : W)
    : list W :=
  match statements with
  | [] => []
  | statement :: rest =>
      w :: found_by rest (if RunTransformations.skipped statement then w
                          else snd (query statement w))
  end.

(** A configuration whose dataset id holds a dot. *)
Definition dotted_config : config := <["dataset_id" := "h.r"]> demo_config.

(** A configuration without table id, and a run that uses it. *)
Definition tableless_config : config :=
  {[ "gcp_project_id" := "proj"; "dataset_id" := "hr" ]}.

Definition tableless_runtime : Runtime :=
  table_runtime [("{}", JObj ∅); ("[1]", JArr [JInt 1])]
                [("demo", tableless_config)].

(** The file the transformation runner takes its configuration from. *)
Definition config_path_of (p : process) : string :=
  path_join (path_join (path_join (script_dir p) "..") "config")
            (default "config.yaml" (environ p !! "CONFIG_FILE")).

(** A run whose [CONFIG_FILE] is an absolute path. *)
Definition absolute_process : process :=
  with_environ {[ "CONFIG_FILE" := "/etc/warehouse.yaml" ]}
    (with_file "/etc/warehouse.yaml" (Some "prod") demo_process).

(** A run without its configuration file. *)
Definition unconfigured_process : process :=
  with_file "/app/scripts/../config/config.yaml" None demo_process.

(** A key that is JSON but not an object. *)
Definition listed_process : process :=
  with_environ {[ "GCP_SERVICE_ACCOUNT_KEY" := "[1]" ]} demo_process.

(** A machine without the client libraries. *)
Definition bare_process : process :=
  {| environ := environ keyed_process; files := files keyed_process;
     script_dir := script_dir keyed_process; libraries_installed := false |}.

(** An outcome behind events that happened before it. *)
Definition prepend {W A} (es : list event) (o : outcome (W := W) A) : outcome A :=
  Outcome (res o) (wh o) (es ++ evs o).

(** A schema file whose second entry has no type. *)
Definition typeless_runtime : Runtime :=
  table_runtime
    [("[schema]",
      JArr [JObj {[ "name" := JStr "id"; "type" := JStr "INTEGER" ]};
            JObj {[ "name" := JStr "dept" ]};
            JObj {[ "name" := JStr "salary"; "type" := JStr "NUMERIC" ]}])]
    [("demo", demo_config)].

(** ** scripts/load_data.py: the load job and [main] *)

(** The members of [bigquery.SourceFormat] and [bigquery.WriteDisposition]. *)
Inductive SourceFormat : Type :=
| CSV | NEWLINE_DELIMITED_JSON | AVRO | PARQUET | ORC | DATASTORE_BACKUP.

Inductive WriteDisposition : Type :=
| WRITE_TRUNCATE | WRITE_APPEND | WRITE_EMPTY.

(** The keyword arguments given to [bigquery.LoadJobConfig]. *)
Record LoadJobConfig := {
  source_format : SourceFormat;
  skip_leading_rows : nat;
  schema : list SchemaField;
  write_disposition : WriteDisposition
}.

Record LoadJob := { load_job_id : string }.

(** The load part of the client API: [client.load_table_from_file] with
    the bytes of the file, [load_job.result()], and [table.num_bytes],
    which may be [None]. *)
Class LoadApi (W : Type) := {
  load_table_from_file : string -> string -> LoadJobConfig -> W -> result LoadJob * W;
  load_job_result : LoadJob -> W -> result unit * W;
  num_bytes : Table -> option Z
}.

(** A client call that leaves no event. *)
Definition perform {W A} (op : W -> result A * W) : M W A := fun w =>
  let '(r, w') := op w in Outcome r w' [].

Module LoadDataJob.
Section Defs.
Context {W : Type} {HW : Warehouse W} {HL : LoadApi W} {HR : Runtime}.
Variable p : process.

(** Of the console lines only the configuration values of [main] are
    kept. *)
Definition load_data_to_bigquery (client : Client) (cfg : config) : M W Table :=
  project <- lift (getitem cfg "gcp_project_id") ;;
  dataset <- lift (getitem cfg "dataset_id") ;;
  table <- lift (getitem cfg "table_id") ;;
  let table_id := project +:+ "." +:+ dataset +:+ "." +:+ table in
  schema_file <- lift (getitem cfg "schema_file") ;;
  schema <- LoadData.load_table_schema p schema_file ;;
  let job_config :=
    {| source_format := CSV;
       skip_leading_rows := 1;
       schema := schema;
       write_disposition := WRITE_TRUNCATE |} in
  data_file <- lift (getitem cfg "data_file") ;;
  let csv_path :=
    path_join (path_join (path_join (script_dir p) "..") "data") data_file in
  source_file <- read_file p csv_path ;;
  load_job <- perform (load_table_from_file source_file table_id job_config) ;;
  perform (load_job_result load_job) ;;;
  table <- call (EvGetTable table_id) (get_table table_id) ;;
  (* table.num_bytes / 1024 / 1024 *)
  match num_bytes table with
  | Some _ => ret tt
  | None => raise TypeError
  end ;;;
  ret table.

Definition main : M W Z :=
  cfg <- LoadData.load_config p ;;
  project <- lift (getitem cfg "gcp_project_id") ;;
  print (ConfigValue "Project" project) ;;;
  dataset <- lift (getitem cfg "dataset_id") ;;
  print (ConfigValue "Dataset" dataset) ;;;
  table <- lift (getitem cfg "table_id") ;;
  print (ConfigValue "Table" table) ;;;
  location <- lift (getitem cfg "location") ;;
  print (ConfigValue "Location" location) ;;;
  client <- LoadData.get_bigquery_client p cfg ;;
  LoadData.create_dataset_if_not_exists client cfg ;;;
  table <- load_data_to_bigquery client cfg ;;
  ret 0%Z.

End Defs.
End LoadDataJob.

(** ** A warehouse that records its load calls *)

(** A submission is recorded with what the service returned for it. *)
Inductive load_call : Type :=
| Submitted (content table_id : string) (job_config : LoadJobConfig)
            (returned : result LoadJob)
| Awaited (job : LoadJob).

(** Any warehouse, with the list of the load calls made so far. *)
Definition Recorded (W : Type) : Type := W * list load_call.

Definition on_service {W A} (op : W -> result A * W) (s : Recorded W)
    : result A * Recorded W :=
  let '(r, w') := op (fst s) in (r, (w', snd s)).

Definition recording {W A} (c : result A -> load_call) (op : W -> result A * W)
    (s : Recorded W) : result A * Recorded W :=
  let '(r, w') := op (fst s) in (r, (w', snd s ++ [c r])).

#[export] Instance recorded_warehouse {W} {HW : Warehouse W}
    : Warehouse (Recorded W) := {|
  new_client := fun c pr => on_service (new_client c pr);
  get_dataset := fun id => on_service (get_dataset id);
  create_dataset := fun d => on_service (create_dataset d);
  list_datasets := on_service list_datasets;
  get_table := fun id => on_service (get_table id);
  query := fun sql => on_service (query sql)
|}.

#[export] Instance recorded_load {W} {HL : LoadApi W} : LoadApi (Recorded W) := {|
  load_table_from_file := fun content id cfg =>
    recording (Submitted content id cfg) (load_table_from_file content id cfg);
  load_job_result := fun job =>
    recording (fun _ => Awaited job) (load_job_result job);
  num_bytes := num_bytes
|}.

(** The load calls on [Store]: a job always goes through and leaves a
    table with one row per line after the skipped ones. *)
#[export] Instance store_load : LoadApi Store := {|
  load_table_from_file := fun content id cfg st =>
    (Ok {| load_job_id := "job-1" |},
     {| st_datasets := st_datasets st;
        st_tables :=
          <[id := {| num_rows :=
                       Z.of_nat (length (List.filter PyStr.truthy
                                           (PyStr.split "010" content))
                                 - skip_leading_rows cfg) |}]> (st_tables st);
        st_rejected := st_rejected st |});
  load_job_result := fun _ st => (Ok tt, st);
  num_bytes := fun t => Some (num_rows t)
|}.

Definition load_config_full : config :=
  {[ "gcp_project_id" := "proj"; "dataset_id" := "hr"; "table_id" := "employees";
     "location" := "US"; "schema_file" := "employees.json";
     "data_file" := "employees.csv" ]}.

Definition load_runtime : Runtime :=
  table_runtime
    [("[schema]", JArr (map JObj demo_entries))]
    [("full", load_config_full)].

Definition load_process : process :=
  {| environ := ∅;
     files := {[ "/app/scripts/../config/config.yaml" := "full";
                 "/app/scripts/../data/schemas/employees.json" := "[schema]";
                 "/app/scripts/../data/employees.csv" := "id,dept
1,ops
2,dev
" ]};
     script_dir := "/app/scripts";
     libraries_installed := true |}.

(** [m] makes no load call. *)
Definition keeps_log {W A} (m : M (Recorded W) A) : Prop :=
  forall s, snd (wh (m s)) = snd s.

(** The one job configuration the loader uses. *)
Definition overwrite_csv (fields : list SchemaField) : LoadJobConfig :=
  {| source_format := CSV;
     skip_leading_rows := 1;
     schema := fields;
     write_disposition := WRITE_TRUNCATE |}.

(** When [m] ends well, the load calls it has added satisfy [P]. *)
Definition grows_by {W A} (P : list load_call -> Prop) (m : M (Recorded W) A)
    : Prop :=
  forall s a, res (m s) = Ok a ->
              exists calls, snd (wh (m s)) = snd s ++ calls /\ P calls.

(** One job, submitted to replace the table, and then that job waited
    for. *)
Definition one_overwrite_job (calls : list load_call) : Prop :=
  exists content table_id fields job,
    calls = [Submitted content table_id (overwrite_csv fields) (Ok job);
             Awaited job].

(** Load calls that refuse every job, and a run without its data file. *)
Definition refusing_load : LoadApi Store := {|
  load_table_from_file := fun _ _ _ st => (Raise (ApiError "Forbidden"), st);
  load_job_result := fun _ st => (Ok tt, st);
  num_bytes := fun t => Some (num_rows t)
|}.

Definition csvless_process : process :=
  with_file "/app/scripts/../data/employees.csv" None load_process.

(** * Properties *)

(** ** Strings *)

Example strip_ex : PyStr.strip "  B
 " = "B".
Proof. reflexivity. Qed.

Example split_ex : PyStr.split ";" "A; B;; C" = ["A"; " B"; ""; " C"].
Proof. reflexivity. Qed.

Example replace_ex : PyStr.replace "aaa{x}b{x}" "{x}" "yy" = "aaayybyy".
Proof. reflexivity. Qed.

Example replace_overlap_ex : PyStr.replace "aaaa" "aa" "b" = "bb".
Proof. reflexivity. Qed.

Example replace_empty_ex : PyStr.replace "ab" "" "-" = "-a-b-".
Proof. reflexivity. Qed.


Lemma app_cons (c : ascii) (a b : string) : String c a +:+ b = String c (a +:+ b).
Proof. reflexivity. Qed.

Lemma app_empty_r (a : string) : a +:+ "" = a.
Proof. induction a as [|c a IH]; [reflexivity|]. rewrite app_cons. by f_equal. Qed.

Lemma split_nonempty (sep : ascii) (s : string) : PyStr.split sep s <> [].
Proof.
  destruct s as [|c s]; simpl; [discriminate|].
  destruct (ascii_dec c sep); [discriminate|].
  destruct (PyStr.split sep s); discriminate.
Qed.

(** Splitting loses nothing: joining the fragments gives the text back. *)
Lemma join_split (sep : ascii) (s : string) : join sep (PyStr.split sep s) = s.
Proof.
  induction s as [|c s IH]; [reflexivity|]. simpl.
  destruct (ascii_dec c sep) as [->|Hne].
  - pose proof (split_nonempty sep s) as Hs.
    destruct (PyStr.split sep s) as [|h t] eqn:E; [done|].
    change (join sep ("" :: h :: t)) with ("" +:+ String sep (join sep (h :: t))).
    by rewrite IH.
  - pose proof (split_nonempty sep s) as Hs.
    destruct (PyStr.split sep s) as [|h t] eqn:E; [done|].
    destruct t as [|h' t].
    + simpl in *. by rewrite IH.
    + change (join sep (String c h :: h' :: t))
        with (String c (h +:+ String sep (join sep (h' :: t)))).
      f_equal. exact IH.
Qed.

(** Every separator splits: no fragment contains one. *)
Lemma split_no_sep (sep : ascii) (s f : string) :
  In f (PyStr.split sep s) -> has_char sep f = false.
Proof.
  revert f. induction s as [|c s IH]; intros f Hin; simpl in Hin.
  - destruct Hin as [<-|[]]. reflexivity.
  - destruct (ascii_dec c sep) as [->|Hne].
    + destruct Hin as [<-|Hin]; [reflexivity|]. by apply IH.
    + pose proof (split_nonempty sep s) as Hs.
      destruct (PyStr.split sep s) as [|h t] eqn:E; [done|].
      destruct Hin as [<-|Hin].
      * simpl. destruct (ascii_dec sep c) as [->|_]; [done|].
        apply IH. by left.
      * apply IH. by right.
Qed.

Lemma map_filter_comm {A B} (f : A -> B) (keep : B -> bool) (l : list A) :
  map f (List.filter (fun a => keep (f a)) l) = List.filter keep (map f l).
Proof.
  induction l as [|a l IH]; [reflexivity|]. simpl.
  destruct (keep (f a)); simpl; by rewrite IH.
Qed.

(** The list comprehension, read as strip-then-drop-empties. *)
Lemma split_statements_spec (text : string) :
  RunTransformations.split_statements text
  = List.filter PyStr.truthy (map PyStr.strip (PyStr.split ";" text)).
Proof. unfold RunTransformations.split_statements. apply map_filter_comm. Qed.

Lemma replace_scan_absent (old new s : string) :
  PyStr.contains s old = false -> PyStr.replace_scan old new 0 s = s.
Proof.
  induction s as [|c s IH]; intros Hc; [reflexivity|].
  cbn [PyStr.contains] in Hc. apply orb_false_iff in Hc as [Hhere Hrest].
  cbn [PyStr.replace_scan]. rewrite Hhere. f_equal. by apply IH.
Qed.

(** Replacing a placeholder that does not occur changes nothing. *)
Lemma replace_absent (s old new : string) :
  old <> "" -> PyStr.contains s old = false -> PyStr.replace s old new = s.
Proof.
  intros Hne Hc. destruct old as [|c old]; [done|].
  unfold PyStr.replace. by apply replace_scan_absent.
Qed.

(** The scan copies a stretch that has no first character of [old]. *)
Lemma replace_scan_skip (c0 : ascii) (old new a r : string) :
  has_char c0 a = false ->
  PyStr.replace_scan (String c0 old) new 0 (a +:+ r)
  = a +:+ PyStr.replace_scan (String c0 old) new 0 r.
Proof.
  induction a as [|c a IH]; intros Hc; [reflexivity|].
  simpl in Hc. destruct (ascii_dec c0 c) as [|Hne]; [done|].
  rewrite !app_cons. cbn [PyStr.replace_scan PyStr.startswith].
  destruct (ascii_dec c0 c); [done|]. f_equal. by apply IH.
Qed.

Lemma startswith_app (old r : string) : PyStr.startswith (old +:+ r) old = true.
Proof.
  induction old as [|c old IH]; [by destruct r|].
  rewrite app_cons. cbn [PyStr.startswith].
  destruct (ascii_dec c c); [exact IH|done].
Qed.

(** The scan drops the rest of a match it has found. *)
Lemma replace_scan_drop (old new a r : string) :
  PyStr.replace_scan old new (String.length a) (a +:+ r)
  = PyStr.replace_scan old new 0 r.
Proof.
  induction a as [|c a IH]; [reflexivity|].
  rewrite app_cons. cbn [String.length PyStr.replace_scan]. exact IH.
Qed.

(** At an occurrence of [old] the scan writes [new] and goes on behind it. *)
Lemma replace_scan_match (c0 : ascii) (old new r : string) :
  PyStr.replace_scan (String c0 old) new 0 (String c0 old +:+ r)
  = new +:+ PyStr.replace_scan (String c0 old) new 0 r.
Proof.
  pose proof (startswith_app (String c0 old) r) as Hs.
  rewrite app_cons in *. cbn [PyStr.replace_scan]. rewrite Hs.
  cbn [String.length]. rewrite Nat.sub_1_r. cbn [Nat.pred].
  by rewrite replace_scan_drop.
Qed.

(** An occurrence after a stretch without the first character of [old]
    is replaced, and the replacement goes on with the rest of the text. *)
Lemma replace_occurrence (c0 : ascii) (old new a r : string) :
  has_char c0 a = false ->
  PyStr.replace (a +:+ String c0 old +:+ r) (String c0 old) new
  = a +:+ new +:+ PyStr.replace r (String c0 old) new.
Proof.
  intros Ha. unfold PyStr.replace.
  by rewrite replace_scan_skip, replace_scan_match.
Qed.

(** ** Statement splitting *)

(** C4: the text [A; B;; C] splits into exactly [A], [B], [C]: the text is
    cut at every semicolon, each fragment is stripped, the fragments that
    are empty after stripping are dropped and the others keep their order. *)
Theorem splitter_A_B_C :
  RunTransformations.split_statements "A; B;; C" = ["A"; "B"; "C"]
  /\ PyStr.split ";" "A; B;; C" = ["A"; " B"; ""; " C"]
  /\ (forall text,
        RunTransformations.split_statements text
        = List.filter PyStr.truthy (map PyStr.strip (PyStr.split ";" text)))
  /\ (forall text, join ";" (PyStr.split ";" text) = text)
  /\ (forall text f, In f (PyStr.split ";" text) -> has_char ";" f = false).
Proof.
  split; [reflexivity|]. split; [reflexivity|].
  split; [apply split_statements_spec|].
  split; [apply join_split|]. apply split_no_sep.
Qed.

Lemma splitter_A_B_C_witness :
  In " B" (PyStr.split ";" "A; B;; C") /\ has_char ";" " B" = false.
Proof.
  split.
  - right. left. reflexivity.
  - apply (proj2 (proj2 (proj2 (proj2 splitter_A_B_C))) "A; B;; C" " B").
    right. left. reflexivity.
Defined.

(** ** Parameter substitution *)

(** The three replacements run one after the other, in the order of the
    [replacements] dict. *)
Lemma substitute_parameters_unfold (cfg : config) (text p d t : string) :
  cfg !! "gcp_project_id" = Some p ->
  cfg !! "dataset_id" = Some d ->
  cfg !! "table_id" = Some t ->
  RunTransformations.substitute_parameters text cfg
  = Ok (PyStr.replace
          (PyStr.replace (PyStr.replace text "{project_id}" p) "{dataset_id}" d)
          "{table_id}" t).
Proof.
  intros Hp Hd Ht.
  unfold RunTransformations.substitute_parameters,
    RunTransformations.replacements, getitem.
  rewrite Hp, Hd, Ht. reflexivity.
Qed.

Lemma select_all_substituted (p d t : string) :
  has_char "{" p = false ->
  has_char "{" d = false ->
  PyStr.replace
    (PyStr.replace (PyStr.replace select_all "{project_id}" p) "{dataset_id}" d)
    "{table_id}" t
  = "SELECT * FROM " +:+ p +:+ "." +:+ d +:+ "." +:+ t.
Proof.
  intros Hp Hd.
  change (PyStr.replace select_all "{project_id}" p)
    with ("SELECT * FROM " +:+ p +:+ ".{dataset_id}.{table_id}").
  unfold PyStr.replace at 2.
  rewrite (replace_scan_skip "{" _ _ "SELECT * FROM ") by reflexivity.
  rewrite (replace_scan_skip "{" _ _ p) by assumption.
  change (PyStr.replace_scan "{dataset_id}" d 0 ".{dataset_id}.{table_id}")
    with ("." +:+ d +:+ ".{table_id}").
  unfold PyStr.replace.
  rewrite (replace_scan_skip "{" _ _ "SELECT * FROM ") by reflexivity.
  rewrite (replace_scan_skip "{" _ _ p) by assumption.
  rewrite (replace_scan_skip "{" _ _ ".") by reflexivity.
  rewrite (replace_scan_skip "{" _ _ d) by assumption.
  change (PyStr.replace_scan "{table_id}" t 0 ".{table_id}") with ("." +:+ t +:+ "").
  by rewrite app_empty_r.
Qed.

(** The scan copies another word that starts like [old]. *)
Lemma replace_scan_other (c0 c1 c2 : ascii) (old new a r : string) :
  c1 <> c2 ->
  has_char c0 (String c1 a) = false ->
  PyStr.replace_scan (String c0 (String c2 old)) new 0 (String c0 (String c1 a) +:+ r)
  = String c0 (String c1 a) +:+ PyStr.replace_scan (String c0 (String c2 old)) new 0 r.
Proof.
  intros Hne Ha. rewrite !(app_cons c0).
  transitivity (String c0 (PyStr.replace_scan (String c0 (String c2 old)) new 0
                             (String c1 a +:+ r))).
  - cbn [PyStr.replace_scan PyStr.startswith].
    destruct (ascii_dec c0 c0) as [_|]; [|done].
    rewrite (app_cons c1). cbn [PyStr.startswith].
    by destruct (ascii_dec c2 c1) as [->|_].
  - f_equal. by apply replace_scan_skip.
Qed.

Lemma fill_one_plain (hole : piece) (value : string) (pieces : list piece) :
  has_char "{" value = false ->
  Forall plain pieces -> Forall plain (map (fill_one hole value) pieces).
Proof.
  intros Hv. induction 1 as [|x pieces Hx _ IH]; [constructor|].
  cbn [map]. constructor; [|exact IH].
  destruct hole, x; try exact Hx; try exact Hv; exact I.
Qed.

(** One replacement over a text cut into plain pieces: the value is put
    in every place where the placeholder stands, and the other pieces stay. *)
Lemma replace_fills (hole : piece) (value : string) (pieces : list piece) :
  In hole [ProjectId; DatasetId; TableId] ->
  Forall plain pieces ->
  PyStr.replace (glue (map written pieces)) (written hole) value
  = glue (map written (map (fill_one hole value) pieces)).
Proof.
  intros Hhole Hplain.
  assert (exists old, written hole = String "{" old) as [old Hold]
    by (destruct Hhole as [<-|[<-|[<-|[]]]]; eexists; reflexivity).
  rewrite Hold. unfold PyStr.replace.
  induction Hplain as [|x pieces Hx _ IH]; [reflexivity|].
  cbn [map glue fold_right]. fold (glue (map written pieces)).
  fold (glue (map written (map (fill_one hole value) pieces))).
  rewrite <- IH. clear IH.
  destruct x as [text| | |].
  - replace (fill_one hole value (Other text)) with (Other text)
      by (by destruct hole).
    by apply replace_scan_skip.
  - destruct Hhole as [<-|[<-|[<-|[]]]]; injection Hold as <-.
    + apply replace_scan_match.
    + by apply (replace_scan_other "{" "p" "d" _ _ "roject_id}").
    + by apply (replace_scan_other "{" "p" "t" _ _ "roject_id}").
  - destruct Hhole as [<-|[<-|[<-|[]]]]; injection Hold as <-.
    + by apply (replace_scan_other "{" "d" "p" _ _ "ataset_id}").
    + apply replace_scan_match.
    + by apply (replace_scan_other "{" "d" "t" _ _ "ataset_id}").
  - destruct Hhole as [<-|[<-|[<-|[]]]]; injection Hold as <-.
    + by apply (replace_scan_other "{" "t" "p" _ _ "able_id}").
    + by apply (replace_scan_other "{" "t" "d" _ _ "able_id}").
    + apply replace_scan_match.
Qed.

(** The three replacements over a text cut into plain pieces. *)
Lemma replace_fills_all (pieces : list piece) (p d t : string) :
  Forall plain pieces ->
  has_char "{" p = false ->
  has_char "{" d = false ->
  PyStr.replace
    (PyStr.replace (PyStr.replace (glue (map written pieces)) "{project_id}" p)
                   "{dataset_id}" d)
    "{table_id}" t
  = glue (map (filled p d t) pieces).
Proof.
  intros Hplain Hp Hd.
  change "{project_id}" with (written ProjectId).
  change "{dataset_id}" with (written DatasetId).
  change "{table_id}" with (written TableId).
  rewrite (replace_fills ProjectId p pieces) by (simpl; auto).
  rewrite (replace_fills DatasetId d) by (simpl; auto using fill_one_plain).
  rewrite (replace_fills TableId t) by (simpl; auto using fill_one_plain).
  rewrite !map_map. f_equal. apply map_ext. by intros [].
Qed.

(** C5: substitution replaces every occurrence of the three placeholders
    by the configured values.  With the values p, d, t the text
    [SELECT * FROM {project_id}.{dataset_id}.{table_id}] becomes
    [SELECT * FROM p.d.t] (and likewise for all values of which the first
    two hold no opening brace); a text without any placeholder comes back
    unchanged; and in a text made of stretches without opening brace and,
    between them, the placeholders in any number and order, each place
    where a placeholder stands holds its value afterwards and the
    stretches are as they were. *)
Theorem substitute_parameters_replaces_all :
  RunTransformations.substitute_parameters select_all pdt_config
  = Ok "SELECT * FROM p.d.t"
  /\ (forall (cfg : config) (p d t : string),
        cfg !! "gcp_project_id" = Some p ->
        cfg !! "dataset_id" = Some d ->
        cfg !! "table_id" = Some t ->
        has_char "{" p = false ->
        has_char "{" d = false ->
        RunTransformations.substitute_parameters select_all cfg
        = Ok ("SELECT * FROM " +:+ p +:+ "." +:+ d +:+ "." +:+ t))
  /\ (forall (cfg : config) (text : string),
        is_Some (cfg !! "gcp_project_id") ->
        is_Some (cfg !! "dataset_id") ->
        is_Some (cfg !! "table_id") ->
        PyStr.contains text "{project_id}" = false ->
        PyStr.contains text "{dataset_id}" = false ->
        PyStr.contains text "{table_id}" = false ->
        RunTransformations.substitute_parameters text cfg = Ok text)
  /\ (forall (cfg : config) (pieces : list piece) (p d t : string),
        cfg !! "gcp_project_id" = Some p ->
        cfg !! "dataset_id" = Some d ->
        cfg !! "table_id" = Some t ->
        Forall plain pieces ->
        has_char "{" p = false ->
        has_char "{" d = false ->
        RunTransformations.substitute_parameters (glue (map written pieces)) cfg
        = Ok (glue (map (filled p d t) pieces))).
Proof.
  split; [|split; [|split]].
  - rewrite (substitute_parameters_unfold pdt_config select_all "p" "d" "t")
      by reflexivity.
    by rewrite select_all_substituted.
  - intros cfg p d t Hp Hd Ht Hbp Hbd.
    rewrite (substitute_parameters_unfold cfg select_all p d t) by assumption.
    f_equal. by apply select_all_substituted.
  - intros cfg text [p Hp] [d Hd] [t Ht] H1 H2 H3.
    rewrite (substitute_parameters_unfold cfg text p d t) by assumption.
    rewrite (replace_absent text "{project_id}") by done.
    rewrite (replace_absent text "{dataset_id}") by done.
    by rewrite (replace_absent text "{table_id}").
  - intros cfg pieces p d t Hp Hd Ht Hplain Hbp Hbd.
    rewrite (substitute_parameters_unfold cfg _ p d t) by assumption.
    f_equal. by apply replace_fills_all.
Qed.

Lemma substitute_parameters_replaces_all_witness :
  RunTransformations.substitute_parameters
    "INSERT INTO {table_id} SELECT * FROM {project_id}.{dataset_id}.{table_id} UNION ALL SELECT * FROM {table_id}_old"
    demo_config
  = Ok "INSERT INTO employees SELECT * FROM proj.hr.employees UNION ALL SELECT * FROM employees_old"
  /\ RunTransformations.substitute_parameters "SELECT 1" demo_config
     = Ok "SELECT 1".
Proof.
  split.
  - apply (proj2 (proj2 (proj2 substitute_parameters_replaces_all))
             demo_config thrice "proj" "hr" "employees");
      try reflexivity.
    repeat constructor.
  - apply (proj1 (proj2 (proj2 substitute_parameters_replaces_all))
             demo_config "SELECT 1");
      try reflexivity; vm_compute; eauto.
Defined.

(** C10: the placeholders are replaced one after the other, project id
    first, then dataset id, then table id; so a project id that holds
    the text [{dataset_id}] gets the dataset id put inside it. *)
Theorem substitute_parameters_sequential :
  (forall (cfg : config) (text p d t : string),
      cfg !! "gcp_project_id" = Some p ->
      cfg !! "dataset_id" = Some d ->
      cfg !! "table_id" = Some t ->
      RunTransformations.substitute_parameters text cfg
      = Ok (PyStr.replace
              (PyStr.replace (PyStr.replace text "{project_id}" p)
                             "{dataset_id}" d)
              "{table_id}" t))
  /\ (exists (cfg : config) (p d : string),
        cfg !! "gcp_project_id" = Some p
        /\ cfg !! "dataset_id" = Some d
        /\ PyStr.contains p "{dataset_id}" = true
        /\ RunTransformations.substitute_parameters select_all cfg
           = Ok ("SELECT * FROM " +:+ PyStr.replace p "{dataset_id}" d
                 +:+ ".hr.employees"))
  /\ RunTransformations.substitute_parameters select_all nested_config
     = Ok "SELECT * FROM acme-hr.hr.employees".
Proof.
  split; [exact substitute_parameters_unfold|]. split.
  - exists nested_config, "acme-{dataset_id}", "hr".
    split; [reflexivity|]. split; [reflexivity|]. split; [reflexivity|].
    by rewrite (substitute_parameters_unfold nested_config select_all
                  "acme-{dataset_id}" "hr" "employees").
  - by rewrite (substitute_parameters_unfold nested_config select_all
                  "acme-{dataset_id}" "hr" "employees").
Qed.

Lemma substitute_parameters_sequential_witness :
  RunTransformations.substitute_parameters "{table_id}{project_id}" demo_config
  = Ok "employeesproj".
Proof.
  rewrite (proj1 substitute_parameters_sequential demo_config
             "{table_id}{project_id}" "proj" "hr" "employees"); reflexivity.
Defined.

(** ** Reasoning about scripts *)

Section ScriptFacts.
Context {W : Type}.

Lemma only_ret {A} P (a : A) : only (W := W) P (ret a).
Proof. intros w. constructor. Qed.

Lemma only_raise {A} P e : only (W := W) P (raise (A := A) e).
Proof. intros w. constructor. Qed.

Lemma only_lift {A} P (r : result A) : only (W := W) P (lift r).
Proof. intros w. constructor. Qed.

Lemma only_emit P e : P e -> only (W := W) P (emit e).
Proof. intros He w. by repeat constructor. Qed.

Lemma only_print P l : P (EvPrint l) -> only (W := W) P (print l).
Proof. apply only_emit. Qed.

Lemma only_sleep P n : P (EvSleep n) -> only (W := W) P (sleep n).
Proof. apply only_emit. Qed.

Lemma only_call {A} P e (op : W -> result A * W) : P e -> only P (call e op).
Proof. intros He w. unfold call. destruct (op w). by repeat constructor. Qed.

Lemma only_bind {A B} P (m : M W A) (k : A -> M W B) :
  only P m -> (forall a, only P (k a)) -> only P (bind m k).
Proof.
  intros Hm Hk w. unfold bind. specialize (Hm w).
  destruct (res (m w)); cbn; [|done].
  apply Forall_app. split; [done|apply Hk].
Qed.

Lemma only_try_except {A} P (m : M W A) (h : exn -> M W A) :
  only P m -> (forall e, only P (h e)) -> only P (try_except m h).
Proof.
  intros Hm Hh w. unfold try_except. specialize (Hm w).
  destruct (res (m w)); cbn; [done|].
  apply Forall_app. split; [done|apply Hh].
Qed.

Lemma only_try_except_if {A} P c (m : M W A) (h : exn -> M W A) :
  only P m -> (forall e, only P (h e)) -> only P (try_except_if c m h).
Proof.
  intros Hm Hh w. unfold try_except_if. specialize (Hm w).
  destruct (res (m w)) as [a|e]; cbn; [done|].
  destruct (c e); cbn; [|done].
  apply Forall_app. split; [done|apply Hh].
Qed.

Lemma reaching_bind {A B} x (v : B) (m : M W A) (k : A -> M W B) :
  only (fun e => e <> x) m -> (forall a, reaching x v (k a)) ->
  reaching x v (bind m k).
Proof.
  intros Hm Hk w. unfold bind. specialize (Hm w).
  rewrite Forall_forall in Hm.
  destruct (res (m w)) as [a|e]; cbn.
  - intros Hin. apply in_app_or in Hin as [Hin|Hin]; [|by apply Hk].
    apply list_elem_of_In in Hin. by destruct (Hm _ Hin).
  - intros Hin. apply list_elem_of_In in Hin. by destruct (Hm _ Hin).
Qed.

Lemma bind_res_ok {A B} (m : M W A) (k : A -> M W B) w a :
  res (m w) = Ok a -> res (bind m k w) = res (k a (wh (m w))).
Proof. intros E. unfold bind. by rewrite E. Qed.

Lemma bind_evs_ok {A B} (m : M W A) (k : A -> M W B) w a :
  res (m w) = Ok a -> evs (bind m k w) = evs (m w) ++ evs (k a (wh (m w))).
Proof. intros E. unfold bind. by rewrite E. Qed.

Lemma bind_wh_ok {A B} (m : M W A) (k : A -> M W B) w a :
  res (m w) = Ok a -> wh (bind m k w) = wh (k a (wh (m w))).
Proof. intros E. unfold bind. by rewrite E. Qed.

Lemma bind_ok {A B} (m : M W A) (k : A -> M W B) w a :
  res (m w) = Ok a ->
  bind m k w = Outcome (res (k a (wh (m w)))) (wh (k a (wh (m w))))
                       (evs (m w) ++ evs (k a (wh (m w)))).
Proof. intros E. unfold bind. by rewrite E. Qed.

Lemma bind_raise {A B} (m : M W A) (k : A -> M W B) w e :
  res (m w) = Raise e -> bind m k w = Outcome (Raise e) (wh (m w)) (evs (m w)).
Proof. intros E. unfold bind. by rewrite E. Qed.

Lemma try_except_ok {A} (m : M W A) (h : exn -> M W A) w a :
  res (m w) = Ok a -> try_except m h w = m w.
Proof. intros E. unfold try_except. by rewrite E. Qed.

Lemma try_except_raise {A} (m : M W A) (h : exn -> M W A) w e :
  res (m w) = Raise e ->
  try_except m h w = Outcome (res (h e (wh (m w)))) (wh (h e (wh (m w))))
                             (evs (m w) ++ evs (h e (wh (m w)))).
Proof. intros E. unfold try_except. by rewrite E. Qed.

Lemma bind_lift_ok {A B} (a : A) (k : A -> M W B) w :
  bind (lift (Ok a)) k w = k a w.
Proof. unfold bind, lift. cbn. by destruct (k a w). Qed.

(** A handler that always ends well makes the [try] end well. *)
Lemma try_except_total (m : M W unit) (h : exn -> M W unit) :
  (forall e w, res (h e w) = Ok tt) ->
  forall w, res (try_except m h w) = Ok tt.
Proof.
  intros Hh w. destruct (res (m w)) as [[]|e] eqn:E.
  - by rewrite (try_except_ok _ _ _ _ E).
  - rewrite (try_except_raise _ _ _ _ E). apply Hh.
Qed.

Lemma bind_emit {B} (e : event) (k : unit -> M W B) w :
  bind (emit e) k w = Outcome (res (k tt w)) (wh (k tt w)) (e :: evs (k tt w)).
Proof. reflexivity. Qed.

Lemma queries_of_app (a b : list event) :
  queries_of (a ++ b) = queries_of a ++ queries_of b.
Proof. unfold queries_of. apply omap_app. Qed.

End ScriptFacts.

(** Unfolds one layer of script combinators and computes. *)
Ltac run_script :=
  unfold bind, try_except, try_except_if, call, print, sleep, emit, ret, raise, lift;
  cbn.

Ltac only_step :=
  first
    [ apply only_ret | apply only_raise | apply only_lift
    | apply only_print; try discriminate; try reflexivity
    | apply only_sleep; try discriminate; try reflexivity
    | apply only_emit; try discriminate; try reflexivity
    | apply only_call; try discriminate; try reflexivity
    | apply only_bind; [|intros ?]
    | apply only_try_except; [|intros ?]
    | apply only_try_except_if; [|intros ?]
    | match goal with
      | |- only _ (match ?x with _ => _ end) => destruct x
      | |- only _ (if ?b then _ else _) => destruct b
      end ].

Ltac solve_only := repeat only_step.

(** ** The transformation runner *)

Section RunnerFacts.
Context {W : Type} {HW : Warehouse W} {HR : Runtime}.
Variable p : process.

Import RunTransformations.

Lemma execute_sql_queries client sql description (w : W) :
  queries_of (evs (execute_sql client sql description w)) = [sql].
Proof.
  unfold execute_sql. run_script.
  destruct (query sql w) as [[job|e] w']; cbn; [|reflexivity].
  destruct (total_bytes_processed job); cbn; [|reflexivity].
  destruct (num_dml_affected_rows job); reflexivity.
Qed.

(** A turn of the loop never raises. *)
Lemma run_statement_res client description total i statement (w : W) :
  res (run_statement client description total i statement w) = Ok tt.
Proof.
  unfold run_statement. destruct (skipped statement); [reflexivity|].
  set (m := bind _ _).
  destruct (res (m w)) as [[]|e] eqn:E.
  - by rewrite (try_except_ok _ _ _ _ E).
  - by rewrite (try_except_raise _ _ _ _ E).
Qed.

Lemma run_statement_queries client description total i statement (w : W) :
  queries_of (evs (run_statement client description total i statement w))
  = if skipped statement then [] else [statement].
Proof.
  unfold run_statement. destruct (skipped statement); [reflexivity|].
  set (d := description +:+ _).
  pose proof (execute_sql_queries client statement d w) as Hq.
  set (m := bind _ _).
  assert (queries_of (evs (m w)) = [statement]) as Hm.
  { subst m. destruct (res (execute_sql client statement d w)) as [r|e] eqn:E.
    - rewrite (bind_ok _ _ _ _ E). cbn [evs]. by rewrite queries_of_app, Hq.
    - by rewrite (bind_raise _ _ _ _ E). }
  destruct (res (m w)) as [[]|e] eqn:E.
  - by rewrite (try_except_ok _ _ _ _ E).
  - rewrite (try_except_raise _ _ _ _ E). cbn [evs].
    by rewrite queries_of_app, Hm.
Qed.

(** An error of a statement is caught and logged with its number, and
    nothing else is done for that statement. *)
Lemma run_statement_logs client description total i statement e (w : W) :
  skipped statement = false ->
  res (execute_sql client statement
         (description +:+ " - Statement " +:+ pretty i +:+ "/" +:+ pretty total) w)
  = Raise e ->
  exists before,
    evs (run_statement client description total i statement w)
    = before ++ [EvPrint (StatementError i e)].
Proof.
  intros Hs He. unfold run_statement. rewrite Hs.
  set (m := bind _ _).
  assert (res (m w) = Raise e) as E by (subst m; by rewrite (bind_raise _ _ _ _ He)).
  rewrite (try_except_raise _ _ _ _ E). cbn. eauto.
Qed.

Lemma run_statements_res client description total statements :
  forall i (w : W),
    res (run_statements client description total i statements w) = Ok tt.
Proof.
  induction statements as [|s rest IH]; intros i w; [reflexivity|].
  cbn [run_statements].
  rewrite (bind_ok _ _ _ _ (run_statement_res client description total i s w)).
  apply IH.
Qed.

(** The queries issued are the statements that are not skipped, in
    order, whatever each query did. *)
Lemma run_statements_queries client description total statements :
  forall i (w : W),
    queries_of (evs (run_statements client description total i statements w))
    = List.filter (fun s => negb (skipped s)) statements.
Proof.
  induction statements as [|s rest IH]; intros i w; [reflexivity|].
  cbn [run_statements List.filter].
  rewrite (bind_ok _ _ _ _ (run_statement_res client description total i s w)).
  cbn [evs]. rewrite queries_of_app, run_statement_queries, IH.
  by destruct (skipped s).
Qed.

(** The loop over [pre ++ post] is the loop over [pre] followed by the
    loop over [post]. *)
Lemma run_statements_app client description total pre post :
  forall i (w : W),
    evs (run_statements client description total i (pre ++ post) w)
    = evs (run_statements client description total i pre w)
      ++ evs (run_statements client description total (length pre + i) post
                (wh (run_statements client description total i pre w))).
Proof.
  induction pre as [|s pre IH]; intros i w; [reflexivity|].
  replace (length (s :: pre) + i) with (length pre + S i) by (simpl; lia).
  rewrite <- app_comm_cons. cbn [run_statements].
  rewrite !(bind_ok _ _ _ _ (run_statement_res client description total i s w)).
  cbn [evs wh]. by rewrite IH, <- app_assoc.
Qed.

Lemma run_sql_file_absent client cfg sql_filename description (w : W) :
  files p !! sql_path_of p sql_filename = None ->
  run_sql_file p client cfg sql_filename description w
  = Outcome (Ok tt) w [EvPrint (FileNotFound (sql_path_of p sql_filename))].
Proof.
  intros Hf. unfold run_sql_file. rewrite Hf.
  rewrite bool_decide_eq_false_2 by (intros [? ?]; done).
  reflexivity.
Qed.

Lemma run_sql_file_present client cfg sql_filename description text sql (w : W) :
  files p !! sql_path_of p sql_filename = Some text ->
  substitute_parameters text cfg = Ok sql ->
  run_sql_file p client cfg sql_filename description w
  = let statements := split_statements sql in
    let loop := run_statements client description (length statements) 1
                               statements w in
    Outcome (Ok tt) (wh loop)
            (EvOpen (sql_path_of p sql_filename)
             :: EvPrint (FoundStatements (length statements)) :: evs loop).
Proof.
  intros Hf Hs. unfold run_sql_file. rewrite Hf.
  rewrite bool_decide_eq_true_2 by eauto.
  unfold read_sql_file, read_file. rewrite Hf.
  unfold bind, print, emit, ret, lift. cbn [res wh evs]. rewrite Hs.
  cbn [res wh evs app negb].
  by rewrite run_statements_res.
Qed.

Lemma only_make_client info project :
  only (W := W) not_closing (make_client info project).
Proof. unfold make_client, not_closing. solve_only. Qed.

Lemma only_load_config : only (W := W) not_closing (load_config p).
Proof. unfold load_config, read_file, not_closing. solve_only. Qed.

Lemma only_get_bigquery_client cfg :
  only (W := W) not_closing (get_bigquery_client p cfg).
Proof.
  unfold get_bigquery_client.
  destruct (environ p !! "GCP_SERVICE_ACCOUNT_KEY") as [[|c k]|];
    repeat first [apply only_make_client | unfold not_closing; only_step].
Qed.

Lemma only_execute_sql client sql description :
  only (W := W) not_closing (execute_sql client sql description).
Proof. unfold execute_sql, not_closing. solve_only. Qed.

Lemma only_run_statements client description total statements :
  forall i, only (W := W) not_closing
              (run_statements client description total i statements).
Proof.
  induction statements as [|s rest IH]; intros i; cbn [run_statements].
  - apply only_ret.
  - apply only_bind; [|intros _; apply IH].
    unfold run_statement.
    repeat first [apply only_execute_sql | unfold not_closing; only_step].
Qed.

Lemma only_run_sql_file client cfg sql_filename description :
  only (W := W) not_closing
    (run_sql_file p client cfg sql_filename description).
Proof.
  unfold run_sql_file, read_sql_file, read_file.
  repeat first [apply only_run_statements | unfold not_closing; only_step].
Qed.

Lemma only_print_rows results : only (W := W) not_closing (print_rows results).
Proof.
  induction results as [|row rest IH]; cbn [print_rows].
  - apply only_ret.
  - repeat first [apply IH | unfold not_closing; only_step].
Qed.

Lemma only_verify_transformations client cfg :
  only (W := W) not_closing (verify_transformations client cfg).
Proof.
  unfold verify_transformations.
  repeat first [apply only_print_rows | apply only_execute_sql
               | unfold not_closing; only_step].
Qed.

(** [main] ends with the closing line and the value 0, and prints that
    line nowhere else. *)
Lemma main_reaching : reaching (W := W) (EvPrint AllCompleted) 0%Z (main p).
Proof.
  unfold main.
  repeat first
    [ apply reaching_bind;
      [ first [ apply only_load_config | apply only_get_bigquery_client
              | apply only_run_sql_file | apply only_verify_transformations
              | solve [unfold not_closing; solve_only] ]
      | intros ? ] ].
  intros w _. reflexivity.
Qed.

(** Verification is advisory: it never raises, and it starts by asking
    for the summary table. *)
Lemma verify_transformations_ok client (cfg : config) project dataset (w : W) :
  cfg !! "gcp_project_id" = Some project ->
  cfg !! "dataset_id" = Some dataset ->
  res (verify_transformations client cfg w) = Ok tt
  /\ exists rest,
      evs (verify_transformations client cfg w)
      = EvGetTable (project +:+ "." +:+ dataset +:+ ".department_summary") :: rest.
Proof.
  intros Hp Hd. unfold verify_transformations, getitem. rewrite Hp, Hd.
  rewrite !bind_lift_ok.
  set (table_id := project +:+ "." +:+ dataset +:+ ".department_summary").
  set (look := try_except _ _).
  assert (exists found rest,
             res (look w) = Ok found /\ evs (look w) = EvGetTable table_id :: rest)
    as (found & rest & Hres & Hevs).
  { subst look. run_script.
    destruct (get_table table_id w) as [[table|e] w']; cbn; eauto. }
  rewrite (bind_ok _ _ _ _ Hres). cbn [res evs]. rewrite Hevs. split; [|eauto].
  destruct found; [|reflexivity].
  by apply try_except_total.
Qed.

(** What a run of [main] does once the configuration is loaded and the
    client is built. *)
Lemma main_run (cfg : config) project dataset client (w : W) :
  let o1 := load_config p w in
  let o2 := get_bigquery_client p cfg (wh o1) in
  let o3 := run_sql_file p client cfg "transformations.sql"
                         "Data transformations" (wh o2) in
  let o4 := verify_transformations client cfg (wh o3) in
  res o1 = Ok cfg ->
  cfg !! "gcp_project_id" = Some project ->
  cfg !! "dataset_id" = Some dataset ->
  res o2 = Ok client ->
  res o3 = Ok tt ->
  main p w
  = Outcome (Ok 0%Z) (wh o4)
      (evs o1
       ++ [EvPrint (ConfigValue "Project" project);
           EvPrint (ConfigValue "Dataset" dataset)]
       ++ evs o2 ++ evs o3 ++ [EvSleep 3] ++ evs o4 ++ [EvPrint AllCompleted]).
Proof.
  intros o1 o2 o3 o4 H1 Hp Hd H2 H3.
  destruct (verify_transformations_ok client cfg project dataset (wh o3) Hp Hd)
    as [H4 _].
  unfold main. rewrite (bind_ok _ _ _ _ H1). fold o1.
  unfold getitem. rewrite Hp, Hd.
  rewrite bind_lift_ok. unfold print, sleep. rewrite bind_emit.
  rewrite bind_lift_ok, bind_emit.
  rewrite (bind_ok _ _ _ _ H2). fold o2.
  rewrite (bind_ok _ _ _ _ H3). fold o3.
  rewrite bind_emit.
  rewrite (bind_ok _ _ _ _ H4). fold o4.
  rewrite bind_emit. reflexivity.
Qed.

(** C1: when a statement of the SQL file fails, the error is caught and
    logged and the statements after it are still executed; [main] ends
    with exit code 0 once it prints its closing block, whatever the
    warehouse answered to each statement. *)
Theorem transformations_continue_after_errors
    (cfg : config) project dataset client text sql (w : W) :
  let o1 := load_config p w in
  let o2 := get_bigquery_client p cfg (wh o1) in
  let description := "Data transformations" in
  let run := run_sql_file p client cfg "transformations.sql" description (wh o2) in
  let statements := split_statements sql in
  res o1 = Ok cfg ->
  cfg !! "gcp_project_id" = Some project ->
  cfg !! "dataset_id" = Some dataset ->
  res o2 = Ok client ->
  files p !! sql_path_of p "transformations.sql" = Some text ->
  substitute_parameters text cfg = Ok sql ->
  res run = Ok tt
  /\ queries_of (evs run)
     = List.filter (fun s => negb (skipped s)) statements
  /\ (forall pre s post e,
        statements = pre ++ s :: post ->
        skipped s = false ->
        res (execute_sql client s
               (description +:+ " - Statement " +:+ pretty (S (length pre))
                +:+ "/" +:+ pretty (length statements))
               (wh (run_statements client description (length statements) 1
                                   pre (wh o2))))
        = Raise e ->
        In (EvPrint (StatementError (S (length pre)) e)) (evs run)
        /\ queries_of (evs run)
           = List.filter (fun s => negb (skipped s)) pre
             ++ s :: List.filter (fun s => negb (skipped s)) post)
  /\ exit_status (res (main p w)) = 0%Z
  /\ last (evs (main p w)) = Some (EvPrint AllCompleted)
  /\ (forall w0 : W,
        In (EvPrint AllCompleted) (evs (main p w0)) ->
        exit_status (res (main p w0)) = 0%Z).
Proof.
  intros o1 o2 description run statements H1 Hp Hd H2 Hf Hs.
  pose proof (run_sql_file_present client cfg "transformations.sql" description
                text sql (wh o2) Hf Hs) as Hrun.
  fold run in Hrun. cbn zeta in Hrun. fold statements in Hrun.
  assert (res run = Ok tt) as Hres by (by rewrite Hrun).
  assert (queries_of (evs run)
          = List.filter (fun s => negb (skipped s)) statements) as Hq.
  { rewrite Hrun. cbn [evs].
    change (queries_of (?a :: ?b :: ?l)) with (queries_of l).
    apply run_statements_queries. }
  split; [exact Hres|]. split; [exact Hq|]. split; [|split; [|split]].
  - intros pre s post e Hsplit Hskip He. split.
    + rewrite Hrun. cbn [evs]. right. right.
      rewrite Hsplit at 2. rewrite run_statements_app.
      apply in_or_app. right. cbn [run_statements].
      rewrite (bind_ok _ _ _ _ (run_statement_res _ _ _ _ _ _)). cbn [evs].
      apply in_or_app. left.
      replace (length pre + 1) with (S (length pre)) by lia.
      destruct (run_statement_logs client description (length statements)
                  (S (length pre)) s e _ Hskip He) as [before ->].
      apply in_or_app. right. by left.
    + rewrite Hq, Hsplit, List.filter_app. cbn [List.filter].
      by rewrite Hskip.
  - by rewrite (main_run cfg project dataset client w H1 Hp Hd H2 Hres).
  - rewrite (main_run cfg project dataset client w H1 Hp Hd H2 Hres).
    cbn [evs]. rewrite !app_assoc. apply last_snoc.
  - intros w0 Hin. by rewrite (main_reaching w0 Hin).
Qed.

(** C9: when the SQL file does not exist, the runner prints a warning
    and returns: it opens no file, substitutes nothing and runs no
    query; [main] goes on to the verification step. *)
Theorem missing_sql_file_is_skipped
    (cfg : config) project dataset client (w : W) :
  let o1 := load_config p w in
  let o2 := get_bigquery_client p cfg (wh o1) in
  let sql_path := sql_path_of p "transformations.sql" in
  let check := verify_transformations client cfg (wh o2) in
  res o1 = Ok cfg ->
  cfg !! "gcp_project_id" = Some project ->
  cfg !! "dataset_id" = Some dataset ->
  res o2 = Ok client ->
  files p !! sql_path = None ->
  (forall client' (cfg' : config) sql_filename description (w' : W),
      files p !! sql_path_of p sql_filename = None ->
      run_sql_file p client' cfg' sql_filename description w'
      = Outcome (Ok tt) w' [EvPrint (FileNotFound (sql_path_of p sql_filename))])
  /\ evs (main p w)
     = evs o1
       ++ [EvPrint (ConfigValue "Project" project);
           EvPrint (ConfigValue "Dataset" dataset)]
       ++ evs o2
       ++ [EvPrint (FileNotFound sql_path); EvSleep 3]
       ++ evs check ++ [EvPrint AllCompleted]
  /\ (exists rest,
        evs check
        = EvGetTable (project +:+ "." +:+ dataset +:+ ".department_summary")
          :: rest)
  /\ res (main p w) = Ok 0%Z.
Proof.
  intros o1 o2 sql_path check H1 Hp Hd H2 Hf.
  split; [intros; by apply run_sql_file_absent|].
  pose proof (run_sql_file_absent client cfg "transformations.sql"
                "Data transformations" (wh o2) Hf) as Hskip.
  assert (res (run_sql_file p client cfg "transformations.sql"
                 "Data transformations" (wh o2)) = Ok tt) as H3
    by (by rewrite Hskip).
  rewrite (main_run cfg project dataset client w H1 Hp Hd H2 H3).
  fold o1 o2. rewrite Hskip. cbn [res wh evs]. fold check.
  split; [reflexivity|]. split; [|reflexivity].
  apply (verify_transformations_ok client cfg project dataset (wh o2) Hp Hd).
Qed.

(** The queries of a file that exists: its statements that do not begin
    with [--], in order. *)
Lemma run_sql_file_queries client cfg sql_filename description text sql (w : W) :
  files p !! sql_path_of p sql_filename = Some text ->
  substitute_parameters text cfg = Ok sql ->
  queries_of (evs (run_sql_file p client cfg sql_filename description w))
  = List.filter (fun s => negb (skipped s)) (split_statements sql).
Proof.
  intros Hf Hs.
  rewrite (run_sql_file_present client cfg sql_filename description text sql w Hf Hs).
  cbn [evs]. change (queries_of (?a :: ?b :: ?l)) with (queries_of l).
  apply run_statements_queries.
Qed.

End RunnerFacts.

Lemma transformations_continue_after_errors_witness :
  let run := RunTransformations.run_sql_file demo_process
               demo_client demo_config "transformations.sql"
               "Data transformations" demo_store in
  queries_of (evs run) = ["A"; "B"; "C"]
  /\ In (EvPrint (StatementError 2 (ApiError "Bad request"))) (evs run)
  /\ exit_status (res (RunTransformations.main (HR := demo_runtime)
                         demo_process demo_store)) = 0%Z.
Proof.
  pose proof (transformations_continue_after_errors (HR := demo_runtime)
                demo_process demo_config "proj" "hr" demo_client
                "A; B;; C" "A; B;; C" demo_store
                ltac:(vm_compute; reflexivity) ltac:(vm_compute; reflexivity)
                ltac:(vm_compute; reflexivity) ltac:(vm_compute; reflexivity)
                ltac:(vm_compute; reflexivity) ltac:(vm_compute; reflexivity))
    as (_ & Hq & Hlog & Hexit & _ & _).
  split; [exact Hq|]. split; [|exact Hexit].
  apply (Hlog ["A"] "B" ["C"] (ApiError "Bad request")); vm_compute; reflexivity.
Defined.

Lemma missing_sql_file_is_skipped_witness :
  evs (RunTransformations.main (HR := demo_runtime) missing_process demo_store)
  = [EvPrint (LoadingConfigFrom "config.yaml");
     EvOpen "/app/scripts/../config/config.yaml";
     EvPrint (ConfigValue "Project" "proj");
     EvPrint (ConfigValue "Dataset" "hr");
     EvPrint AuthLocal; EvClient None "proj";
     EvPrint (FileNotFound "/app/scripts/../sql/transformations.sql");
     EvSleep 3;
     EvGetTable "proj.hr.department_summary";
     EvPrint TableNotFound; EvPrint AllCompleted].
Proof.
  pose proof (missing_sql_file_is_skipped (HR := demo_runtime)
                missing_process demo_config "proj" "hr" demo_client demo_store
                ltac:(vm_compute; reflexivity) ltac:(vm_compute; reflexivity)
                ltac:(vm_compute; reflexivity) ltac:(vm_compute; reflexivity)
                ltac:(vm_compute; reflexivity))
    as (_ & Hevs & _ & _).
  rewrite Hevs. vm_compute. reflexivity.
Defined.

(** ** Statements that begin with a comment *)

(** C2 (the code departs from it): a fragment that begins with a [--]
    line is dropped even when SQL follows the comment.  For the file
    [commented_sql] the only fragment with text is neither empty nor
    comment-only, and it holds a [CREATE TABLE]; still no query is
    issued. *)
Theorem commented_statement_never_runs {W} {HW : Warehouse W} client (w : W) :
  PyStr.split ";" commented_sql = [commented_fragment; String "010" ""]
  /\ PyStr.truthy (PyStr.strip commented_fragment) = true
  /\ comment_only commented_fragment = false
  /\ PyStr.contains commented_fragment "CREATE TABLE" = true
  /\ RunTransformations.split_statements commented_sql = [commented_fragment]
  /\ queries_of
       (evs (RunTransformations.run_sql_file commented_process client demo_config
               "transformations.sql" "Data transformations" w))
     = [].
Proof.
  repeat (split; [reflexivity|]).
  rewrite (run_sql_file_queries commented_process client demo_config
             "transformations.sql" "Data transformations"
             commented_sql commented_sql w);
    [reflexivity| vm_compute; reflexivity | reflexivity].
Qed.

(** ** Configuration loading *)

(** The transformation runner opens the file that [CONFIG_FILE] names. *)
Lemma runner_load_config_events {W} {HR : Runtime} (p : process) (w : W) file :
  environ p !! "CONFIG_FILE" = Some file ->
  evs (RunTransformations.load_config p w)
  = [EvPrint (LoadingConfigFrom file);
     EvOpen (path_join (path_join (path_join (script_dir p) "..") "config") file)].
Proof.
  intros Hf. unfold RunTransformations.load_config, read_file. rewrite Hf. cbn [default].
  unfold bind, print, emit. cbn [res wh evs].
  destruct (files p !! _); reflexivity.
Qed.

(** C3 (the code departs from it): the data loader reads [config.yaml]
    whatever the environment says; with [CONFIG_FILE=config.prod.yaml]
    the transformation runner loads the production configuration and the
    data loader still loads the default one. *)
Theorem data_loader_ignores_config_file :
  (forall {W} {HR : Runtime} (p : process) (env : gmap string string) (w : W),
      LoadData.load_config (with_environ env p) w = LoadData.load_config p w)
  /\ res (RunTransformations.load_config (HR := demo_runtime) prod_process demo_store)
     = Ok prod_config
  /\ res (LoadData.load_config (HR := demo_runtime) prod_process demo_store)
     = Ok demo_config
  /\ evs (LoadData.load_config (HR := demo_runtime) prod_process demo_store)
     = [EvOpen "/app/scripts/../config/config.yaml"]
  /\ evs (RunTransformations.load_config (HR := demo_runtime) prod_process demo_store)
     = [EvPrint (LoadingConfigFrom "config.prod.yaml");
        EvOpen "/app/scripts/../config/config.prod.yaml"].
Proof.
  split; [reflexivity|].
  repeat split; vm_compute; reflexivity.
Qed.

(** ** The data loader *)

Section LoaderFacts.
Context {W : Type} {HW : Warehouse W} {HR : Runtime}.
Variable p : process.

Import LoadData.

Lemma SchemaField_new_text (entry : gmap string json) (n t : json) :
  text_or_absent entry "mode" ->
  exists f,
    SchemaField_new n t (default (JStr "NULLABLE") (entry !! "mode"))
                    (default (JStr "") (entry !! "description")) = Ok f
    /\ name f = n /\ field_type f = t
    /\ (entry !! "mode" = None -> mode f = Some (PyStr.code_points "NULLABLE"))
    /\ (forall s, entry !! "mode" = Some (JStr s) -> mode f = Some (PyStr.upper s))
    /\ description f = default (JStr "") (entry !! "description").
Proof.
  unfold text_or_absent. intros Hm.
  destruct (entry !! "mode") as [[| | | |s| |]|]; try done; cbn [default].
  - eexists. split; [reflexivity|]. cbn. repeat split; [done|]. by intros ? [= <-].
  - eexists. split; [reflexivity|]. cbn. repeat split; done.
Qed.

Lemma append_fields_objects (entries : list (gmap string json)) :
  forall schema,
    Forall field_entry entries ->
    exists fields,
      append_fields schema (map JObj entries) = Ok (schema ++ fields)
      /\ Forall2 carries entries fields.
Proof.
  induction entries as [|entry rest IH]; intros schema Hreq.
  - exists []. split; [by rewrite app_nil_r|constructor].
  - inversion Hreq as [|? ? ([n Hn] & [t Ht] & Hm & _) Hrest]; subst.
    destruct (SchemaField_new_text entry (JStr n) (JStr t) Hm)
      as (f & Hf & Hname & Htype & Hnone & Hsome & Hdesc).
    cbn [map append_fields subscript get_or]. unfold getitem.
    rewrite Hn, Ht. cbn [result_bind]. rewrite Hf. cbn [result_bind].
    destruct (IH (schema ++ [f]) Hrest) as (fields & Heq & Hall).
    exists (f :: fields). split.
    + rewrite Heq, <- app_assoc. reflexivity.
    + constructor; [|exact Hall]. unfold carries.
      rewrite Hname, Htype. by repeat split.
Qed.

(** C6: a schema file holding a JSON array of N field entries (name and
    type are strings; mode and description are strings when they are
    there) gives exactly N field definitions, in the order of the file,
    each with the name and the type of its entry, the mode [NULLABLE]
    when the entry has none (and the entry's mode, in upper case, when it
    has one) and the empty description when the entry has none. *)
Theorem schema_loader_keeps_fields
    (schema_file text : string) (entries : list (gmap string json)) (w : W) :
  let schema_path :=
    path_join (path_join (path_join (path_join (script_dir p) "..") "data")
                         "schemas") schema_file in
  files p !! schema_path = Some text ->
  json_loads text = Some (JArr (map JObj entries)) ->
  Forall field_entry entries ->
  exists fields,
    res (load_table_schema p schema_file w) = Ok fields
    /\ length fields = length entries
    /\ Forall2 carries entries fields.
Proof.
  intros schema_path Hf Hj Hreq.
  destruct (append_fields_objects entries [] Hreq) as (fields & Heq & Hall).
  exists fields. split; [|split; [|exact Hall]].
  - unfold load_table_schema, read_file, loads. fold schema_path.
    rewrite Hf. unfold bind, emit, ret, lift. cbn [res wh evs].
    rewrite Hj. cbn [res wh evs iterate].
    by rewrite Heq.
  - symmetry. by eapply Forall2_length.
Qed.

(** C7: the dataset ensurer creates nothing when the dataset is there,
    and otherwise, for a dataset id that [bigquery.Dataset] takes, issues
    one creation call, for a dataset that has the configured location. *)
Theorem dataset_ensurer_creates_once
    client (cfg : config) project dataset (w : W) :
  let dataset_id := project +:+ "." +:+ dataset in
  let run := create_dataset_if_not_exists client cfg w in
  cfg !! "gcp_project_id" = Some project ->
  cfg !! "dataset_id" = Some dataset ->
  (forall d w',
      get_dataset dataset_id w = (Ok d, w') ->
      res run = Ok tt
      /\ wh run = w'
      /\ evs run = [EvGetDataset dataset_id; EvPrint (DatasetExists dataset_id)]
      /\ List.filter is_create_dataset (evs run) = [])
  /\ (forall e w' location,
        get_dataset dataset_id w = (Raise e, w') ->
        accepts_dataset_id dataset_id = true ->
        cfg !! "location" = Some location ->
        let new_dataset :=
          {| ds_id := dataset_id;
             ds_location := Some location;
             ds_description := Some "Dataset created by CI/CD pipeline" |} in
        List.filter is_create_dataset (evs run) = [EvCreateDataset new_dataset]
        /\ wh run = snd (create_dataset new_dataset w')
        /\ (res run = Ok tt <-> fst (create_dataset new_dataset w') = Ok tt)).
Proof.
  intros dataset_id run Hp Hd. subst run.
  unfold create_dataset_if_not_exists, getitem. rewrite Hp, Hd.
  rewrite !bind_lift_ok. fold dataset_id. split.
  - intros d w' Hget. run_script. rewrite Hget. by cbn.
  - intros e w' location Hget Hid Hloc. unfold Dataset_new. rewrite Hid.
    run_script. rewrite Hget. cbn.
    rewrite Hloc. cbn. unfold set_description, set_location. cbn.
    destruct (create_dataset _ w') as [[[]|e'] w'']; cbn; repeat split; done.
Qed.

End LoaderFacts.

Lemma schema_loader_keeps_fields_witness :
  exists fields,
    res (LoadData.load_table_schema (HR := demo_runtime) demo_process
           "employees.json" demo_store) = Ok fields
    /\ length fields = 2
    /\ Forall2 carries demo_entries fields.
Proof.
  apply (schema_loader_keeps_fields (W := Store) (HR := demo_runtime)
           demo_process "employees.json" "[schema]" demo_entries demo_store).
  - vm_compute. reflexivity.
  - vm_compute. reflexivity.
  - repeat constructor; vm_compute; eauto.
Defined.

(** The constructor of a field puts the mode in upper case and refuses
    a mode that is not a string. *)
Example SchemaField_new_lower :
  SchemaField_new (JStr "id") (JStr "integer") (JStr "required") (JStr "")
  = Ok {| name := JStr "id"; field_type := JStr "integer";
          mode := Some (PyStr.code_points "REQUIRED"); description := JStr "" |}.
Proof. reflexivity. Qed.

Example SchemaField_new_number :
  SchemaField_new (JStr "id") (JStr "INTEGER") (JInt 1) (JStr "")
  = Raise AttributeError.
Proof. reflexivity. Qed.

Example load_table_schema_demo :
  res (LoadData.load_table_schema (HR := demo_runtime) demo_process
         "employees.json" demo_store)
  = Ok [ {| name := JStr "id"; field_type := JStr "INTEGER";
            mode := Some (PyStr.code_points "REQUIRED");
            description := JStr "" |};
         {| name := JStr "dept"; field_type := JStr "STRING";
            mode := Some (PyStr.code_points "NULLABLE");
            description := JStr "Department" |} ].
Proof. vm_compute. reflexivity. Qed.

Lemma dataset_ensurer_creates_once_witness :
  let first_run :=
    LoadData.create_dataset_if_not_exists (HR := demo_runtime)
      demo_client demo_config demo_store in
  let second_run :=
    LoadData.create_dataset_if_not_exists (HR := demo_runtime)
      demo_client demo_config (wh first_run) in
  List.filter is_create_dataset (evs first_run)
  = [EvCreateDataset {| ds_id := "proj.hr"; ds_location := Some "US";
                        ds_description := Some "Dataset created by CI/CD pipeline" |}]
  /\ List.filter is_create_dataset (evs second_run) = [].
Proof.
  intros first_run second_run. split.
  - apply (proj2 (dataset_ensurer_creates_once (W := Store) (HR := demo_runtime)
                    demo_client demo_config
                    "proj" "hr" demo_store eq_refl eq_refl)
             (ApiError "Not found: dataset proj.hr") demo_store "US");
      vm_compute; reflexivity.
  - eapply (proj1 (dataset_ensurer_creates_once (W := Store) (HR := demo_runtime)
                     demo_client demo_config
                     "proj" "hr" (wh first_run) eq_refl eq_refl)).
    vm_compute. reflexivity.
Defined.

(** ** The diagnostic tool *)

Section DiagnosticFacts.
Context {W : Type} {HW : Warehouse W} {HR : Runtime}.
Variable p : process.

Import TestConnection.

Lemma test_environment_unset (w : W) :
  environ p !! "GCP_SERVICE_ACCOUNT_KEY" = None
  \/ environ p !! "GCP_SERVICE_ACCOUNT_KEY" = Some "" ->
  test_environment p w = Outcome (Ok false) w [EvPrint EnvNotSet].
Proof. intros [Hk|Hk]; unfold test_environment; by rewrite Hk. Qed.

Lemma test_environment_invalid (w : W) key :
  environ p !! "GCP_SERVICE_ACCOUNT_KEY" = Some key ->
  key <> "" ->
  json_loads key = None ->
  test_environment p w
  = Outcome (Ok false) w [EvPrint (EnvSet (String.length key)); EvPrint InvalidJson].
Proof.
  intros Hk Hne Hj. unfold test_environment. rewrite Hk.
  destruct key as [|c k]; [done|].
  unfold loads. rewrite Hj. reflexivity.
Qed.

(** The first check only reads the environment. *)
Lemma test_environment_local (w : W) :
  wh (test_environment p w) = w
  /\ List.filter is_api_call (evs (test_environment p w)) = [].
Proof.
  unfold test_environment.
  destruct (environ p !! "GCP_SERVICE_ACCOUNT_KEY") as [[|c k]|];
    [by cbn| |by cbn].
  unfold loads. destruct (json_loads (String c k)) as [creds|]; [|by cbn].
  destruct creds; by cbn.
Qed.

(** The result of [main] from the results of the two checks. *)
Lemma main_result (w : W) :
  res (main p w)
  = match res (test_environment p w) with
    | Ok true =>
        match res (test_bigquery_connection p w) with
        | Ok true => Ok 0%Z
        | Ok false => Ok 1%Z
        | Raise e => Raise e
        end
    | Ok false => Ok 1%Z
    | Raise e => Raise e
    end.
Proof.
  destruct (test_environment_local w) as [Hw _].
  unfold main, bind.
  destruct (res (test_environment p w)) as [[|]|e] eqn:E;
    cbn [res wh evs negb]; [|reflexivity|reflexivity].
  rewrite Hw.
  destruct (res (test_bigquery_connection p w)) as [[|]|e] eqn:E2;
    cbn [res wh evs negb ret]; reflexivity.
Qed.

(** C8: the diagnostic tool exits with 0 exactly when both checks pass;
    when the credential variable is unset (or empty), or is set to text
    that is not JSON, it exits with 1 and calls the warehouse API not
    once: no client is built and no dataset is listed. *)
Theorem diagnostic_exit_code (w : W) :
  (exit_status (res (main p w)) = 0%Z
   <-> res (test_environment p w) = Ok true
       /\ res (test_bigquery_connection p w) = Ok true)
  /\ (environ p !! "GCP_SERVICE_ACCOUNT_KEY" = None
      \/ environ p !! "GCP_SERVICE_ACCOUNT_KEY" = Some "" ->
      main p w = Outcome (Ok 1%Z) w [EvPrint EnvNotSet; EvPrint TestsFailed])
  /\ (forall key,
        environ p !! "GCP_SERVICE_ACCOUNT_KEY" = Some key ->
        key <> "" ->
        json_loads key = None ->
        main p w = Outcome (Ok 1%Z) w
                     [EvPrint (EnvSet (String.length key)); EvPrint InvalidJson;
                      EvPrint TestsFailed])
  /\ (environ p !! "GCP_SERVICE_ACCOUNT_KEY" = None
      \/ (exists key, environ p !! "GCP_SERVICE_ACCOUNT_KEY" = Some key
                      /\ json_loads key = None) ->
      exit_status (res (main p w)) = 1%Z
      /\ List.filter is_api_call (evs (main p w)) = []).
Proof.
  assert (environ p !! "GCP_SERVICE_ACCOUNT_KEY" = None
          \/ environ p !! "GCP_SERVICE_ACCOUNT_KEY" = Some "" ->
          main p w = Outcome (Ok 1%Z) w [EvPrint EnvNotSet; EvPrint TestsFailed])
    as Hunset.
  { intros Hk. unfold main, bind. by rewrite (test_environment_unset w Hk). }
  assert (forall key,
             environ p !! "GCP_SERVICE_ACCOUNT_KEY" = Some key ->
             key <> "" ->
             json_loads key = None ->
             main p w = Outcome (Ok 1%Z) w
                          [EvPrint (EnvSet (String.length key)); EvPrint InvalidJson;
                           EvPrint TestsFailed]) as Hbad.
  { intros key Hk Hne Hj. unfold main, bind.
    by rewrite (test_environment_invalid w key Hk Hne Hj). }
  split; [|split; [exact Hunset|split; [exact Hbad|]]].
  - rewrite main_result.
    destruct (res (test_environment p w)) as [[|]|e];
      [|cbn; split; [done|by intros [? _]]..].
    destruct (res (test_bigquery_connection p w)) as [[|]|e]; cbn;
      (split; [done|by intros [_ ?]]).
  - intros [Hk|(key & Hk & Hj)].
    + rewrite Hunset by (by left). by cbn.
    + destruct (decide (key = "")) as [->|Hne].
      * rewrite Hunset by (by right). by cbn.
      * rewrite (Hbad key Hk Hne Hj). by cbn.
Qed.

End DiagnosticFacts.

Lemma diagnostic_exit_code_witness :
  exit_status (res (TestConnection.main (HR := demo_runtime) demo_process demo_store))
  = 1%Z
  /\ TestConnection.main (HR := demo_runtime) garbled_process demo_store
     = Outcome (Ok 1%Z) demo_store
               [EvPrint (EnvSet 8); EvPrint InvalidJson; EvPrint TestsFailed]
  /\ exit_status (res (TestConnection.main (HR := demo_runtime) keyed_process
                         demo_store)) = 0%Z.
Proof.
  split; [|split].
  - apply (proj2 (proj2 (proj2 (diagnostic_exit_code (HR := demo_runtime)
                                  demo_process demo_store)))).
    left. vm_compute. reflexivity.
  - apply (proj1 (proj2 (proj2 (diagnostic_exit_code (HR := demo_runtime)
                                  garbled_process demo_store))) "not json").
    + vm_compute. reflexivity.
    + discriminate.
    + vm_compute. reflexivity.
  - apply (proj1 (diagnostic_exit_code (HR := demo_runtime) keyed_process demo_store)).
    split; vm_compute; reflexivity.
Defined.

(** * Further properties of the scripts *)

(** ** Stripping *)

Lemma lstrip_idem (s : string) : PyStr.lstrip (PyStr.lstrip s) = PyStr.lstrip s.
Proof.
  induction s as [|c s IH]; [reflexivity|]. cbn [PyStr.lstrip].
  destruct (PyStr.isspace c) eqn:E; [exact IH|].
  cbn [PyStr.lstrip]. by rewrite E.
Qed.

Lemma rstrip_cons (c : ascii) (s : string) :
  PyStr.rstrip (String c s)
  = match PyStr.rstrip s with
    | EmptyString => if PyStr.isspace c then EmptyString else String c EmptyString
    | r => String c r
    end.
Proof. reflexivity. Qed.

Lemma rstrip_idem (s : string) : PyStr.rstrip (PyStr.rstrip s) = PyStr.rstrip s.
Proof.
  induction s as [|c s IH]; [reflexivity|]. rewrite (rstrip_cons c s).
  destruct (PyStr.rstrip s) as [|c' r] eqn:E.
  - destruct (PyStr.isspace c) eqn:Ec; [reflexivity|].
    cbn [PyStr.rstrip]. by rewrite Ec.
  - rewrite (rstrip_cons c (String c' r)). by rewrite IH.
Qed.

(** Stripping on the right keeps a text without leading blank as such. *)
Lemma lstrip_rstrip (s : string) :
  PyStr.lstrip s = s -> PyStr.lstrip (PyStr.rstrip s) = PyStr.rstrip s.
Proof.
  destruct s as [|c s]; [reflexivity|]. cbn [PyStr.lstrip].
  destruct (PyStr.isspace c) eqn:Ec.
  - intros Hl. exfalso.
    assert (String.length (PyStr.lstrip s) <= String.length s) as Hle.
    { clear. induction s as [|a s IH]; cbn [PyStr.lstrip String.length]; [lia|].
      destruct (PyStr.isspace a); cbn [String.length]; lia. }
    rewrite Hl in Hle. cbn [String.length] in Hle. lia.
  - intros _. cbn [PyStr.rstrip].
    destruct (PyStr.rstrip s); rewrite ?Ec; cbn [PyStr.lstrip]; by rewrite Ec.
Qed.

Lemma strip_idem (s : string) : PyStr.strip (PyStr.strip s) = PyStr.strip s.
Proof.
  unfold PyStr.strip.
  rewrite (lstrip_rstrip (PyStr.lstrip s)) by apply lstrip_idem.
  apply rstrip_idem.
Qed.

Lemma has_char_lstrip (c : ascii) (s : string) :
  has_char c s = false -> has_char c (PyStr.lstrip s) = false.
Proof.
  induction s as [|a s IH]; [done|]. cbn [has_char PyStr.lstrip].
  destruct (ascii_dec c a); [done|]. intros Hs.
  destruct (PyStr.isspace a); [by apply IH|].
  cbn [has_char]. by destruct (ascii_dec c a).
Qed.

Lemma has_char_rstrip (c : ascii) (s : string) :
  has_char c s = false -> has_char c (PyStr.rstrip s) = false.
Proof.
  induction s as [|a s IH]; [done|]. cbn [has_char PyStr.rstrip].
  destruct (ascii_dec c a) as [|Hne]; [done|]. intros Hs. specialize (IH Hs).
  destruct (PyStr.rstrip s) as [|c' r].
  - destruct (PyStr.isspace a); [done|].
    cbn [has_char]. by destruct (ascii_dec c a).
  - cbn [has_char]. destruct (ascii_dec c a); [done|]. exact IH.
Qed.

(** ** What the splitter hands to the loop *)

Lemma split_statements_inv (text s : string) :
  In s (RunTransformations.split_statements text) ->
  s <> ""
  /\ PyStr.strip s = s
  /\ has_char ";" s = false
  /\ RunTransformations.skipped s = PyStr.startswith s "--".
Proof.
  rewrite split_statements_spec. intros Hin.
  apply List.filter_In in Hin as [Hin Ht].
  apply List.in_map_iff in Hin as (f & <- & Hf).
  assert (PyStr.strip f <> "") as Hne by (by destruct (PyStr.strip f)).
  split; [exact Hne|]. split; [apply strip_idem|]. split.
  - unfold PyStr.strip. apply has_char_rstrip, has_char_lstrip.
    by apply (split_no_sep ";" text).
  - unfold RunTransformations.skipped. rewrite Ht. apply orb_false_r.
Qed.

(** X1: every statement the splitter yields is non-empty, is its own
    stripped form and holds no semicolon; so the [not statement] half of
    the loop's guard never decides: a statement is skipped exactly when
    it starts with [--]. *)
Theorem split_statements_wellformed (text s : string) :
  In s (RunTransformations.split_statements text) ->
  s <> ""
  /\ PyStr.strip s = s
  /\ has_char ";" s = false
  /\ RunTransformations.skipped s = PyStr.startswith s "--".
Proof. apply split_statements_inv. Qed.

Lemma split_statements_wellformed_witness :
  "B" <> "" /\ PyStr.strip "B" = "B" /\ has_char ";" "B" = false
  /\ RunTransformations.skipped "B" = PyStr.startswith "B" "--".
Proof.
  apply (split_statements_wellformed "A; B;; C" "B").
  right. left. reflexivity.
Defined.

(** ** More on the transformation runner *)

Section RunnerMore.
Context {W : Type} {HW : Warehouse W} {HR : Runtime}.
Variable p : process.

Import RunTransformations.

(** X2: every query the runner sends for a SQL file is one of the file's
    statements: not empty, without surrounding blanks, without semicolon
    and not starting with [--]. *)
Theorem run_sql_file_sends_statements
    client (cfg : config) sql_filename description text sql (w : W) q :
  files p !! sql_path_of p sql_filename = Some text ->
  substitute_parameters text cfg = Ok sql ->
  In q (queries_of (evs (run_sql_file p client cfg sql_filename description w))) ->
  In q (split_statements sql)
  /\ q <> ""
  /\ PyStr.strip q = q
  /\ has_char ";" q = false
  /\ PyStr.startswith q "--" = false.
Proof.
  intros Hf Hs Hin.
  rewrite (run_sql_file_queries p client cfg sql_filename description text sql w Hf Hs)
    in Hin.
  apply List.filter_In in Hin as [Hin Hrun].
  destruct (split_statements_inv sql q Hin) as (Hne & Hstrip & Hsemi & Hskip).
  repeat (split; [done|]).
  rewrite <- Hskip. by apply negb_true_iff.
Qed.

(** X3: [execute_sql] issues exactly one query; it returns the rows when
    the job comes back with a byte count, raises [TypeError] when the job
    comes back without one, and raises the error of the query otherwise,
    each time after printing the error. *)
Theorem execute_sql_outcome client sql description (w : W) :
  wh (execute_sql client sql description w) = snd (query sql w)
  /\ queries_of (evs (execute_sql client sql description w)) = [sql]
  /\ (forall job bytes,
        fst (query sql w) = Ok job ->
        total_bytes_processed job = Some bytes ->
        res (execute_sql client sql description w) = Ok (rows job))
  /\ (forall job,
        fst (query sql w) = Ok job ->
        total_bytes_processed job = None ->
        res (execute_sql client sql description w) = Raise TypeError
        /\ evs (execute_sql client sql description w)
           = [EvPrint (Executing description); EvQuery sql;
              EvPrint (QueryError TypeError)])
  /\ (forall e,
        fst (query sql w) = Raise e ->
        res (execute_sql client sql description w) = Raise e
        /\ evs (execute_sql client sql description w)
           = [EvPrint (Executing description); EvQuery sql;
              EvPrint (QueryError e)]).
Proof.
  split; [|split; [apply execute_sql_queries|]].
  - unfold execute_sql. run_script.
    destruct (query sql w) as [[job|e] w']; cbn; [|reflexivity].
    destruct (total_bytes_processed job); cbn; [|reflexivity].
    destruct (num_dml_affected_rows job); reflexivity.
  - unfold execute_sql. run_script.
    destruct (query sql w) as [[job|e] w']; cbn.
    + split; [|split]; [| |done].
      * intros job' bytes [= <-] Hb. rewrite Hb. cbn.
        destruct (num_dml_affected_rows job); reflexivity.
      * intros job' [= <-] Hb. rewrite Hb. by cbn.
    + split; [done|]. split; [done|]. by intros e' [= <-].
Qed.

Lemma queries_of_none (l : list event) :
  Forall (fun e => is_query e = false) l -> queries_of l = [].
Proof.
  induction 1 as [|e l He _ IH]; [reflexivity|].
  destruct e; try discriminate; exact IH.
Qed.

(** What [execute_sql] leaves behind: the announcing line, the query,
    and then the success lines when it returns, the error line when it
    raises. *)
Lemma execute_sql_events client sql description (w : W) :
  wh (execute_sql client sql description w) = snd (query sql w)
  /\ exists after,
      evs (execute_sql client sql description w)
      = EvPrint (Executing description) :: EvQuery sql :: after
      /\ ((exists job bytes,
              fst (query sql w) = Ok job
              /\ total_bytes_processed job = Some bytes
              /\ res (execute_sql client sql description w) = Ok (rows job)
              /\ after = EvPrint QuerySuccess
                         :: match num_dml_affected_rows job with
                            | Some n => [EvPrint (AffectedRows n)]
                            | None => []
                            end)
          \/ (exists e,
                (fst (query sql w) = Raise e
                 \/ exists job, fst (query sql w) = Ok job
                                /\ total_bytes_processed job = None
                                /\ e = TypeError)
                /\ res (execute_sql client sql description w) = Raise e
                /\ after = [EvPrint (QueryError e)])).
Proof.
  unfold execute_sql. run_script.
  destruct (query sql w) as [[job|e] w']; cbn.
  - destruct (total_bytes_processed job) as [bytes|] eqn:Hb; cbn.
    + destruct (num_dml_affected_rows job) as [n|] eqn:Hn; cbn;
        (split; [reflexivity|]; eexists; split; [reflexivity|]; left;
         exists job, bytes; by rewrite Hn).
    + split; [reflexivity|]. eexists. split; [reflexivity|]. right.
      exists TypeError. split; [right; by exists job|done].
  - split; [reflexivity|]. eexists. split; [reflexivity|]. right.
    exists e. split; [by left|done].
Qed.

Lemma run_statement_turn client description total i statement (w : W) :
  turn_events description total i statement (fst (query statement w))
    (evs (run_statement client description total i statement w))
  /\ wh (run_statement client description total i statement w)
     = if skipped statement then w else snd (query statement w).
Proof.
  unfold turn_events, run_statement.
  destruct (skipped statement); [done|].
  set (d := description +:+ _).
  destruct (execute_sql_events client statement d w)
    as (Hwh & after & Hevs
        & [(job & bytes & Hjob & Hbytes & Hres & ->)|(e & He & Hres & ->)]).
  - set (m := bind _ _).
    assert (m w = Outcome (Ok tt) (wh (execute_sql client statement d w))
                          (evs (execute_sql client statement d w) ++ [EvSleep 1]))
      as Hm by (subst m; by rewrite (bind_ok _ _ _ _ Hres)).
    rewrite (try_except_ok m _ w tt) by (by rewrite Hm).
    rewrite Hm, Hevs. cbn [evs wh app]. split; [|exact Hwh].
    eexists. split; [reflexivity|]. left. by exists job, bytes.
  - set (m := bind _ _).
    assert (m w = Outcome (Raise e) (wh (execute_sql client statement d w))
                          (evs (execute_sql client statement d w)))
      as Hm by (subst m; by rewrite (bind_raise _ _ _ _ Hres)).
    rewrite (try_except_raise m _ w e) by (by rewrite Hm).
    rewrite Hm, Hevs. cbn [evs wh app]. split; [|exact Hwh].
    eexists. split; [reflexivity|]. right. by exists e.
Qed.

Lemma run_statements_turns client description total statements :
  forall i (w : W),
    exists turns,
      evs (run_statements client description total i statements w) = concat turns
      /\ length turns = length statements
      /\ forall k statement found es,
           statements !! k = Some statement ->
           found_by statements w !! k = Some found ->
           turns !! k = Some es ->
           turn_events description total (i + k) statement
                       (fst (query statement found)) es.
Proof.
  induction statements as [|s rest IH]; intros i w.
  - exists []. split; [reflexivity|]. split; [reflexivity|]. by intros k.
  - cbn [run_statements].
    rewrite (bind_ok _ _ _ _ (run_statement_res client description total i s w)).
    cbn [evs].
    destruct (run_statement_turn client description total i s w) as [Hturn Hwh].
    destruct (IH (S i) (wh (run_statement client description total i s w)))
      as (turns & Hevs & Hlen & Hturns).
    exists (evs (run_statement client description total i s w) :: turns).
    split; [by rewrite Hevs|]. split; [cbn; by rewrite Hlen|].
    intros [|k] statement found es Hs Hfound He.
    + injection Hs as <-. injection Hfound as <-. injection He as <-.
      by rewrite Nat.add_0_r.
    + replace (i + S k) with (S i + k) by lia.
      cbn [found_by] in Hfound. rewrite <- Hwh in Hfound.
      by apply (Hturns k).
Qed.

(** X4: a run over a SQL file is, after the file is opened and the
    statements counted, one turn per statement, in the order of the
    statements.  The turn of a skipped statement is empty; every other
    turn is the line announcing the statement and the query of that
    statement, followed either by the success lines and the one-second
    pause, when the warehouse answers that query with a job that has a
    byte count, or else by the error of that query, printed and then
    logged under the number of that statement. *)
Theorem run_sql_file_pause_or_error
    client (cfg : config) sql_filename description text sql (w : W) :
  files p !! sql_path_of p sql_filename = Some text ->
  substitute_parameters text cfg = Ok sql ->
  exists turns,
    evs (run_sql_file p client cfg sql_filename description w)
    = EvOpen (sql_path_of p sql_filename)
      :: EvPrint (FoundStatements (length (split_statements sql)))
      :: concat turns
    /\ length turns = length (split_statements sql)
    /\ forall k statement found es,
         split_statements sql !! k = Some statement ->
         found_by (split_statements sql) w !! k = Some found ->
         turns !! k = Some es ->
         turn_events description (length (split_statements sql)) (S k)
                     statement (fst (query statement found)) es.
Proof.
  intros Hf Hs.
  rewrite (run_sql_file_present p client cfg sql_filename description
             text sql w Hf Hs).
  cbn zeta. cbn [evs].
  destruct (run_statements_turns client description
              (length (split_statements sql)) (split_statements sql) 1 w)
    as (turns & Hevs & Hlen & Hturns).
  exists turns. split; [by rewrite Hevs|]. split; [exact Hlen|].
  intros k statement found es Hk Hfound He. by apply (Hturns k).
Qed.

Lemma substitute_parameters_key_error (text : string) (cfg : config) :
  (cfg !! "gcp_project_id" = None ->
   substitute_parameters text cfg = Raise (KeyError "gcp_project_id"))
  /\ (is_Some (cfg !! "gcp_project_id") -> cfg !! "dataset_id" = None ->
      substitute_parameters text cfg = Raise (KeyError "dataset_id"))
  /\ (is_Some (cfg !! "gcp_project_id") -> is_Some (cfg !! "dataset_id") ->
      cfg !! "table_id" = None ->
      substitute_parameters text cfg = Raise (KeyError "table_id")).
Proof.
  unfold substitute_parameters, replacements, getitem.
  split; [|split].
  - by intros ->.
  - by intros [? ->] ->.
  - by intros [? ->] [? ->] ->.
Qed.

(** X5: without a table id in the configuration the runner opens the SQL
    file and then stops with [KeyError], for every text of the file, even
    one without placeholder: no statement is executed, and [main] ends
    with that error although it has printed project and dataset. *)
Theorem runner_needs_table_id
    (cfg : config) project dataset client text (w : W) :
  let o1 := load_config p w in
  let o2 := get_bigquery_client p cfg (wh o1) in
  res o1 = Ok cfg ->
  cfg !! "gcp_project_id" = Some project ->
  cfg !! "dataset_id" = Some dataset ->
  cfg !! "table_id" = None ->
  res o2 = Ok client ->
  files p !! sql_path_of p "transformations.sql" = Some text ->
  (forall description (w' : W),
      run_sql_file p client cfg "transformations.sql" description w'
      = Outcome (Raise (KeyError "table_id")) w'
                [EvOpen (sql_path_of p "transformations.sql")])
  /\ res (main p w) = Raise (KeyError "table_id")
  /\ exit_status (res (main p w)) = 1%Z.
Proof.
  intros o1 o2 H1 Hp Hd Ht H2 Hf.
  assert (forall description (w' : W),
             run_sql_file p client cfg "transformations.sql" description w'
             = Outcome (Raise (KeyError "table_id")) w'
                       [EvOpen (sql_path_of p "transformations.sql")]) as Hrun.
  { intros description w'. unfold run_sql_file. rewrite Hf.
    rewrite bool_decide_eq_true_2 by eauto.
    unfold read_sql_file, read_file. rewrite Hf.
    unfold bind, print, emit, ret, lift. cbn [res wh evs negb].
    by rewrite (proj2 (proj2 (substitute_parameters_key_error text cfg)))
      by eauto. }
  split; [exact Hrun|].
  assert (res (main p w) = Raise (KeyError "table_id")) as Hmain.
  { unfold main. rewrite (bind_ok _ _ _ _ H1). fold o1.
    unfold getitem. rewrite Hp, Hd.
    rewrite bind_lift_ok. unfold print, sleep. rewrite bind_emit.
    rewrite bind_lift_ok, bind_emit.
    rewrite (bind_ok _ _ _ _ H2). fold o2. cbn [res].
    rewrite (bind_raise _ _ _ (KeyError "table_id")) by (by rewrite Hrun).
    reflexivity. }
  by rewrite Hmain.
Qed.

Lemma print_rows_no_query results :
  only (W := W) (fun e => is_query e = false) (print_rows results).
Proof.
  induction results as [|row rest IH]; cbn [print_rows].
  - apply only_ret.
  - repeat first [apply IH | only_step].
Qed.

(** X6: verification never raises; it asks for the summary table first,
    sends its one query only when the table is there, and sends nothing
    otherwise.  Without the project or dataset key it raises [KeyError]
    before any call. *)
Theorem verify_transformations_outcome
    client (cfg : config) project dataset (w : W) :
  let table_id := project +:+ "." +:+ dataset +:+ ".department_summary" in
  let run := verify_transformations client cfg w in
  cfg !! "gcp_project_id" = Some project ->
  cfg !! "dataset_id" = Some dataset ->
  res run = Ok tt
  /\ (exists rest, evs run = EvGetTable table_id :: rest)
  /\ queries_of (evs run)
     = match fst (get_table table_id w) with
       | Ok _ => [verify_query project dataset]
       | Raise _ => []
       end.
Proof.
  intros table_id run Hp Hd.
  destruct (verify_transformations_ok client cfg project dataset w Hp Hd)
    as [Hres Hfirst].
  split; [exact Hres|]. split; [exact Hfirst|].
  subst run. unfold verify_transformations, getitem. rewrite Hp, Hd.
  rewrite !bind_lift_ok. fold table_id.
  set (look := try_except _ _).
  destruct (get_table table_id w) as [[table|e] w'] eqn:Hget; cbn [fst].
  - assert (look w = Outcome (Ok true) w'
                       [EvGetTable table_id; EvPrint (TableExists (num_rows table))])
      as Hlook by (subst look; run_script; by rewrite Hget).
    rewrite (bind_ok look _ w true) by (by rewrite Hlook).
    rewrite Hlook. cbn [evs wh].
    change (queries_of (?a :: ?b :: ?l)) with (queries_of l). cbn [app].
    set (vq := verify_query project dataset).
    set (body := bind _ _).
    pose proof (execute_sql_queries client vq "Verification query" w') as Hq.
    assert (queries_of (evs (body w')) = [vq]) as Hbody.
    { subst body.
      destruct (res (execute_sql client vq "Verification query" w')) as [r|e] eqn:E.
      - rewrite (bind_ok _ _ _ _ E). cbn [evs].
        rewrite queries_of_app, Hq.
        by rewrite (queries_of_none _ (print_rows_no_query r _)).
      - by rewrite (bind_raise _ _ _ _ E). }
    destruct (res (body w')) as [[]|e] eqn:E.
    + by rewrite (try_except_ok _ _ _ _ E).
    + rewrite (try_except_raise _ _ _ _ E). cbn [evs].
      change (queries_of (?a :: ?b :: ?l)) with (queries_of l).
      by rewrite queries_of_app, Hbody.
  - assert (look w = Outcome (Ok false) w' [EvGetTable table_id; EvPrint TableNotFound])
      as Hlook by (subst look; run_script; by rewrite Hget).
    rewrite (bind_ok look _ w false) by (by rewrite Hlook).
    by rewrite Hlook.
Qed.

Lemma load_config_no_call :
  only (W := W) (fun e => is_api_call e = false) (load_config p).
Proof. unfold load_config, read_file. solve_only. Qed.

Lemma load_config_eq (w : W) :
  load_config p w
  = Outcome (match files p !! config_path_of p with
             | None => Raise (FileNotFoundError (config_path_of p))
             | Some text => safe_load text
             end)
            w
            [EvPrint (LoadingConfigFrom (default "config.yaml"
                                           (environ p !! "CONFIG_FILE")));
             EvOpen (config_path_of p)].
Proof.
  unfold load_config, read_file. fold (config_path_of p).
  unfold bind, print, emit, ret, raise, lift. cbn [res wh evs].
  destruct (files p !! config_path_of p) as [text|]; cbn [res wh evs]; [|reflexivity].
  by destruct (safe_load text).
Qed.

Lemma load_config_untouched (w : W) : wh (load_config p w) = w.
Proof. by rewrite load_config_eq. Qed.

Lemma load_config_result (w : W) :
  res (load_config p w)
  = match files p !! config_path_of p with
    | None => Raise (FileNotFoundError (config_path_of p))
    | Some text => safe_load text
    end.
Proof. by rewrite load_config_eq. Qed.

Lemma bind_lift_raise {A B} (e : exn) (k : A -> M W B) (w : W) :
  bind (lift (Raise e)) k w = Outcome (Raise e) w [].
Proof. reflexivity. Qed.

Lemma filter_none {A} (keep : A -> bool) (l : list A) :
  Forall (fun a => keep a = false) l -> List.filter keep l = [].
Proof.
  induction 1 as [|a l Ha _ IH]; [reflexivity|]. cbn. by rewrite Ha.
Qed.

(** X7: when the configuration cannot be loaded (file missing or not
    YAML) or lacks the project or dataset id, the runner's [main] ends
    with the error and exit status 1 without one call to the warehouse,
    which it leaves as it was. *)
Theorem runner_main_needs_config (w : W) :
  files p !! config_path_of p = None
  \/ (exists text, files p !! config_path_of p = Some text
                   /\ (yaml_safe_load text = None
                       \/ exists cfg : config,
                            yaml_safe_load text = Some cfg
                            /\ (cfg !! "gcp_project_id" = None
                                \/ cfg !! "dataset_id" = None))) ->
  (exists e, res (main p w) = Raise e)
  /\ exit_status (res (main p w)) = 1%Z
  /\ List.filter is_api_call (evs (main p w)) = []
  /\ wh (main p w) = w.
Proof.
  intros Hcase.
  pose proof (load_config_result w) as Hres.
  pose proof (load_config_untouched w) as Hwh.
  pose proof (filter_none _ _ (load_config_no_call w)) as Hquiet.
  assert (forall e, res (load_config p w) = Raise e ->
            (exists e, res (main p w) = Raise e)
            /\ exit_status (res (main p w)) = 1%Z
            /\ List.filter is_api_call (evs (main p w)) = []
            /\ wh (main p w) = w) as Hraise.
  { intros e He. unfold main. rewrite (bind_raise _ _ _ _ He). cbn [res wh evs].
    eauto. }
  destruct Hcase as [Hf|(text & Hf & [Hy|(cfg & Hy & Hk)])]; rewrite Hf in Hres.
  - by apply (Hraise _ Hres).
  - unfold safe_load in Hres. rewrite Hy in Hres. by apply (Hraise _ Hres).
  - unfold safe_load in Hres. rewrite Hy in Hres.
    unfold main. rewrite (bind_ok _ _ _ _ Hres), Hwh. unfold getitem.
    destruct (cfg !! "gcp_project_id") as [project|] eqn:Hp.
    + destruct Hk as [|Hd]; [done|]. rewrite Hd.
      rewrite bind_lift_ok. unfold print. rewrite bind_emit.
      rewrite bind_lift_raise. cbn [res wh evs].
      rewrite List.filter_app, Hquiet. cbn [List.filter is_api_call app].
      eauto.
    + rewrite bind_lift_raise. cbn [res wh evs]. rewrite app_nil_r. eauto.
Qed.

Lemma path_join_absolute (a b : string) :
  PyStr.startswith b "/" = true -> path_join a b = b.
Proof. intros Hb. unfold path_join. by rewrite Hb. Qed.

(** X8: which credentials the client gets.  With the key variable unset
    or empty the client is built without credentials; with a key that is
    not JSON the function raises [JSONDecodeError], and with one that the
    credential check refuses it raises as well ([AttributeError] when the
    key is not a JSON object), each time before any client is built;
    otherwise the client gets the parsed key.  A configuration without
    project id gives no client either.  The data loader's function
    behaves the same. *)
Theorem get_bigquery_client_outcome (cfg : config) (w : W) :
  let key := environ p !! "GCP_SERVICE_ACCOUNT_KEY" in
  let run := get_bigquery_client p cfg w in
  (forall project,
      key = None \/ key = Some "" ->
      cfg !! "gcp_project_id" = Some project ->
      evs run = [EvPrint AuthLocal; EvClient None project]
      /\ forall client, res run = Ok client -> client_credentials client = None)
  /\ (forall text,
        key = Some text -> text <> "" -> json_loads text = None ->
        run = Outcome (Raise JSONDecodeError) w [EvPrint AuthServiceAccount])
  /\ (forall text info,
        key = Some text -> text <> "" -> json_loads text = Some info ->
        valid_service_account_info info = false ->
        (exists e, run = Outcome (Raise e) w [EvPrint AuthServiceAccount])
        /\ ((forall members, info <> JObj members) ->
            run = Outcome (Raise AttributeError) w [EvPrint AuthServiceAccount]))
  /\ (forall text info project,
        key = Some text -> text <> "" -> json_loads text = Some info ->
        valid_service_account_info info = true ->
        cfg !! "gcp_project_id" = Some project ->
        evs run = [EvPrint AuthServiceAccount; EvClient (Some info) project]
        /\ forall client, res run = Ok client ->
                          client_credentials client = Some info
                          /\ client_project client = project)
  /\ (cfg !! "gcp_project_id" = None ->
      List.filter is_api_call (evs run) = []
      /\ forall client, res run <> Ok client)
  /\ LoadData.get_bigquery_client p cfg w = run.
Proof.
  intros key run. subst key run.
  unfold get_bigquery_client, make_client, loads, getitem.
  split; [|split; [|split; [|split; [|split]]]].
  - intros project Hk Hp. rewrite Hp.
    destruct Hk as [-> | ->]; run_script;
      destruct (new_client None project w) as [[[]|e] w']; cbn;
      (split; [reflexivity|]); intros client; by intros [= <-].
  - intros text Hk Hne Hj. rewrite Hk.
    destruct text as [|c k]; [done|]. run_script. by rewrite Hj.
  - intros text info Hk Hne Hj Hv. rewrite Hk.
    destruct text as [|c k]; [done|]. run_script. rewrite Hj. cbn. rewrite Hv.
    cbn. split; [eauto|]. intros Hobj.
    destruct info; try reflexivity. by destruct (Hobj members).
  - intros text info project Hk Hne Hj Hv Hp. rewrite Hk, Hp.
    destruct text as [|c k]; [done|]. run_script. rewrite Hj. cbn. rewrite Hv. cbn.
    destruct (new_client (Some info) project w) as [[[]|e] w']; cbn;
      (split; [reflexivity|]); intros client; by intros [= <-].
  - intros Hp. rewrite Hp.
    destruct (environ p !! "GCP_SERVICE_ACCOUNT_KEY") as [[|c k]|]; run_script;
      try (split; [reflexivity|discriminate]).
    destruct (json_loads (String c k)) as [info|]; cbn;
      [|split; [reflexivity|discriminate]].
    destruct (valid_service_account_info info); cbn;
      (split; [reflexivity|discriminate]).
  - reflexivity.
Qed.

Lemma data_loader_load_config_eq (w : W) :
  LoadData.load_config p w
  = let path := path_join (path_join (path_join (script_dir p) "..") "config")
                          "config.yaml" in
    Outcome (match files p !! path with
             | None => Raise (FileNotFoundError path)
             | Some text => safe_load text
             end) w [EvOpen path].
Proof.
  unfold LoadData.load_config, read_file. cbn zeta.
  unfold bind, print, emit, ret, raise, lift. cbn [res wh evs].
  destruct (files p !! _) as [text|]; cbn [res wh evs]; [|reflexivity].
  by destruct (safe_load text).
Qed.

(** X9: which file the runner's configuration comes from.  Without
    [CONFIG_FILE] it is the data loader's [config.yaml], with the same
    result; a [CONFIG_FILE] that starts with a slash is opened as it is,
    outside the configuration directory. *)
Theorem runner_config_file_choice (w : W) :
  (environ p !! "CONFIG_FILE" = None ->
   res (load_config p w) = res (LoadData.load_config p w)
   /\ List.filter is_open (evs (load_config p w))
      = evs (LoadData.load_config p w))
  /\ (forall file,
        environ p !! "CONFIG_FILE" = Some file ->
        PyStr.startswith file "/" = true ->
        List.filter is_open (evs (load_config p w)) = [EvOpen file]
        /\ res (load_config p w)
           = match files p !! file with
             | None => Raise (FileNotFoundError file)
             | Some text => safe_load text
             end).
Proof.
  split.
  - intros He. rewrite load_config_eq, data_loader_load_config_eq.
    unfold config_path_of. rewrite He. by cbn.
  - intros file He Hf. rewrite load_config_eq.
    unfold config_path_of. rewrite He. cbn [default].
    rewrite (path_join_absolute _ file Hf). by cbn.
Qed.

End RunnerMore.

Lemma run_sql_file_sends_statements_witness :
  In "C" (RunTransformations.split_statements "A; B;; C")
  /\ "C" <> "" /\ PyStr.strip "C" = "C" /\ has_char ";" "C" = false
  /\ PyStr.startswith "C" "--" = false.
Proof.
  apply (run_sql_file_sends_statements demo_process demo_client demo_config
           "transformations.sql" "Data transformations" "A; B;; C" "A; B;; C"
           demo_store "C").
  - vm_compute. reflexivity.
  - vm_compute. reflexivity.
  - vm_compute. right. right. left. reflexivity.
Defined.

Lemma run_sql_file_pause_or_error_witness :
  exists turns,
    evs (RunTransformations.run_sql_file demo_process demo_client demo_config
           "transformations.sql" "Data transformations" demo_store)
    = EvOpen "/app/scripts/../sql/transformations.sql"
      :: EvPrint (FoundStatements 3) :: concat turns
    /\ length turns = 3
    /\ forall k statement found es,
         ["A"; "B"; "C"] !! k = Some statement ->
         [demo_store; demo_store; demo_store] !! k = Some found ->
         turns !! k = Some es ->
         turn_events "Data transformations" 3 (S k) statement
                     (fst (query statement found)) es.
Proof.
  destruct (run_sql_file_pause_or_error demo_process demo_client demo_config
              "transformations.sql" "Data transformations" "A; B;; C" "A; B;; C"
              demo_store
              ltac:(vm_compute; reflexivity) ltac:(vm_compute; reflexivity))
    as (turns & Hevs & Hlen & Hturns).
  exists turns. split; [exact Hevs|]. split; [exact Hlen|]. exact Hturns.
Defined.

(** The turn of the statement that the warehouse rejects. *)
Example rejected_turn :
  evs (RunTransformations.run_statement demo_client "Data transformations" 3 2
         "B" demo_store)
  = [EvPrint (Executing "Data transformations - Statement 2/3"); EvQuery "B";
     EvPrint (QueryError (ApiError "Bad request"));
     EvPrint (StatementError 2 (ApiError "Bad request"))].
Proof. vm_compute. reflexivity. Qed.

Lemma execute_sql_outcome_witness :
  res (RunTransformations.execute_sql demo_client "B" "check" demo_store)
  = Raise (ApiError "Bad request")
  /\ evs (RunTransformations.execute_sql demo_client "B" "check" demo_store)
     = [EvPrint (Executing "check"); EvQuery "B";
        EvPrint (QueryError (ApiError "Bad request"))].
Proof.
  apply (proj2 (proj2 (proj2 (proj2
           (execute_sql_outcome demo_client "B" "check" demo_store))))).
  vm_compute. reflexivity.
Defined.

Lemma runner_needs_table_id_witness :
  res (RunTransformations.main (HR := tableless_runtime) demo_process demo_store)
  = Raise (KeyError "table_id").
Proof.
  apply (runner_needs_table_id (HR := tableless_runtime) demo_process
           tableless_config "proj" "hr" demo_client "A; B;; C" demo_store);
    vm_compute; reflexivity.
Defined.

Lemma verify_transformations_outcome_witness :
  queries_of (evs (RunTransformations.verify_transformations (HR := demo_runtime)
                     demo_client demo_config demo_store))
  = [].
Proof.
  rewrite (proj2 (proj2 (verify_transformations_outcome (HR := demo_runtime)
                           demo_client demo_config "proj" "hr" demo_store
                           eq_refl eq_refl))).
  vm_compute. reflexivity.
Defined.

Lemma runner_main_needs_config_witness :
  exit_status (res (RunTransformations.main (HR := demo_runtime)
                      unconfigured_process demo_store)) = 1%Z
  /\ List.filter is_api_call
       (evs (RunTransformations.main (HR := demo_runtime)
               unconfigured_process demo_store)) = [].
Proof.
  destruct (runner_main_needs_config (HR := demo_runtime) unconfigured_process
              demo_store) as (_ & Hexit & Hquiet & _).
  - left. vm_compute. reflexivity.
  - split; [exact Hexit|exact Hquiet].
Defined.

Lemma get_bigquery_client_outcome_witness :
  RunTransformations.get_bigquery_client (HR := tableless_runtime) listed_process
    demo_config demo_store
  = Outcome (Raise AttributeError) demo_store [EvPrint AuthServiceAccount].
Proof.
  apply (proj2 (proj1 (proj2 (proj2 (get_bigquery_client_outcome
                                       (HR := tableless_runtime)
                                       listed_process demo_config demo_store)))
                  "[1]" (JArr [JInt 1])
                  ltac:(vm_compute; reflexivity) ltac:(discriminate)
                  ltac:(vm_compute; reflexivity) ltac:(reflexivity))).
  discriminate.
Defined.

Lemma runner_config_file_choice_witness :
  List.filter is_open
    (evs (RunTransformations.load_config (W := Store) (HR := demo_runtime)
            absolute_process demo_store))
  = [EvOpen "/etc/warehouse.yaml"]
  /\ res (RunTransformations.load_config (W := Store) (HR := demo_runtime)
            absolute_process demo_store)
     = Ok prod_config.
Proof.
  destruct (proj2 (runner_config_file_choice (HR := demo_runtime)
                     absolute_process demo_store) "/etc/warehouse.yaml")
    as [Hopen Hres].
  - vm_compute. reflexivity.
  - reflexivity.
  - split; [exact Hopen|]. rewrite Hres. vm_compute. reflexivity.
Defined.

(** ** Running a script step by step *)

Section ScriptSteps.
Context {W : Type}.

Lemma prepend_outcome {A} es (r : result A) (w : W) es' :
  prepend es (Outcome r w es') = Outcome r w (es ++ es').
Proof. reflexivity. Qed.

Lemma res_prepend {A} es (o : outcome (W := W) A) : res (prepend es o) = res o.
Proof. reflexivity. Qed.

Lemma wh_prepend {A} es (o : outcome (W := W) A) : wh (prepend es o) = wh o.
Proof. reflexivity. Qed.

Lemma evs_prepend {A} es (o : outcome (W := W) A) :
  evs (prepend es o) = es ++ evs o.
Proof. reflexivity. Qed.

Lemma bind_emit_step {B} (e : event) (k : unit -> M W B) (w : W) :
  bind (emit e) k w = prepend [e] (k tt w).
Proof. reflexivity. Qed.

Lemma bind_ret_step {A B} (a : A) (k : A -> M W B) (w : W) :
  bind (ret a) k w = k a w.
Proof. unfold bind, ret. cbn. by destruct (k a w). Qed.

Lemma bind_raise_step {A B} (e : exn) (k : A -> M W B) (w : W) :
  bind (raise e) k w = Outcome (Raise e) w [].
Proof. reflexivity. Qed.

Lemma bind_lift_raise_step {A B} (e : exn) (k : A -> M W B) (w : W) :
  bind (lift (Raise e)) k w = Outcome (Raise e) w [].
Proof. reflexivity. Qed.

Lemma bind_eval_ok {A B} (m : M W A) (k : A -> M W B) (w w' : W) a es :
  m w = Outcome (Ok a) w' es -> bind m k w = prepend es (k a w').
Proof. intros E. unfold bind. by rewrite E. Qed.

Lemma bind_eval_raise {A B} (m : M W A) (k : A -> M W B) (w w' : W) e es :
  m w = Outcome (Raise e) w' es -> bind m k w = Outcome (Raise e) w' es.
Proof. intros E. unfold bind. by rewrite E. Qed.

Lemma bind_call_ok {A B} e (op : W -> result A * W) (k : A -> M W B) w a w' :
  op w = (Ok a, w') -> bind (call e op) k w = prepend [e] (k a w').
Proof. intros E. unfold bind, call. by rewrite E. Qed.

Lemma bind_call_raise {A B} e (op : W -> result A * W) (k : A -> M W B) w x w' :
  op w = (Raise x, w') -> bind (call e op) k w = Outcome (Raise x) w' [e].
Proof. intros E. unfold bind, call. by rewrite E. Qed.

Lemma bind_assoc {A B C} (m : M W A) (k1 : A -> M W B) (k2 : B -> M W C) (w : W) :
  bind (bind m k1) k2 w = bind m (fun a => bind (k1 a) k2) w.
Proof.
  unfold bind. destruct (res (m w)) as [a|e]; cbn [res wh evs]; [|reflexivity].
  destruct (res (k1 a (wh (m w)))) as [b|e]; cbn [res wh evs]; [|reflexivity].
  by rewrite app_assoc.
Qed.

Lemma try_except_eval_ok {A} (m : M W A) (h : exn -> M W A) (w w' : W) a es :
  m w = Outcome (Ok a) w' es -> try_except m h w = Outcome (Ok a) w' es.
Proof. intros E. unfold try_except. by rewrite E. Qed.

Lemma try_except_eval_raise {A} (m : M W A) (h : exn -> M W A) (w w' : W) e es :
  m w = Outcome (Raise e) w' es -> try_except m h w = prepend es (h e w').
Proof. intros E. unfold try_except. by rewrite E. Qed.

End ScriptSteps.

(** One step along a path that is known. *)
Ltac eval_step :=
  first [ rewrite bind_assoc
        | rewrite bind_emit_step | rewrite bind_lift_ok | rewrite bind_ret_step
        | rewrite bind_lift_raise_step | rewrite bind_raise_step
        | rewrite prepend_outcome ].

Ltac eval_script := unfold print, sleep; repeat eval_step; cbn [app].

(** ** More on the diagnostic tool *)

Section DiagnosticMore.
Context {W : Type} {HW : Warehouse W} {HR : Runtime}.
Variable p : process.

Import TestConnection.

(** X10: a key that is well-formed JSON but not an object makes the
    first check raise [AttributeError] after the line that calls the
    JSON valid; [main] ends with that error, so with exit status 1, but
    prints no verdict and makes no call. *)
Theorem diagnostic_raises_on_non_object (w : W) key value :
  environ p !! "GCP_SERVICE_ACCOUNT_KEY" = Some key ->
  key <> "" ->
  json_loads key = Some value ->
  (forall members, value <> JObj members) ->
  main p w
  = Outcome (Raise AttributeError) w
            [EvPrint (EnvSet (String.length key)); EvPrint ValidJson]
  /\ exit_status (res (main p w)) = 1%Z.
Proof.
  intros Hk Hne Hj Hobj.
  assert (main p w
          = Outcome (Raise AttributeError) w
                    [EvPrint (EnvSet (String.length key)); EvPrint ValidJson]) as Hm.
  { assert (test_environment p w
            = Outcome (Raise AttributeError) w
                      [EvPrint (EnvSet (String.length key)); EvPrint ValidJson])
      as Henv.
    { unfold test_environment. rewrite Hk.
      destruct key as [|c k]; [done|].
      unfold loads. rewrite Hj.
      destruct value as [| | | | | |members];
        [reflexivity..|by destruct (Hobj members)]. }
    unfold main.
    rewrite (bind_raise _ _ _ AttributeError) by (by rewrite Henv).
    by rewrite Henv. }
  by rewrite Hm.
Qed.

(** The first [try] block ends with the configuration, or with [None]. *)
Lemma load_config_step_eq (w : W) :
  load_config_step p w
  = match files p !! "config/config.yaml" with
    | None =>
        Outcome (Ok None) w
          [EvOpen "config/config.yaml";
           EvPrint (CannotLoadConfig (FileNotFoundError "config/config.yaml"))]
    | Some text =>
        match yaml_safe_load text with
        | None =>
            Outcome (Ok None) w
              [EvOpen "config/config.yaml"; EvPrint (CannotLoadConfig YAMLError)]
        | Some cfg =>
            match cfg !! "gcp_project_id", cfg !! "dataset_id" with
            | None, _ =>
                Outcome (Ok None) w
                  [EvOpen "config/config.yaml"; EvPrint ConfigLoaded;
                   EvPrint (CannotLoadConfig (KeyError "gcp_project_id"))]
            | Some project, None =>
                Outcome (Ok None) w
                  [EvOpen "config/config.yaml"; EvPrint ConfigLoaded;
                   EvPrint (ConfigValue "Project" project);
                   EvPrint (CannotLoadConfig (KeyError "dataset_id"))]
            | Some project, Some dataset =>
                Outcome (Ok (Some cfg)) w
                  [EvOpen "config/config.yaml"; EvPrint ConfigLoaded;
                   EvPrint (ConfigValue "Project" project);
                   EvPrint (ConfigValue "Dataset" dataset)]
            end
        end
    end.
Proof.
  unfold load_config_step, read_file.
  destruct (files p !! "config/config.yaml") as [text|] eqn:Hf.
  - destruct (yaml_safe_load text) as [cfg|] eqn:Hy.
    + destruct (cfg !! "gcp_project_id") as [project|] eqn:Hp.
      * destruct (cfg !! "dataset_id") as [dataset|] eqn:Hd.
        -- erewrite try_except_eval_ok; [reflexivity|].
           eval_script. unfold safe_load. rewrite Hy. eval_script.
           unfold getitem. rewrite Hp. eval_script. rewrite Hd. eval_script.
           reflexivity.
        -- erewrite try_except_eval_raise;
             [|eval_script; unfold safe_load; rewrite Hy; eval_script;
               unfold getitem; rewrite Hp; eval_script; rewrite Hd; eval_script;
               reflexivity].
           eval_script. reflexivity.
      * erewrite try_except_eval_raise;
          [|eval_script; unfold safe_load; rewrite Hy; eval_script;
            unfold getitem; rewrite Hp; eval_script; reflexivity].
        eval_script. reflexivity.
    + erewrite try_except_eval_raise;
        [|eval_script; unfold safe_load; rewrite Hy; eval_script; reflexivity].
      eval_script. reflexivity.
  - erewrite try_except_eval_raise; [|eval_script; reflexivity].
    eval_script. reflexivity.
Qed.

Lemma load_config_step_ok (w : W) :
  exists loaded,
    res (load_config_step p w) = Ok loaded
    /\ wh (load_config_step p w) = w
    /\ List.filter is_api_call (evs (load_config_step p w)) = []
    /\ (forall cfg : config,
          loaded = Some cfg ->
          is_Some (cfg !! "gcp_project_id") /\ is_Some (cfg !! "dataset_id")).
Proof.
  rewrite load_config_step_eq.
  destruct (files p !! "config/config.yaml") as [text|];
    [|eexists; repeat split; discriminate].
  destruct (yaml_safe_load text) as [cfg|];
    [|eexists; repeat split; discriminate].
  destruct (cfg !! "gcp_project_id") as [project|] eqn:Hp;
    [|eexists; repeat split; discriminate].
  destruct (cfg !! "dataset_id") as [dataset|] eqn:Hd;
    [|eexists; repeat split; discriminate].
  eexists. split; [reflexivity|]. split; [reflexivity|]. split; [reflexivity|].
  intros cfg' [= <-]. rewrite Hp, Hd. eauto.
Qed.

Lemma create_client_step_ok cfg (w : W) :
  exists created, res (create_client_step p cfg w) = Ok created.
Proof.
  unfold create_client_step.
  set (body := bind _ _).
  destruct (res (body w)) as [c|e] eqn:E.
  - rewrite (try_except_ok _ _ _ _ E). eauto.
  - rewrite (try_except_raise _ _ _ _ E). cbn. eauto.
Qed.

Lemma api_access_step_ok client (w : W) :
  exists reachable, res (api_access_step client w) = Ok reachable.
Proof.
  unfold api_access_step. run_script.
  destruct (list_datasets w) as [[ds|e] w']; cbn; eauto.
Qed.

Lemma create_client_step_unset (cfg : config) (w : W) :
  environ p !! "GCP_SERVICE_ACCOUNT_KEY" = None ->
  create_client_step p cfg w
  = Outcome (Ok None) w [EvPrint (CannotCreateClient TypeError)].
Proof.
  intros Hk. unfold create_client_step. rewrite Hk.
  erewrite try_except_eval_raise; [|eval_script; reflexivity].
  eval_script. reflexivity.
Qed.

Lemma create_client_step_built (cfg : config) project key info (w w1 : W) :
  environ p !! "GCP_SERVICE_ACCOUNT_KEY" = Some key ->
  json_loads key = Some info ->
  valid_service_account_info info = true ->
  cfg !! "gcp_project_id" = Some project ->
  new_client (Some info) project w = (Ok tt, w1) ->
  create_client_step p cfg w
  = Outcome (Ok (Some {| client_credentials := Some info;
                         client_project := project |})) w1
            [EvClient (Some info) project; EvPrint ClientCreated].
Proof.
  intros Hk Hj Hv Hp Hc. unfold create_client_step. rewrite Hk.
  erewrite try_except_eval_ok; [reflexivity|].
  unfold loads, make_client, getitem. rewrite Hj, Hp. eval_script.
  rewrite Hv. eval_script.
  rewrite (bind_call_ok _ _ _ _ _ _ Hc). eval_script. reflexivity.
Qed.

Lemma api_access_step_listed client listed (w w2 : W) :
  list_datasets w = (Ok listed, w2) ->
  api_access_step client w
  = Outcome (Ok true) w2 [EvListDatasets; EvPrint (CanAccessApi listed)].
Proof.
  intros Hls. unfold api_access_step.
  erewrite try_except_eval_ok; [reflexivity|].
  rewrite (bind_call_ok _ _ _ _ _ _ Hls). eval_script. reflexivity.
Qed.

(** X11: the connection test never raises: whatever the files, the
    environment and the warehouse do, it returns [True] or [False]. *)
Theorem test_bigquery_connection_returns (w : W) :
  exists passed, res (test_bigquery_connection p w) = Ok passed.
Proof.
  unfold test_bigquery_connection.
  destruct (libraries_installed p); cbn [negb]; [|by eexists].
  unfold print. rewrite bind_emit. cbn [res].
  destruct (load_config_step_ok w) as (loaded & Hl & Hw & _ & Hkeys).
  rewrite (bind_ok _ _ _ _ Hl). cbn [res].
  destruct loaded as [cfg|]; [|by eexists].
  destruct (Hkeys cfg eq_refl) as [[project Hp] [dataset Hd]].
  destruct (create_client_step_ok cfg (wh (load_config_step p w)))
    as (created & Hc).
  rewrite (bind_ok _ _ _ _ Hc). cbn [res].
  destruct created as [client|]; [|by eexists].
  destruct (api_access_step_ok client (wh (create_client_step p cfg
                                             (wh (load_config_step p w)))))
    as (reachable & Ha).
  rewrite (bind_ok _ _ _ _ Ha). cbn [res].
  destruct reachable; cbn [negb]; [|by eexists].
  unfold getitem. rewrite Hp, Hd. rewrite !bind_lift_ok.
  set (look := try_except _ _).
  assert (res (look (wh (api_access_step client
                           (wh (create_client_step p cfg
                                  (wh (load_config_step p w))))))) = Ok tt) as Hlook.
  { subst look. run_script. by destruct (get_dataset _ _) as [[d|e] w']. }
  rewrite (bind_ok _ _ _ _ Hlook). by eexists.
Qed.

(** X12: the connection test stops before the warehouse when it has to:
    without the client libraries it opens no file and makes no call;
    when [config/config.yaml] cannot be read it makes no call; and when
    the key variable is unset it builds no client and returns [False]:
    unlike the two scripts it has no fallback to local credentials. *)
Theorem test_bigquery_connection_stops_early (w : W) :
  (libraries_installed p = false ->
   test_bigquery_connection p w = Outcome (Ok false) w [EvPrint CannotImport])
  /\ (libraries_installed p = true ->
      files p !! "config/config.yaml" = None ->
      test_bigquery_connection p w
      = Outcome (Ok false) w
                [EvPrint LibraryImported; EvOpen "config/config.yaml";
                 EvPrint (CannotLoadConfig (FileNotFoundError "config/config.yaml"))])
  /\ (forall text (cfg : config) project dataset,
        libraries_installed p = true ->
        files p !! "config/config.yaml" = Some text ->
        yaml_safe_load text = Some cfg ->
        cfg !! "gcp_project_id" = Some project ->
        cfg !! "dataset_id" = Some dataset ->
        environ p !! "GCP_SERVICE_ACCOUNT_KEY" = None ->
        res (test_bigquery_connection p w) = Ok false
        /\ wh (test_bigquery_connection p w) = w
        /\ List.filter is_api_call (evs (test_bigquery_connection p w)) = []).
Proof.
  split; [|split].
  - intros Hl. unfold test_bigquery_connection. by rewrite Hl.
  - intros Hl Hf.
    pose proof (load_config_step_eq w) as Hload. rewrite Hf in Hload.
    unfold test_bigquery_connection. rewrite Hl. cbn [negb].
    eval_script. rewrite (bind_eval_ok _ _ _ _ _ _ Hload). by eval_script.
  - intros text cfg project dataset Hl Hf Hy Hp Hd Hk.
    pose proof (load_config_step_eq w) as Hload.
    rewrite Hf, Hy, Hp, Hd in Hload.
    unfold test_bigquery_connection. rewrite Hl. cbn [negb].
    eval_script. rewrite (bind_eval_ok _ _ _ _ _ _ Hload).
    rewrite (bind_eval_ok _ _ _ _ _ _ (create_client_step_unset cfg w Hk)).
    eval_script. by cbn.
Qed.

(** X13: the look at the target dataset is informational: once the
    configuration is read, the client is built and the datasets are
    listed, the connection test returns [True] whether the target
    dataset is found or not. *)
Theorem target_dataset_check_is_informational
    text (cfg : config) project dataset key info (w w1 w2 : W) listed :
  let dataset_id := project +:+ "." +:+ dataset in
  libraries_installed p = true ->
  files p !! "config/config.yaml" = Some text ->
  yaml_safe_load text = Some cfg ->
  cfg !! "gcp_project_id" = Some project ->
  cfg !! "dataset_id" = Some dataset ->
  environ p !! "GCP_SERVICE_ACCOUNT_KEY" = Some key ->
  json_loads key = Some info ->
  valid_service_account_info info = true ->
  new_client (Some info) project w = (Ok tt, w1) ->
  list_datasets w1 = (Ok listed, w2) ->
  res (test_bigquery_connection p w) = Ok true
  /\ wh (test_bigquery_connection p w) = snd (get_dataset dataset_id w2)
  /\ evs (test_bigquery_connection p w)
     = [EvPrint LibraryImported; EvOpen "config/config.yaml";
        EvPrint ConfigLoaded; EvPrint (ConfigValue "Project" project);
        EvPrint (ConfigValue "Dataset" dataset);
        EvClient (Some info) project; EvPrint ClientCreated;
        EvListDatasets; EvPrint (CanAccessApi listed);
        EvGetDataset dataset_id;
        EvPrint (match fst (get_dataset dataset_id w2) with
                 | Ok _ => TargetDatasetExists
                 | Raise _ => TargetDatasetMissing
                 end)].
Proof.
  intros dataset_id Hl Hf Hy Hp Hd Hk Hj Hv Hc Hls.
  pose proof (load_config_step_eq w) as Hload.
  rewrite Hf, Hy, Hp, Hd in Hload.
  unfold test_bigquery_connection. rewrite Hl. cbn [negb].
  eval_script. rewrite (bind_eval_ok _ _ _ _ _ _ Hload).
  rewrite (bind_eval_ok _ _ _ _ _ _
             (create_client_step_built cfg project key info w w1 Hk Hj Hv Hp Hc)).
  rewrite (bind_eval_ok _ _ _ _ _ _ (api_access_step_listed _ listed w1 w2 Hls)).
  cbn [negb]. unfold getitem. rewrite Hp, Hd. eval_script. fold dataset_id.
  destruct (get_dataset dataset_id w2) as [[d|e] w3] eqn:Hget; cbn [fst snd].
  - erewrite (bind_eval_ok (try_except _ _));
      [|erewrite try_except_eval_ok; [reflexivity|];
        rewrite (bind_call_ok _ _ _ _ _ _ Hget); eval_script; reflexivity].
    eval_script. by cbn.
  - erewrite (bind_eval_ok (try_except _ _));
      [|erewrite try_except_eval_raise;
        [|rewrite (bind_call_raise _ _ _ _ _ _ Hget); reflexivity];
        eval_script; reflexivity].
    eval_script. by cbn.
Qed.

End DiagnosticMore.

Lemma diagnostic_raises_on_non_object_witness :
  TestConnection.main (HR := tableless_runtime) listed_process demo_store
  = Outcome (Raise AttributeError) demo_store
            [EvPrint (EnvSet 3); EvPrint ValidJson]
  /\ exit_status (res (TestConnection.main (HR := tableless_runtime)
                         listed_process demo_store)) = 1%Z.
Proof.
  apply (diagnostic_raises_on_non_object (HR := tableless_runtime) listed_process
           demo_store "[1]" (JArr [JInt 1])).
  - vm_compute. reflexivity.
  - discriminate.
  - vm_compute. reflexivity.
  - discriminate.
Defined.

Lemma test_bigquery_connection_stops_early_witness :
  TestConnection.test_bigquery_connection (HR := demo_runtime) bare_process
    demo_store
  = Outcome (Ok false) demo_store [EvPrint CannotImport]
  /\ res (TestConnection.test_bigquery_connection (HR := demo_runtime)
            demo_process demo_store) = Ok false.
Proof.
  split.
  - apply (proj1 (test_bigquery_connection_stops_early (HR := demo_runtime)
                    bare_process demo_store)).
    reflexivity.
  - apply (proj2 (proj2 (test_bigquery_connection_stops_early (HR := demo_runtime)
                           demo_process demo_store))
             "demo" demo_config "proj" "hr"); vm_compute; reflexivity.
Defined.

Lemma target_dataset_check_is_informational_witness :
  res (TestConnection.test_bigquery_connection (HR := demo_runtime) keyed_process
         demo_store) = Ok true.
Proof.
  apply (target_dataset_check_is_informational (HR := demo_runtime) keyed_process
           "demo" demo_config "proj" "hr" "{}" (JObj ∅)
           demo_store demo_store demo_store []);
    vm_compute; reflexivity.
Defined.

(** ** More on the data loader *)

Section LoaderMore.
Context {W : Type} {HW : Warehouse W} {HR : Runtime}.
Variable p : process.

Import LoadData.

(** X14: how the dataset ensurer fails.  Without project or dataset id
    it raises [KeyError] before any call.  When the dataset is not found
    and [bigquery.Dataset] refuses the id, it raises [ValueError] after
    the lookup, whatever else the configuration holds, with no creation
    call.  With an id that is taken and a configuration without location
    it raises [KeyError] after the lookup, again with no creation call;
    and an error of the creation call comes out as it is. *)
Theorem dataset_ensurer_failures client (cfg : config) (w : W) :
  let run := create_dataset_if_not_exists client cfg w in
  (cfg !! "gcp_project_id" = None \/ cfg !! "dataset_id" = None ->
   (exists key, res run = Raise (KeyError key)) /\ wh run = w /\ evs run = [])
  /\ (forall project dataset e w',
        cfg !! "gcp_project_id" = Some project ->
        cfg !! "dataset_id" = Some dataset ->
        get_dataset (project +:+ "." +:+ dataset) w = (Raise e, w') ->
        accepts_dataset_id (project +:+ "." +:+ dataset) = false ->
        run = Outcome (Raise ValueError) w'
                [EvGetDataset (project +:+ "." +:+ dataset);
                 EvPrint (CreatingDataset (project +:+ "." +:+ dataset))])
  /\ (forall project dataset e w',
        cfg !! "gcp_project_id" = Some project ->
        cfg !! "dataset_id" = Some dataset ->
        get_dataset (project +:+ "." +:+ dataset) w = (Raise e, w') ->
        accepts_dataset_id (project +:+ "." +:+ dataset) = true ->
        cfg !! "location" = None ->
        run = Outcome (Raise (KeyError "location")) w'
                [EvGetDataset (project +:+ "." +:+ dataset);
                 EvPrint (CreatingDataset (project +:+ "." +:+ dataset))])
  /\ (forall project dataset location e w' e' w'',
        cfg !! "gcp_project_id" = Some project ->
        cfg !! "dataset_id" = Some dataset ->
        cfg !! "location" = Some location ->
        get_dataset (project +:+ "." +:+ dataset) w = (Raise e, w') ->
        accepts_dataset_id (project +:+ "." +:+ dataset) = true ->
        create_dataset
          {| ds_id := project +:+ "." +:+ dataset;
             ds_location := Some location;
             ds_description := Some "Dataset created by CI/CD pipeline" |} w'
        = (Raise e', w'') ->
        res run = Raise e' /\ wh run = w'').
Proof.
  cbn zeta. unfold create_dataset_if_not_exists, getitem.
  split; [|split; [|split]].
  - intros Hk. destruct (cfg !! "gcp_project_id") as [project|] eqn:Hp.
    + destruct Hk as [|Hd]; [done|]. rewrite Hd. rewrite bind_lift_ok.
      unfold bind, lift. cbn. eauto.
    + unfold bind, lift. cbn. eauto.
  - intros project dataset e w' Hp Hd Hget Hid. rewrite Hp, Hd.
    rewrite !bind_lift_ok. unfold Dataset_new. rewrite Hid.
    run_script. rewrite Hget. by cbn.
  - intros project dataset e w' Hp Hd Hget Hid Hloc. rewrite Hp, Hd.
    rewrite !bind_lift_ok. unfold Dataset_new. rewrite Hid.
    run_script. rewrite Hget. cbn. rewrite Hloc. by cbn.
  - intros project dataset location e w' e' w'' Hp Hd Hloc Hget Hid Hcreate.
    rewrite Hp, Hd. rewrite !bind_lift_ok. unfold Dataset_new. rewrite Hid.
    run_script. rewrite Hget. cbn.
    rewrite Hloc. cbn. unfold set_description, set_location. cbn.
    rewrite Hcreate. by cbn.
Qed.

(** X15: with a warehouse that finds a dataset once it is created, and
    keeps finding one it has found, a second run of the ensurer after a
    run that went well creates nothing. *)
Theorem dataset_ensurer_second_run client (cfg : config) project dataset (w : W) :
  let first := create_dataset_if_not_exists client cfg w in
  let second := create_dataset_if_not_exists client cfg (wh first) in
  (forall d (w0 w1 : W),
      create_dataset d w0 = (Ok tt, w1) ->
      exists found w2, get_dataset (ds_id d) w1 = (Ok found, w2)) ->
  (forall id d (w0 w1 : W),
      get_dataset id w0 = (Ok d, w1) ->
      exists found w2, get_dataset id w1 = (Ok found, w2)) ->
  cfg !! "gcp_project_id" = Some project ->
  cfg !! "dataset_id" = Some dataset ->
  res first = Ok tt ->
  res second = Ok tt
  /\ List.filter is_create_dataset (evs second) = [].
Proof.
  intros first second Hcreated Hkept Hp Hd Hfirst. subst first second.
  set (dataset_id := project +:+ "." +:+ dataset) in *.
  assert (forall w0 found w1,
             get_dataset dataset_id w0 = (Ok found, w1) ->
             res (create_dataset_if_not_exists client cfg w0) = Ok tt
             /\ wh (create_dataset_if_not_exists client cfg w0) = w1
             /\ List.filter is_create_dataset
                  (evs (create_dataset_if_not_exists client cfg w0)) = []) as Hthere.
  { intros w0 found w1 Hget.
    unfold create_dataset_if_not_exists, getitem. rewrite Hp, Hd.
    rewrite !bind_lift_ok. fold dataset_id. run_script. rewrite Hget. by cbn. }
  assert (exists found w1,
             get_dataset dataset_id (wh (create_dataset_if_not_exists client cfg w))
             = (Ok found, w1)) as (found & w1 & Hget2).
  { destruct (get_dataset dataset_id w) as [[found|e] w1] eqn:Hget.
    - destruct (Hthere w found w1 Hget) as (_ & -> & _).
      by apply (Hkept dataset_id found w w1).
    - revert Hfirst.
      unfold create_dataset_if_not_exists, getitem. rewrite Hp, Hd.
      rewrite !bind_lift_ok. fold dataset_id. unfold Dataset_new.
      destruct (accepts_dataset_id dataset_id);
        run_script; rewrite Hget; cbn; [|discriminate].
      destruct (cfg !! "location") as [location|]; cbn; [|discriminate].
      unfold set_description, set_location. cbn.
      destruct (create_dataset _ w1) as [[[]|e'] w2] eqn:Hc; cbn; [|discriminate].
      intros _. apply (Hcreated _ _ _ Hc). }
  destruct (Hthere _ found w1 Hget2) as (Hres & _ & Hnone). by split.
Qed.

Lemma schema_loader_bad_entry_eq
    (schema_file text : string) (good : list (gmap string json))
    (bad : json) (rest : list json) (w : W) :
  let schema_path :=
    path_join (path_join (path_join (path_join (script_dir p) "..") "data")
                         "schemas") schema_file in
  files p !! schema_path = Some text ->
  json_loads text = Some (JArr (map JObj good ++ bad :: rest)) ->
  Forall field_entry good ->
  res (load_table_schema p schema_file w)
  = match bad with
    | JObj members =>
        match members !! "name", members !! "type" with
        | None, _ => Raise (KeyError "name")
        | Some _, None => Raise (KeyError "type")
        | Some _, Some _ =>
            match members !! "mode" with
            | Some (JBool _) | Some (JInt _) | Some (JFloat _)
            | Some (JArr _) | Some (JObj _) => Raise AttributeError
            | _ => res (load_table_schema p schema_file w)
            end
        end
    | _ => Raise TypeError
    end.
Proof.
  intros schema_path Hf Hj Hgood.
  assert (forall schema,
             append_fields schema (map JObj good ++ bad :: rest)
             = match bad with
               | JObj members =>
                   match members !! "name", members !! "type" with
                   | None, _ => Raise (KeyError "name")
                   | Some _, None => Raise (KeyError "type")
                   | Some _, Some _ =>
                       match members !! "mode" with
                       | Some (JBool _) | Some (JInt _) | Some (JFloat _)
                       | Some (JArr _) | Some (JObj _) => Raise AttributeError
                       | _ => append_fields schema (map JObj good ++ bad :: rest)
                       end
                   end
               | _ => Raise TypeError
               end) as Hloop.
  { clear Hj.
    induction Hgood as [|entry good ([n Hn] & [t Ht] & Hm & _) _ IH];
      intros schema.
    - cbn [map app append_fields].
      destruct bad; try reflexivity.
      cbn [subscript get_or]. unfold getitem.
      destruct (members !! "name"); [|reflexivity].
      destruct (members !! "type"); [|reflexivity].
      cbn [result_bind].
      by destruct (members !! "mode") as [[]|].
    - cbn [map]. rewrite <- app_comm_cons.
      destruct (SchemaField_new_text entry (JStr n) (JStr t) Hm)
        as (f & Hnew & _).
      cbn [append_fields subscript get_or]. unfold getitem.
      rewrite Hn, Ht. cbn [result_bind]. rewrite Hnew. cbn [result_bind].
      by rewrite IH at 1. }
  unfold load_table_schema, read_file, loads. fold schema_path.
  rewrite Hf. unfold bind, emit, ret, lift. cbn [res wh evs].
  rewrite Hj. cbn [res wh evs iterate].
  by rewrite (Hloop []) at 1.
Qed.

(** X16: the schema loader stops at the first entry that is not usable:
    after field entries (name and type are strings, mode and description
    are strings when they are there), an object without [name] gives
    [KeyError] for [name], one with a name but no [type] gives [KeyError]
    for [type], an entry that is not an object gives [TypeError], and an
    object with a name and a type whose mode is a number, a boolean, an
    array or an object gives [AttributeError]; no field list comes out. *)
Theorem schema_loader_first_bad_entry
    (schema_file text : string) (good : list (gmap string json))
    (bad : json) (rest : list json) (w : W) :
  let schema_path :=
    path_join (path_join (path_join (path_join (script_dir p) "..") "data")
                         "schemas") schema_file in
  files p !! schema_path = Some text ->
  json_loads text = Some (JArr (map JObj good ++ bad :: rest)) ->
  Forall field_entry good ->
  (forall members,
      bad = JObj members -> members !! "name" = None ->
      res (load_table_schema p schema_file w) = Raise (KeyError "name"))
  /\ (forall members,
        bad = JObj members -> is_Some (members !! "name") ->
        members !! "type" = None ->
        res (load_table_schema p schema_file w) = Raise (KeyError "type"))
  /\ ((forall members, bad <> JObj members) ->
      res (load_table_schema p schema_file w) = Raise TypeError)
  /\ (forall members n t m,
        bad = JObj members ->
        members !! "name" = Some (JStr n) ->
        members !! "type" = Some (JStr t) ->
        members !! "mode" = Some m ->
        match m with
        | JBool _ | JInt _ | JFloat _ | JArr _ | JObj _ => True
        | _ => False
        end ->
        res (load_table_schema p schema_file w) = Raise AttributeError).
Proof.
  intros schema_path Hf Hj Hgood.
  pose proof (schema_loader_bad_entry_eq schema_file text good bad rest w
                Hf Hj Hgood) as Heq.
  split; [|split; [|split]].
  - intros members -> Hn. by rewrite Hn in Heq.
  - intros members -> [n Hn] Ht. by rewrite Hn, Ht in Heq.
  - intros Hobj. destruct bad; try exact Heq. by destruct (Hobj members).
  - intros members n t m -> Hn Ht Hm Hkind.
    rewrite Hn, Ht, Hm in Heq. by destruct m.
Qed.

Lemma load_table_schema_eq (schema_file : string) (w : W) :
  let schema_path :=
    path_join (path_join (path_join (path_join (script_dir p) "..") "data")
                         "schemas") schema_file in
  load_table_schema p schema_file w
  = Outcome (match files p !! schema_path with
             | None => Raise (FileNotFoundError schema_path)
             | Some text =>
                 match json_loads text with
                 | None => Raise JSONDecodeError
                 | Some value => result_bind (iterate value) (append_fields [])
                 end
             end) w [EvOpen schema_path].
Proof.
  intros schema_path.
  unfold load_table_schema, read_file, loads. fold schema_path.
  unfold bind, emit, ret, raise, lift. cbn [res wh evs].
  destruct (files p !! schema_path) as [text|]; cbn [res wh evs]; [|reflexivity].
  destruct (json_loads text) as [value|]; cbn [res wh evs]; [|reflexivity].
  by destruct (iterate value) as [fields|e].
Qed.

(** X17: the schema loader only opens its file and leaves the warehouse
    alone.  A missing file gives [FileNotFoundError], text that is not
    JSON gives [JSONDecodeError], a number, a boolean or [null] in place
    of the array gives [TypeError], and the empty array gives the empty
    schema. *)
Theorem schema_loader_file_cases (schema_file : string) (w : W) :
  let schema_path :=
    path_join (path_join (path_join (path_join (script_dir p) "..") "data")
                         "schemas") schema_file in
  let run := load_table_schema p schema_file w in
  wh run = w
  /\ evs run = [EvOpen schema_path]
  /\ (files p !! schema_path = None ->
      res run = Raise (FileNotFoundError schema_path))
  /\ (forall text,
        files p !! schema_path = Some text ->
        (json_loads text = None -> res run = Raise JSONDecodeError)
        /\ (json_loads text = Some (JArr []) -> res run = Ok [])
        /\ (forall value,
              json_loads text = Some value ->
              match value with
              | JNull | JBool _ | JInt _ | JFloat _ => True
              | _ => False
              end ->
              res run = Raise TypeError)).
Proof.
  intros schema_path run. subst run.
  rewrite (load_table_schema_eq schema_file w). fold schema_path. cbn [res wh evs].
  split; [reflexivity|]. split; [reflexivity|]. split.
  - by intros ->.
  - intros text ->. split; [by intros ->|]. split; [by intros ->|].
    intros value -> Hv. by destruct value.
Qed.

End LoaderMore.

Lemma dataset_ensurer_failures_witness :
  LoadData.create_dataset_if_not_exists (HR := demo_runtime)
    demo_client dotted_config demo_store
  = Outcome (Raise ValueError) demo_store
            [EvGetDataset "proj.h.r"; EvPrint (CreatingDataset "proj.h.r")].
Proof.
  apply (proj1 (proj2 (dataset_ensurer_failures (W := Store) (HR := demo_runtime)
                         demo_client dotted_config demo_store))
           "proj" "h.r" (ApiError "Not found: dataset proj.h.r") demo_store);
    vm_compute; reflexivity.
Defined.

Lemma store_finds_created (d : Dataset) (w0 w1 : Store) :
  create_dataset d w0 = (Ok tt, w1) ->
  exists found w2, get_dataset (ds_id d) w1 = (Ok found, w2).
Proof.
  cbn [create_dataset get_dataset store_warehouse]. unfold store_lookup.
  destruct (st_datasets w0 !! ds_id d); [discriminate|].
  intros [= <-]. cbn [st_datasets]. rewrite lookup_insert_eq. eauto.
Defined.

Lemma store_keeps_found (id : string) (d : Dataset) (w0 w1 : Store) :
  get_dataset id w0 = (Ok d, w1) ->
  exists found w2, get_dataset id w1 = (Ok found, w2).
Proof.
  cbn [get_dataset store_warehouse]. unfold store_lookup.
  destruct (st_datasets w0 !! id) eqn:E; [|discriminate].
  intros [= <- <-]. rewrite E. eauto.
Defined.

Lemma dataset_ensurer_second_run_witness :
  let first := LoadData.create_dataset_if_not_exists (HR := demo_runtime)
                 demo_client demo_config demo_store in
  let second := LoadData.create_dataset_if_not_exists (HR := demo_runtime)
                  demo_client demo_config (wh first) in
  res second = Ok tt /\ List.filter is_create_dataset (evs second) = [].
Proof.
  apply (dataset_ensurer_second_run (W := Store) (HR := demo_runtime)
           demo_client demo_config
           "proj" "hr" demo_store store_finds_created store_keeps_found);
    vm_compute; reflexivity.
Defined.

Lemma schema_loader_first_bad_entry_witness :
  res (LoadData.load_table_schema (HR := typeless_runtime) demo_process
         "employees.json" demo_store)
  = Raise (KeyError "type").
Proof.
  apply (proj1 (proj2 (schema_loader_first_bad_entry (W := Store)
                         (HR := typeless_runtime) demo_process
                         "employees.json" "[schema]"
                         [ {[ "name" := JStr "id"; "type" := JStr "INTEGER" ]} ]
                         (JObj {[ "name" := JStr "dept" ]})
                         [ JObj {[ "name" := JStr "salary";
                                   "type" := JStr "NUMERIC" ]} ]
                         demo_store
                         ltac:(vm_compute; reflexivity)
                         ltac:(vm_compute; reflexivity)
                         ltac:(repeat constructor; vm_compute; eauto)))
           {[ "name" := JStr "dept" ]}).
  - reflexivity.
  - vm_compute. eauto.
  - vm_compute. reflexivity.
Defined.

Lemma schema_loader_file_cases_witness :
  res (LoadData.load_table_schema (HR := demo_runtime) demo_process
         "missing.json" demo_store)
  = Raise (FileNotFoundError "/app/scripts/../data/schemas/missing.json").
Proof.
  apply (proj1 (proj2 (proj2 (schema_loader_file_cases (W := Store)
                                (HR := demo_runtime) demo_process
                                "missing.json" demo_store)))).
  vm_compute. reflexivity.
Defined.

(** ** The load job *)

Section LoadJobFacts.
Context {W : Type} {HW : Warehouse W} {HL : LoadApi W} {HR : Runtime}.
Variable p : process.

Import LoadDataJob.

Lemma bind_perform_ok {A B} (op : Recorded W -> result A * Recorded W)
    (k : A -> M (Recorded W) B) s a s' :
  op s = (Ok a, s') -> bind (perform op) k s = k a s'.
Proof.
  intros E. unfold bind, perform. rewrite E. cbn. by destruct (k a s').
Qed.

Lemma bind_perform_raise {A B} (op : Recorded W -> result A * Recorded W)
    (k : A -> M (Recorded W) B) s e s' :
  op s = (Raise e, s') -> bind (perform op) k s = Outcome (Raise e) s' [].
Proof. intros E. unfold bind, perform. by rewrite E. Qed.

(** The loader, step by step, once its first four settings are there. *)
Lemma load_data_to_bigquery_eq client (cfg : config)
    project dataset table schema_file (w : W) log :
  let table_id := project +:+ "." +:+ dataset +:+ "." +:+ table in
  let schema_path :=
    path_join (path_join (path_join (path_join (script_dir p) "..") "data")
                         "schemas") schema_file in
  cfg !! "gcp_project_id" = Some project ->
  cfg !! "dataset_id" = Some dataset ->
  cfg !! "table_id" = Some table ->
  cfg !! "schema_file" = Some schema_file ->
  load_data_to_bigquery (W := Recorded W) p client cfg (w, log)
  = match res (LoadData.load_table_schema (W := Recorded W) p schema_file (w, log)) with
    | Raise e => Outcome (Raise e) (w, log) [EvOpen schema_path]
    | Ok fields =>
        match cfg !! "data_file" with
        | None => Outcome (Raise (KeyError "data_file")) (w, log) [EvOpen schema_path]
        | Some data_file =>
            let csv_path :=
              path_join (path_join (path_join (script_dir p) "..") "data")
                        data_file in
            match files p !! csv_path with
            | None =>
                Outcome (Raise (FileNotFoundError csv_path)) (w, log)
                        [EvOpen schema_path; EvOpen csv_path]
            | Some content =>
                let submit := Submitted content table_id (overwrite_csv fields) in
                match load_table_from_file content table_id
                                           (overwrite_csv fields) w with
                | (Raise e, w1) =>
                    Outcome (Raise e) (w1, log ++ [submit (Raise e)])
                            [EvOpen schema_path; EvOpen csv_path]
                | (Ok job, w1) =>
                    match load_job_result job w1 with
                    | (Raise e, w2) =>
                        Outcome (Raise e)
                                (w2, log ++ [submit (Ok job); Awaited job])
                                [EvOpen schema_path; EvOpen csv_path]
                    | (Ok _, w2) =>
                        match get_table table_id w2 with
                        | (Raise e, w3) =>
                            Outcome (Raise e)
                                    (w3, log ++ [submit (Ok job); Awaited job])
                                    [EvOpen schema_path; EvOpen csv_path;
                                     EvGetTable table_id]
                        | (Ok loaded, w3) =>
                            Outcome (match num_bytes loaded with
                                     | Some _ => Ok loaded
                                     | None => Raise TypeError
                                     end)
                                    (w3, log ++ [submit (Ok job); Awaited job])
                                    [EvOpen schema_path; EvOpen csv_path;
                                     EvGetTable table_id]
                        end
                    end
                end
            end
        end
    end.
Proof.
  intros table_id schema_path Hp Hd Ht Hs.
  unfold load_data_to_bigquery, getitem. rewrite Hp, Hd, Ht, Hs.
  eval_script. fold table_id.
  pose proof (load_table_schema_eq (W := Recorded W) p schema_file (w, log))
    as Hschema.
  cbn zeta in Hschema. fold schema_path in Hschema.
  set (loaded_schema := match files p !! schema_path with
                        | Some text => _ | None => _ end) in Hschema.
  rewrite Hschema. cbn [res].
  destruct loaded_schema as [fields|e].
  2: { by rewrite (bind_eval_raise _ _ _ _ _ _ Hschema). }
  rewrite (bind_eval_ok _ _ _ _ _ _ Hschema).
  destruct (cfg !! "data_file") as [data_file|].
  2: { eval_script. reflexivity. }
  eval_script. cbn zeta.
  set (csv_path := path_join _ data_file).
  fold (overwrite_csv fields). unfold read_file.
  destruct (files p !! csv_path) as [content|].
  2: { eval_script. reflexivity. }
  eval_script.
  destruct (load_table_from_file content table_id (overwrite_csv fields) w)
    as [[job|e] w1] eqn:Hsub.
  2: { erewrite bind_perform_raise;
         [|cbn; unfold recording; cbn; rewrite Hsub; reflexivity].
       eval_script. reflexivity. }
  erewrite bind_perform_ok;
    [|cbn; unfold recording; cbn; rewrite Hsub; reflexivity].
  destruct (load_job_result job w1) as [[[]|e] w2] eqn:Hwait.
  2: { erewrite bind_perform_raise;
         [|cbn; unfold recording; cbn; rewrite Hwait; reflexivity].
       eval_script. by rewrite <- app_assoc. }
  erewrite bind_perform_ok;
    [|cbn; unfold recording; cbn; rewrite Hwait; reflexivity].
  rewrite <- app_assoc. cbn [app].
  destruct (get_table table_id w2) as [[loaded|e] w3] eqn:Hget.
  2: { erewrite bind_call_raise;
         [|cbn; unfold on_service; cbn; rewrite Hget; reflexivity].
       eval_script. reflexivity. }
  erewrite bind_call_ok;
    [|cbn; unfold on_service; cbn; rewrite Hget; reflexivity].
  destruct (num_bytes loaded); eval_script; reflexivity.
Qed.

(** Without one of its first four settings the loader raises at once. *)
Lemma load_data_to_bigquery_missing client (cfg : config) (s : Recorded W) :
  cfg !! "gcp_project_id" = None \/ cfg !! "dataset_id" = None
  \/ cfg !! "table_id" = None \/ cfg !! "schema_file" = None ->
  exists key,
    load_data_to_bigquery p client cfg s = Outcome (Raise (KeyError key)) s [].
Proof.
  intros Hk. unfold load_data_to_bigquery, getitem.
  destruct (cfg !! "gcp_project_id") as [project|];
    [|eexists; by eval_script].
  destruct (cfg !! "dataset_id") as [dataset|];
    [|eexists; by eval_script].
  destruct (cfg !! "table_id") as [table|];
    [|eexists; by eval_script].
  destruct (cfg !! "schema_file") as [schema_file|];
    [|eexists; by eval_script].
  by destruct Hk as [|[|[|]]].
Qed.

Lemma load_data_to_bigquery_calls client (cfg : config) (s : Recorded W) :
  let run := load_data_to_bigquery p client cfg s in
  exists calls,
    snd (wh run) = snd s ++ calls
    /\ ((calls = [] /\ forall loaded, res run <> Ok loaded)
        \/ (exists content table_id fields e,
               calls = [Submitted content table_id (overwrite_csv fields)
                                  (Raise e)]
               /\ res run = Raise e)
        \/ (exists content table_id fields job,
               calls = [Submitted content table_id (overwrite_csv fields)
                                  (Ok job);
                        Awaited job])).
Proof.
  cbn zeta. destruct s as [w log].
  destruct (cfg !! "gcp_project_id") as [project|] eqn:Hp.
  2: { destruct (load_data_to_bigquery_missing client cfg (w, log)) as [key ->];
         [by left|].
       exists []. cbn. rewrite app_nil_r. split; [done|]. by left. }
  destruct (cfg !! "dataset_id") as [dataset|] eqn:Hd.
  2: { destruct (load_data_to_bigquery_missing client cfg (w, log)) as [key ->];
         [by right; left|].
       exists []. cbn. rewrite app_nil_r. split; [done|]. by left. }
  destruct (cfg !! "table_id") as [table|] eqn:Ht.
  2: { destruct (load_data_to_bigquery_missing client cfg (w, log)) as [key ->];
         [by right; right; left|].
       exists []. cbn. rewrite app_nil_r. split; [done|]. by left. }
  destruct (cfg !! "schema_file") as [schema_file|] eqn:Hs.
  2: { destruct (load_data_to_bigquery_missing client cfg (w, log)) as [key ->];
         [by right; right; right|].
       exists []. cbn. rewrite app_nil_r. split; [done|]. by left. }
  rewrite (load_data_to_bigquery_eq client cfg project dataset table schema_file
             w log Hp Hd Ht Hs).
  destruct (res (LoadData.load_table_schema (W := Recorded W) p schema_file (w, log)))
    as [fields|e].
  2: { exists []. cbn. rewrite app_nil_r. split; [done|]. by left. }
  destruct (cfg !! "data_file") as [data_file|].
  2: { exists []. cbn. rewrite app_nil_r. split; [done|]. by left. }
  cbn zeta. destruct (files p !! _) as [content|].
  2: { exists []. cbn. rewrite app_nil_r. split; [done|]. by left. }
  destruct (load_table_from_file content _ (overwrite_csv fields) w)
    as [[job|e] w1].
  2: { eexists. cbn. split; [reflexivity|]. right. left. eauto 10. }
  destruct (load_job_result job w1) as [[[]|e] w2];
    [|eexists; cbn; split; [reflexivity|]; right; right; eauto 10].
  destruct (get_table _ w2) as [[loaded|e] w3];
    eexists; cbn; (split; [reflexivity|]); right; right; eauto 10.
Qed.

(** X18: whatever happens, the loader submits at most one load job, a
    CSV load that skips one header row and replaces the table.  When the
    submission fails the loader ends with the error of the submission
    and waits for nothing; the only job it ever waits for is the one its
    submission returned; and when it returns a table it has submitted
    one job and waited for that job. *)
Theorem loader_submits_at_most_one_job client (cfg : config) (s : Recorded W) :
  let run := load_data_to_bigquery p client cfg s in
  exists calls,
    snd (wh run) = snd s ++ calls
    /\ ((calls = [] /\ forall loaded, res run <> Ok loaded)
        \/ (exists content table_id fields e,
               calls = [Submitted content table_id (overwrite_csv fields)
                                  (Raise e)]
               /\ res run = Raise e)
        \/ (exists content table_id fields job,
               calls = [Submitted content table_id (overwrite_csv fields)
                                  (Ok job);
                        Awaited job])).
Proof. apply load_data_to_bigquery_calls. Qed.

(** X19: the loader submits nothing before it has what it needs.  When
    the schema cannot be loaded its error comes out and the data file is
    not opened; when the data file is missing [FileNotFoundError] comes
    out; in both cases the warehouse is as before and no job was
    submitted. *)
Theorem loader_stops_before_submitting client (cfg : config)
    project dataset table schema_file data_file (s : Recorded W) :
  let schema_path :=
    path_join (path_join (path_join (path_join (script_dir p) "..") "data")
                         "schemas") schema_file in
  let csv_path :=
    path_join (path_join (path_join (script_dir p) "..") "data") data_file in
  cfg !! "gcp_project_id" = Some project ->
  cfg !! "dataset_id" = Some dataset ->
  cfg !! "table_id" = Some table ->
  cfg !! "schema_file" = Some schema_file ->
  cfg !! "data_file" = Some data_file ->
  (forall e,
      res (LoadData.load_table_schema p schema_file s) = Raise e ->
      load_data_to_bigquery p client cfg s = Outcome (Raise e) s [EvOpen schema_path])
  /\ (forall fields,
        res (LoadData.load_table_schema p schema_file s) = Ok fields ->
        files p !! csv_path = None ->
        load_data_to_bigquery p client cfg s
        = Outcome (Raise (FileNotFoundError csv_path)) s
                  [EvOpen schema_path; EvOpen csv_path]).
Proof.
  intros schema_path csv_path Hp Hd Ht Hs Hf. destruct s as [w log].
  rewrite (load_data_to_bigquery_eq client cfg project dataset table schema_file
             w log Hp Hd Ht Hs).
  rewrite Hf. cbn zeta. fold schema_path csv_path. split.
  - by intros e ->.
  - intros fields -> Hcsv. by rewrite Hcsv.
Qed.

(** X20: a load job that fails ends the loader with the job's error: a
    job whose submission fails is not waited for, and after a job that
    fails while waited for the table is not fetched. *)
Theorem loader_job_failures client (cfg : config)
    project dataset table schema_file data_file fields content
    (w : W) (log : list load_call) :
  let table_id := project +:+ "." +:+ dataset +:+ "." +:+ table in
  let csv_path :=
    path_join (path_join (path_join (script_dir p) "..") "data") data_file in
  let submit := Submitted content table_id (overwrite_csv fields) in
  let run := load_data_to_bigquery (W := Recorded W) p client cfg (w, log) in
  cfg !! "gcp_project_id" = Some project ->
  cfg !! "dataset_id" = Some dataset ->
  cfg !! "table_id" = Some table ->
  cfg !! "schema_file" = Some schema_file ->
  cfg !! "data_file" = Some data_file ->
  res (LoadData.load_table_schema (W := Recorded W) p schema_file (w, log))
  = Ok fields ->
  files p !! csv_path = Some content ->
  (forall e w1,
      load_table_from_file content table_id (overwrite_csv fields) w = (Raise e, w1) ->
      res run = Raise e
      /\ wh run = (w1, log ++ [submit (Raise e)])
      /\ List.filter is_api_call (evs run) = [])
  /\ (forall job w1 e w2,
        load_table_from_file content table_id (overwrite_csv fields) w = (Ok job, w1) ->
        load_job_result job w1 = (Raise e, w2) ->
        res run = Raise e
        /\ wh run = (w2, log ++ [submit (Ok job); Awaited job])
        /\ List.filter is_api_call (evs run) = []).
Proof.
  intros table_id csv_path submit run Hp Hd Ht Hs Hf Hschema Hcsv. subst run.
  rewrite (load_data_to_bigquery_eq client cfg project dataset table schema_file
             w log Hp Hd Ht Hs).
  rewrite Hschema, Hf. cbn zeta. fold csv_path table_id. rewrite Hcsv.
  fold submit. split.
  - intros e w1 ->. by cbn.
  - intros job w1 e w2 -> ->. by cbn.
Qed.

(** *** Steps that make no load call *)

Lemma keeps_ret {A} (a : A) : keeps_log (W := W) (ret a).
Proof. by intros s. Qed.

Lemma keeps_raise {A} e : keeps_log (W := W) (raise (A := A) e).
Proof. by intros s. Qed.

Lemma keeps_lift {A} (r : result A) : keeps_log (W := W) (lift r).
Proof. by intros s. Qed.

Lemma keeps_emit e : keeps_log (W := W) (emit e).
Proof. by intros s. Qed.

Lemma keeps_print l : keeps_log (W := W) (print l).
Proof. by intros s. Qed.

Lemma keeps_call {A} e (op : W -> result A * W) :
  keeps_log (call e (on_service op)).
Proof.
  intros [w log]. unfold call, on_service. cbn [fst snd].
  by destruct (op w).
Qed.

Lemma keeps_bind {A B} (m : M (Recorded W) A) (k : A -> M (Recorded W) B) :
  keeps_log m -> (forall a, keeps_log (k a)) -> keeps_log (bind m k).
Proof.
  intros Hm Hk s. unfold bind. specialize (Hm s).
  destruct (res (m s)) as [a|e]; cbn [wh]; [|exact Hm].
  by rewrite Hk.
Qed.

Lemma keeps_try_except {A} (m : M (Recorded W) A) (h : exn -> M (Recorded W) A) :
  keeps_log m -> (forall e, keeps_log (h e)) -> keeps_log (try_except m h).
Proof.
  intros Hm Hh s. unfold try_except. specialize (Hm s).
  destruct (res (m s)) as [a|e]; cbn [wh]; [exact Hm|].
  by rewrite Hh.
Qed.

Lemma keeps_load_config : keeps_log (W := W) (LoadData.load_config p).
Proof. intros s. by rewrite data_loader_load_config_eq. Qed.

Lemma keeps_make_client info project :
  keeps_log (W := W) (make_client info project).
Proof.
  unfold make_client.
  apply keeps_bind; [destruct info as [i|]; [destruct (valid_service_account_info i)|];
                     first [apply keeps_ret | apply keeps_raise]|intros _].
  apply keeps_bind; [apply keeps_lift|intros proj].
  apply keeps_bind; [apply keeps_call|intros _]. apply keeps_ret.
Qed.

Lemma keeps_get_bigquery_client (cfg : config) :
  keeps_log (W := W) (LoadData.get_bigquery_client p cfg).
Proof.
  unfold LoadData.get_bigquery_client.
  destruct (environ p !! "GCP_SERVICE_ACCOUNT_KEY") as [[|c k]|].
  - apply keeps_bind; [apply keeps_print|intros _]. apply keeps_make_client.
  - apply keeps_bind; [apply keeps_print|intros _].
    apply keeps_bind; [apply keeps_lift|intros info]. apply keeps_make_client.
  - apply keeps_bind; [apply keeps_print|intros _]. apply keeps_make_client.
Qed.

Lemma keeps_create_dataset_if_not_exists client (cfg : config) :
  keeps_log (W := W) (LoadData.create_dataset_if_not_exists client cfg).
Proof.
  unfold LoadData.create_dataset_if_not_exists.
  apply keeps_bind; [apply keeps_lift|intros project].
  apply keeps_bind; [apply keeps_lift|intros dataset].
  apply keeps_try_except.
  - apply keeps_bind; [apply keeps_call|intros _]. apply keeps_print.
  - intros _. apply keeps_bind; [apply keeps_print|intros _].
    apply keeps_bind; [apply keeps_lift|intros new_dataset].
    apply keeps_bind; [apply keeps_lift|intros location].
    apply keeps_bind; [apply keeps_call|intros _]. apply keeps_print.
Qed.

Lemma grows_after_keeps {A B} P (m : M (Recorded W) A) (k : A -> M (Recorded W) B) :
  keeps_log m -> (forall a, grows_by P (k a)) -> grows_by P (bind m k).
Proof.
  intros Hm Hk s b. unfold bind. specialize (Hm s).
  destruct (res (m s)) as [a|e]; cbn [res wh]; [|discriminate].
  intros Hb. destruct (Hk a _ b Hb) as (calls & Hcalls & HP).
  exists calls. by rewrite Hcalls, Hm.
Qed.

Lemma grows_before_keeps {A B} P (m : M (Recorded W) A) (k : A -> M (Recorded W) B) :
  grows_by P m -> (forall a, keeps_log (k a)) -> grows_by P (bind m k).
Proof.
  intros Hm Hk s b. unfold bind.
  destruct (res (m s)) as [a|e] eqn:E; cbn [res wh]; [|discriminate].
  intros _. destruct (Hm s a E) as (calls & Hcalls & HP).
  exists calls. by rewrite Hk.
Qed.

Lemma grows_load_data_to_bigquery client (cfg : config) :
  grows_by one_overwrite_job (load_data_to_bigquery p client cfg).
Proof.
  intros s loaded Hres.
  destruct (load_data_to_bigquery_calls client cfg s)
    as (calls & Hcalls & [[_ Hno]|[(content & id & fields & e & _ & Hno)|Hjob]]).
  - by destruct (Hno loaded).
  - rewrite Hres in Hno. discriminate.
  - by exists calls.
Qed.

(** X21: when the data loader's [main] ends with 0, it has submitted
    exactly one load job, a CSV load that skips the header row and
    replaces the table, and has then waited for the job that this
    submission returned, and for no other. *)
Theorem data_loader_main_loads_once (s : Recorded W) (status : Z) :
  res (main p s) = Ok status ->
  status = 0%Z
  /\ exists content table_id fields job,
      snd (wh (main p s))
      = snd s ++ [Submitted content table_id (overwrite_csv fields) (Ok job);
                  Awaited job].
Proof.
  intros Hres.
  assert (grows_by one_overwrite_job (main (W := Recorded W) p)) as Hgrows.
  { unfold main.
    apply grows_after_keeps; [apply keeps_load_config|intros cfg].
    do 4 (apply grows_after_keeps; [apply keeps_lift|intros ?];
          apply grows_after_keeps; [apply keeps_print|intros _]).
    apply grows_after_keeps; [apply keeps_get_bigquery_client|intros client].
    apply grows_after_keeps; [apply keeps_create_dataset_if_not_exists|intros _].
    apply grows_before_keeps; [apply grows_load_data_to_bigquery|intros _].
    apply keeps_ret. }
  destruct (Hgrows s status Hres) as (calls & Hcalls & content & id & fields & job & ->).
  split; [|eauto 10].
  assert (reaching_zero : forall s' z, res (main (W := Recorded W) p s') = Ok z -> z = 0%Z).
  { clear. intros s' z. unfold main.
    repeat (let a := fresh in
            let E := fresh in
            match goal with
            | |- res (bind ?m ?k ?x) = Ok _ -> _ =>
                destruct (res (m x)) as [a|] eqn:E;
                [rewrite (bind_res_ok _ _ _ _ E)
                |rewrite (bind_raise _ _ _ _ E); discriminate]
            end).
    by intros [= <-]. }
  by apply (reaching_zero s).
Qed.

(** X22: what the data loader's [main] needs before it loads.  With a
    configuration that lacks the project, dataset or table id or the
    location, it raises [KeyError] before it builds a client or calls the
    warehouse; and when the dataset step raises, [main] ends with that
    error and exit status 1 and no load job is submitted. *)
Theorem data_loader_main_prerequisites (cfg : config) (s : Recorded W) :
  res (LoadData.load_config p s) = Ok cfg ->
  (cfg !! "gcp_project_id" = None \/ cfg !! "dataset_id" = None
   \/ cfg !! "table_id" = None \/ cfg !! "location" = None ->
   (exists key, res (main p s) = Raise (KeyError key))
   /\ wh (main p s) = s
   /\ List.filter is_api_call (evs (main p s)) = [])
  /\ (forall project dataset table location client e,
        cfg !! "gcp_project_id" = Some project ->
        cfg !! "dataset_id" = Some dataset ->
        cfg !! "table_id" = Some table ->
        cfg !! "location" = Some location ->
        res (LoadData.get_bigquery_client p cfg s) = Ok client ->
        res (LoadData.create_dataset_if_not_exists client cfg
               (wh (LoadData.get_bigquery_client p cfg s))) = Raise e ->
        res (main p s) = Raise e
        /\ exit_status (res (main p s)) = 1%Z
        /\ snd (wh (main p s)) = snd s).
Proof.
  intros Hcfg.
  pose proof (data_loader_load_config_eq p s) as Hload. cbn zeta in Hload.
  rewrite Hload in Hcfg. cbn [res] in Hcfg. rewrite Hcfg in Hload. clear Hcfg.
  split.
  - intros Hk. unfold main. rewrite (bind_eval_ok _ _ _ _ _ _ Hload).
    unfold getitem.
    destruct (cfg !! "gcp_project_id") as [project|];
      [|eval_script; cbn; eauto].
    destruct (cfg !! "dataset_id") as [dataset|];
      [|eval_script; cbn; eauto].
    destruct (cfg !! "table_id") as [table|];
      [|eval_script; cbn; eauto].
    destruct (cfg !! "location") as [location|];
      [|eval_script; cbn; eauto].
    by destruct Hk as [|[|[|]]].
  - intros project dataset table location client e Hp Hd Ht Hl Hclient Hensure.
    pose proof (keeps_get_bigquery_client cfg s) as Hlog2.
    pose proof (keeps_create_dataset_if_not_exists client cfg
                  (wh (LoadData.get_bigquery_client p cfg s))) as Hlog3.
    destruct (LoadData.get_bigquery_client p cfg s) as [r2 s2 es2] eqn:E2.
    cbn [res wh] in *. subst r2.
    destruct (LoadData.create_dataset_if_not_exists client cfg s2)
      as [r3 s3 es3] eqn:E3.
    cbn [res wh] in *. subst r3.
    assert (main p s
            = Outcome (Raise e) s3
                (EvOpen (path_join (path_join (path_join (script_dir p) "..")
                                              "config") "config.yaml")
                 :: EvPrint (ConfigValue "Project" project)
                 :: EvPrint (ConfigValue "Dataset" dataset)
                 :: EvPrint (ConfigValue "Table" table)
                 :: EvPrint (ConfigValue "Location" location)
                 :: es2 ++ es3)) as Hmain.
    { unfold main. rewrite (bind_eval_ok _ _ _ _ _ _ Hload).
      unfold getitem. rewrite Hp, Hd, Ht, Hl. eval_script.
      rewrite (bind_eval_ok _ _ _ _ _ _ E2).
      rewrite (bind_eval_raise _ _ _ _ _ _ E3).
      by eval_script. }
    rewrite Hmain. cbn [res wh exit_status]. by rewrite Hlog3, Hlog2.
Qed.

End LoadJobFacts.

Lemma loader_stops_before_submitting_witness :
  LoadDataJob.load_data_to_bigquery (W := Recorded Store) (HR := load_runtime)
    csvless_process demo_client load_config_full (demo_store, [])
  = Outcome (Raise (FileNotFoundError "/app/scripts/../data/employees.csv"))
            (demo_store, [])
            [EvOpen "/app/scripts/../data/schemas/employees.json";
             EvOpen "/app/scripts/../data/employees.csv"].
Proof.
  eapply (proj2 (loader_stops_before_submitting (W := Store) (HR := load_runtime)
                   csvless_process demo_client load_config_full
                   "proj" "hr" "employees" "employees.json" "employees.csv"
                   (demo_store, [])
                   eq_refl eq_refl eq_refl eq_refl eq_refl));
    vm_compute; reflexivity.
Defined.

Lemma loader_job_failures_witness :
  let run := LoadDataJob.load_data_to_bigquery (W := Recorded Store)
               (HL := recorded_load (HL := refusing_load)) (HR := load_runtime)
               load_process demo_client load_config_full (demo_store, []) in
  res run = Raise (ApiError "Forbidden")
  /\ List.filter is_api_call (evs run) = [].
Proof.
  destruct (proj1 (loader_job_failures (W := Store) (HL := refusing_load)
                     (HR := load_runtime)
                     load_process demo_client load_config_full
                     "proj" "hr" "employees" "employees.json" "employees.csv"
                     [ {| name := JStr "id"; field_type := JStr "INTEGER";
                          mode := Some (PyStr.code_points "REQUIRED");
                          description := JStr "" |};
                       {| name := JStr "dept"; field_type := JStr "STRING";
                          mode := Some (PyStr.code_points "NULLABLE");
                          description := JStr "Department" |} ]
                     "id,dept
1,ops
2,dev
" demo_store []
                     eq_refl eq_refl eq_refl eq_refl eq_refl
                     ltac:(vm_compute; reflexivity)
                     ltac:(vm_compute; reflexivity))
                  (ApiError "Forbidden") demo_store eq_refl)
    as (Hres & _ & Hquiet).
  split; [exact Hres|exact Hquiet].
Defined.

Lemma data_loader_main_loads_once_witness :
  exists content table_id fields job,
    snd (wh (LoadDataJob.main (W := Recorded Store) (HR := load_runtime)
               load_process (demo_store, [])))
    = [] ++ [Submitted content table_id (overwrite_csv fields) (Ok job);
             Awaited job].
Proof.
  apply (data_loader_main_loads_once (W := Store) (HR := load_runtime)
           load_process (demo_store, []) 0%Z).
  vm_compute. reflexivity.
Defined.

Lemma data_loader_main_prerequisites_witness :
  (exists key,
      res (LoadDataJob.main (W := Recorded Store) (HR := tableless_runtime)
             demo_process (demo_store, [])) = Raise (KeyError key))
  /\ wh (LoadDataJob.main (W := Recorded Store) (HR := tableless_runtime)
           demo_process (demo_store, [])) = (demo_store, [])
  /\ List.filter is_api_call
       (evs (LoadDataJob.main (W := Recorded Store) (HR := tableless_runtime)
               demo_process (demo_store, []))) = [].
Proof.
  apply (proj1 (data_loader_main_prerequisites (W := Store)
                  (HR := tableless_runtime) demo_process tableless_config
                  (demo_store, []) ltac:(vm_compute; reflexivity))).
  right. right. left. reflexivity.
Defined.
